(** * File-to-table load utility: schema reconciliation and statement synthesis

    A shallow embedding of [cdw_file_to_table_load_utility_v1.py].  The
    module defines one entry point, [read_from_s3_and_write_to_oracle],
    with five nested helpers.  Pure fragments (row normalisation, column
    resolution, statement synthesis) are embedded as functions; the
    database-touching helpers run in a small exception-and-trace monad over
    an abstract driver and object store. *)

From Stdlib Require Import ZArith Lia String Ascii List DecimalString SpecFloat.
From stdpp Require Import base list strings.

(** ** Python strings *)

Module PyStr.

(** [str(n)] for a non-negative integer. *)
Definition str (n : nat) : string := NilEmpty.string_of_uint (Nat.to_uint n).

(** [sep.join(l)] *)
Fixpoint join (sep : string) (l : list string) : string :=
  match l with
  | [] => EmptyString
  | x :: rest =>
      match rest with
      | [] => x
      | _ :: _ => x +:+ sep +:+ join sep rest
      end
  end.

(** A [str] is held as the bytes of its UTF-8 form, which is also how a
    string literal of this file is stored.  A character (a code point) is a
    lead byte followed by its continuation bytes, the bytes from 128 to
    191; a 7-bit character is its own single byte. *)
Definition is_continuation (b : ascii) : bool :=
  let n := nat_of_ascii b in
  (128 <=? n) && (n <? 192).

Definition continues (c : string) : bool :=
  match c with
  | EmptyString => false
  | String b _ => is_continuation b
  end.

(** The bytes after the lead byte of a character. *)
Fixpoint continuation_bytes (t : string) : bool :=
  match t with
  | EmptyString => true
  | String b r => is_continuation b && continuation_bytes r
  end.

(** Iterating a [str] yields its characters as one-character strings. *)
Fixpoint chars (s : string) : list string :=
  match s with
  | EmptyString => []
  | String b r =>
      match chars r with
      | [] => [String b EmptyString]
      | c :: cs =>
          if continues c then String b c :: cs
          else String b EmptyString :: c :: cs
      end
  end.

(** [len(s)], the number of characters. *)
Definition len (s : string) : nat := length (chars s).

(** The bits that a byte contributes to its code point. *)
Definition payload (b : ascii) : N :=
  let n := N_of_ascii b in
  if (n <? 128)%N then n
  else if (n <? 192)%N then (n - 128)%N
  else if (n <? 224)%N then (n - 192)%N
  else if (n <? 240)%N then (n - 224)%N
  else (n - 240)%N.

Fixpoint ord_from (acc : N) (continuation : string) : N :=
  match continuation with
  | EmptyString => acc
  | String b r => ord_from (acc * 64 + payload b)%N r
  end.

(** [ord(c)] for a one-character string. *)
Definition ord (c : string) : N :=
  match c with
  | EmptyString => 0%N
  | String b continuation => ord_from (payload b) continuation
  end.

(** The code points that [str.isspace], [str.strip] and the pattern [\s]
    take for whitespace: TAB, LF, VT, FF, CR, FS, GS, RS, US, SPACE,
    U+0085, U+00A0, U+1680, U+2000 to U+200A, U+2028, U+2029, U+202F,
    U+205F and U+3000. *)
Definition whitespace (n : N) : bool :=
  ((9 <=? n) && (n <=? 13) || (28 <=? n) && (n <=? 32)
   || (n =? 133) || (n =? 160) || (n =? 5760)
   || (8192 <=? n) && (n <=? 8202)
   || (n =? 8232) || (n =? 8233) || (n =? 8239) || (n =? 8287)
   || (n =? 12288))%N.

(** [c.isspace()] for a one-character string. *)
Definition isspace (c : string) : bool := whitespace (ord c).

(** Dropping the leading whitespace of a list of characters. *)
Fixpoint lstrip (l : list string) : list string :=
  match l with
  | [] => []
  | c :: r => if isspace c then lstrip r else l
  end.

Definition rstrip (l : list string) : list string := rev (lstrip (rev l)).

(** [s.strip()] *)
Definition strip (s : string) : string :=
  join EmptyString (rstrip (lstrip (chars s))).

(** [re.search(r'\s', s) is not None] *)
Definition search_space (s : string) : bool := existsb isspace (chars s).

(** [s.endswith(suffix)] *)
Fixpoint endswith (s suffix : string) : bool :=
  String.eqb s suffix ||
  match s with
  | EmptyString => false
  | String _ r => endswith r suffix
  end.

(** [s.split('.')]: never empty; a string without a dot is its own
    single component. *)
Fixpoint split_dot (s : string) : list string :=
  match s with
  | EmptyString => [EmptyString]
  | String c r =>
      if Ascii.eqb c "."%char then EmptyString :: split_dot r
      else match split_dot r with
           | [] => [String c EmptyString]
           | h :: t => String c h :: t
           end
  end.

(** The double-quote character as a string. *)
Definition dquote : string := String (ascii_of_nat 34) EmptyString.

End PyStr.

(** ** Exceptions and results *)

Inductive exception : Type :=
| TypeError
| AttributeError
| UnboundLocalError
| IndexError
| DatabaseError (message : string).

Inductive result (A : Type) : Type :=
| Ok (a : A)
| Raise (e : exception).
Arguments Ok {A} a.
Arguments Raise {A} e.

(** ** Statement synthesis ([load_csv_data_into_table], lines 182-193) *)

(** One element of [dateColumnConversion]: a dict with the two keys the
    loop reads. *)
Record dateColConversionDict : Type := mkDateCol {
  dateColumnIndex : Z;
  dateColumnConversionFormat : string
}.

Module Synth.
Import PyStr.

(** [f":{x+1}"] *)
Definition bare_slot (x : nat) : string := ":" +:+ str (x + 1).

(** [f"TO_DATE(:{x+1}, '{fmt}')"] *)
Definition to_date_slot (x : nat) (fmt : string) : string :=
  "TO_DATE(:" +:+ str (x + 1) +:+ ", '" +:+ fmt +:+ "')".

(** Body of the inner loop (lines 185-188); the state is the flag
    [dateColumnIndexExists] and the list [valuesToInsert]. *)
Definition date_loop_body (x : nat) (st : bool * list string)
    (d : dateColConversionDict) : bool * list string :=
  if (Z.of_nat x =? dateColumnIndex d)%Z
  then (true, snd st ++ [to_date_slot x (dateColumnConversionFormat d)])
  else st.

(** Body of the outer loop (lines 183-190). *)
Definition position_body (dateColumnConversion : list dateColConversionDict)
    (valuesToInsert : list string) (x : nat) : list string :=
  let st := fold_left (date_loop_body x) dateColumnConversion (false, valuesToInsert) in
  if negb (fst st) then snd st ++ [bare_slot x] else snd st.

(** The list [valuesToInsert] as it stands before line 191 joins it. *)
Definition valuesToInsert (dataDF_columns : list string)
    (dateColumnConversion : list dateColConversionDict) : list string :=
  fold_left (position_body dateColumnConversion)
            (seq 0 (length dataDF_columns)) [].

(** [staging_table_columns[x] for x in range(0, len(staging_table_columns))] *)
Definition columns_by_index (staging_table_columns : list string) : list string :=
  List.map (fun x => default EmptyString (staging_table_columns !! x))
           (seq 0 (length staging_table_columns)).

(** Lines 182-193.  [staging_table_columns] is [None] when the resolver
    returned nothing; [len(None)] then raises [TypeError], after the
    value list has been built. *)
Definition data_insertion_query (staging_tablename : string)
    (staging_table_columns : option (list string))
    (dataDF_columns : list string)
    (dateColumnConversion : list dateColConversionDict) : result string :=
  let values := join ", " (valuesToInsert dataDF_columns dateColumnConversion) in
  match staging_table_columns with
  | None => Raise TypeError
  | Some cols =>
      Ok ("INSERT INTO " +:+ staging_tablename +:+ "(" +:+
          join ", " (columns_by_index cols) +:+ ") VALUES(" +:+ values +:+ ")")
  end.

(** *** Reading the value list position by position *)

(** Entries of the mapping whose index is the position [x]. *)
Definition entries_at (x : nat) (dateColumnConversion : list dateColConversionDict)
    : list dateColConversionDict :=
  List.filter (fun d => (Z.of_nat x =? dateColumnIndex d)%Z) dateColumnConversion.

(** The slots emitted while the outer loop is at position [x]. *)
Definition slots_at (dateColumnConversion : list dateColConversionDict) (x : nat)
    : list string :=
  match entries_at x dateColumnConversion with
  | [] => [bare_slot x]
  | ds => List.map (fun d => to_date_slot x (dateColumnConversionFormat d)) ds
  end.

(** Indices of the mapping that denote a position of a row of width [n]. *)
Definition in_range (n : nat) (i : Z) : bool := ((0 <=? i) && (i <? Z.of_nat n))%Z.

Definition in_range_indices (n : nat) (dateColumnConversion : list dateColConversionDict)
    : list Z :=
  List.filter (in_range n) (List.map dateColumnIndex dateColumnConversion).

End Synth.


(** ** Row values and NaN normalisation (lines 261-269) *)

(** Scalars found in a row of [dataDF.values].  [isinstance(v, float)] holds
    of [PyFloat] only; [math.isnan] holds of [S754_nan] only. *)
Inductive pyvalue : Type :=
| PyNone
| PyBool (b : bool)
| PyInt (z : Z)
| PyFloat (f : spec_float)
| PyStr (s : string).

Module Normalizer.

Definition isnan (f : spec_float) : bool :=
  match f with
  | S754_nan => true
  | _ => false
  end.

(** [enumerate(l)] *)
Definition enumerate {A : Type} (l : list A) : list (nat * A) :=
  combine (seq 0 (length l)) l.

(** Body of the loop at lines 264-267: [dataList[idx] = None] when the
    value is a float and is NaN.  [idx] comes from enumerating a copy of
    [dataList], so the assignment is always in range. *)
Definition nan_body (dataList : list pyvalue) (iv : nat * pyvalue) : list pyvalue :=
  match snd iv with
  | PyFloat f => if isnan f then <[fst iv := PyNone]> dataList else dataList
  | _ => dataList
  end.

(** Lines 263-268 for one [dataTuple]: enumerate a copy, update the list. *)
Definition modified_dataTuple (dataTuple : list pyvalue) : list pyvalue :=
  let dataList := dataTuple in
  fold_left nan_body (enumerate dataList) dataList.

(** Lines 261-269: the list [modified_dataInsertionTuples]. *)
Definition modified_dataInsertionTuples (dataInsertionTuples : list (list pyvalue))
    : list (list pyvalue) :=
  fold_left (fun acc dataTuple => acc ++ [modified_dataTuple dataTuple])
            dataInsertionTuples [].

(** What the claim says of one value. *)
Definition nan_to_none (v : pyvalue) : pyvalue :=
  match v with
  | PyFloat S754_nan => PyNone
  | _ => v
  end.

(** *** The same lines over a store of objects

    Rows live in a store; a row sequence is a list of addresses.  [list(t)]
    and [tuple(l)] allocate, item assignment updates the list in place.  A
    function returns [None] where Python would stop on a dangling address or
    an assignment into a tuple. *)

Inductive object : Type :=
| Tuple (items : list pyvalue)
| PyList (items : list pyvalue).

Definition items_of (o : object) : list pyvalue :=
  match o with
  | Tuple l => l
  | PyList l => l
  end.

Definition alloc (h : list object) (o : object) : list object * nat :=
  (h ++ [o], length h).

(** [l[idx] = v] for the list at address [a]. *)
Definition setitem (h : list object) (a idx : nat) (v : pyvalue) : option (list object) :=
  match h !! a with
  | Some (PyList l) =>
      if decide (idx < length l) then Some (<[a := PyList (<[idx := v]> l)]> h) else None
  | _ => None
  end.

Fixpoint nan_loop (h : list object) (dataList : nat) (items : list (nat * pyvalue))
    : option (list object) :=
  match items with
  | [] => Some h
  | (idx, value) :: rest =>
      match value with
      | PyFloat f =>
          if isnan f
          then h' ← setitem h dataList idx PyNone; nan_loop h' dataList rest
          else nan_loop h dataList rest
      | _ => nan_loop h dataList rest
      end
  end.

(** One iteration of the loop at line 262; the state is the store and the
    list [modified_dataInsertionTuples] of addresses built so far. *)
Definition row_step (st : list object * list nat) (dataTuple : nat)
    : option (list object * list nat) :=
  t ← fst st !! dataTuple;
  let '(h1, dataList) := alloc (fst st) (PyList (items_of t)) in
  l ← h1 !! dataList;
  let '(h2, snapshot) := alloc h1 (PyList (items_of l)) in
  s ← h2 !! snapshot;
  h3 ← nan_loop h2 dataList (enumerate (items_of s));
  l' ← h3 !! dataList;
  let '(h4, modified) := alloc h3 (Tuple (items_of l')) in
  Some (h4, snd st ++ [modified]).

Fixpoint rows_loop (st : list object * list nat) (dataInsertionTuples : list nat)
    : option (list object * list nat) :=
  match dataInsertionTuples with
  | [] => Some st
  | a :: rest => st' ← row_step st a; rows_loop st' rest
  end.

Definition normalize_store (h : list object) (dataInsertionTuples : list nat)
    : option (list object * list nat) :=
  rows_loop (h, []) dataInsertionTuples.

(** The rows a list of addresses denotes. *)
Definition rows_at (h : list object) (addrs : list nat) : list (list pyvalue) :=
  List.map (fun a => from_option items_of [] (h !! a)) addrs.

End Normalizer.

(** ** Column resolution, pure part (lines 101-131) *)

Module Resolver.
Import PyStr.

(** [stagingTableColumnsDF.values.squeeze().tolist()]: the frame has one
    column and one row per record.  [squeeze] drops every axis of length
    one, so a single record leaves a zero-dimensional array and [tolist]
    returns its only element, a [str]; otherwise the result is a list. *)
Inductive squeezed : Type :=
| Scalar (s : string)
| Listed (l : list string).

Definition squeeze_tolist (records : list string) : squeezed :=
  match records with
  | [name] => Scalar name
  | _ => Listed records
  end.

(** What [for c in stagingTableColumns] visits. *)
Definition iterate (v : squeezed) : list string :=
  match v with
  | Scalar s => chars s
  | Listed l => l
  end.

(** [x not in stagingTableOptionalColumns] *)
Definition not_in (x : string) (l : list string) : bool :=
  negb (existsb (String.eqb x) l).

(** Line 116. *)
Definition stagingTableColumnsModifiedv1 (stagingTableColumns : squeezed)
    (stagingTableOptionalColumns : list string) : list string :=
  List.map strip
    (List.filter (fun c => not_in (strip c) stagingTableOptionalColumns)
                 (iterate stagingTableColumns)).

(** Lines 126-131. *)
Definition quote_step (acc : list string) (stagingTableCol : string) : list string :=
  if search_space stagingTableCol
  then acc ++ [dquote +:+ stagingTableCol +:+ dquote]
  else acc ++ [stagingTableCol].

Definition stagingTableColumnsModifiedv2 (v1 : list string) : list string :=
  fold_left quote_step v1 [].

(** Lines 101-131 from the fetched records to the returned list. *)
Definition resolve (records : list string) (stagingTableOptionalColumns : list string)
    : list string :=
  stagingTableColumnsModifiedv2
    (stagingTableColumnsModifiedv1 (squeeze_tolist records) stagingTableOptionalColumns).

(** The identifier the spec asks for a trimmed name. *)
Definition quoted (name : string) : string :=
  if search_space name then dquote +:+ name +:+ dquote else name.

End Resolver.

(** ** The driver, the object store and the monad of effects *)

(** What a run does to the outside world, in order.  Sessions and cursors
    are named by the length of the trace at the moment they are opened.
    Informational [print] calls are left out; the reports printed by the
    [except] blocks are kept. *)
Inductive event : Type :=
| EvConnect (conn : option nat)
| EvCursor (conn : nat) (cur : option nat)
| EvExecute (cur : nat) (sql : string) (ok : bool)
| EvFetchone (cur : nat)
| EvFetchall (cur : nat)
| EvExecutemany (cur : nat) (sql : string) (rows : list (list pyvalue)) (ok : bool)
| EvCommit (conn : nat) (ok : bool)
| EvCloseCursor (cur : nat)
| EvCloseConnection (conn : nat)
| EvGetObject (key : string)
| EvPrintError (message : string) (e : exception).

(** The collaborators.  Every answer of the database driver may depend on
    all that happened before; [None] is success for the calls that return
    nothing.  [s3_contents] is [.get('Contents')] of the listing response:
    [None] when the response carries no such entry.  The two readers stand
    for [get_object] followed by [pd.read_csv] or [pd.read_excel] and
    return the column names and the rows of [dataDF.values]. *)
Record Env : Type := mkEnv {
  db_connect : list event -> option exception;
  db_cursor : list event -> option exception;
  db_execute : list event -> string -> option exception;
  db_fetchone : list event -> result (option (list pyvalue));
  db_fetchall : list event -> result (list string);
  db_executemany : list event -> string -> list (list pyvalue) -> option exception;
  db_commit : list event -> option exception;
  s3_contents : option (list string);
  s3_read_csv : string -> result (list string * list (list pyvalue));
  s3_read_excel : string -> result (list string * list (list pyvalue))
}.

(** The two local names every helper shares with its [finally] block.
    The outer [None] is "not bound yet"; [connection] may be bound to
    Python's [None]. *)
Record frame : Type := mkFrame {
  connection : option (option nat);
  cursor : option nat
}.

Definition unbound : frame := {| connection := None; cursor := None |}.

Record state : Type := mkState {
  trace : list event;
  locals : frame
}.

Definition M (A : Type) : Type := Env -> state -> result A * state.

#[global] Instance M_ret : MRet M := fun A a _ s => (Ok a, s).

#[global] Instance M_bind : MBind M := fun A B k m env s =>
  match m env s with
  | (Ok a, s') => k a env s'
  | (Raise e, s') => (Raise e, s')
  end.

Module Effects.

Definition raise {A : Type} (e : exception) : M A := fun _ s => (Raise e, s).

Definition lift {A : Type} (r : result A) : M A := fun _ s => (r, s).

Definition emit (e : event) : M unit :=
  fun _ s => (Ok tt, {| trace := trace s ++ [e]; locals := locals s |}).

(** The driver's answer to a call made now. *)
Definition ask {A : Type} (f : Env -> list event -> A) : M A :=
  fun env s => (Ok (f env (trace s)), s).

Definition fresh : M nat := fun _ s => (Ok (length (trace s)), s).

(** [try: body  except Exception as e: handler e] *)
Definition try_except {A : Type} (body : M A) (handler : exception -> M A) : M A :=
  fun env s =>
    match body env s with
    | (Ok a, s') => (Ok a, s')
    | (Raise e, s') => handler e env s'
    end.

(** [try: body  finally: cleanup].  The cleanup runs on every outcome of
    the body; an exception raised by the cleanup replaces that outcome. *)
Definition try_finally {A : Type} (body : M A) (cleanup : M unit) : M A :=
  fun env s =>
    match body env s with
    | (r, s') =>
        match cleanup env s' with
        | (Ok _, s'') => (r, s'')
        | (Raise e, s'') => (Raise e, s'')
        end
    end.

(** A call of a nested function: its locals start unbound and vanish on
    return. *)
Definition call {A : Type} (body : M A) : M A :=
  fun env s =>
    match body env {| trace := trace s; locals := unbound |} with
    | (r, s') => (r, {| trace := trace s'; locals := locals s |})
    end.

Definition set_connection (c : option nat) : M unit :=
  fun _ s => (Ok tt, {| trace := trace s;
                        locals := {| connection := Some c; cursor := cursor (locals s) |} |}).

Definition set_cursor (k : nat) : M unit :=
  fun _ s => (Ok tt, {| trace := trace s;
                        locals := {| connection := connection (locals s); cursor := Some k |} |}).

(** Reading a local that was never assigned raises [UnboundLocalError]. *)
Definition get_connection : M (option nat) :=
  fun _ s => match connection (locals s) with
             | Some c => (Ok c, s)
             | None => (Raise UnboundLocalError, s)
             end.

Definition get_cursor : M nat :=
  fun _ s => match cursor (locals s) with
             | Some k => (Ok k, s)
             | None => (Raise UnboundLocalError, s)
             end.

Fixpoint for_each {A : Type} (l : list A) (body : A -> M unit) : M unit :=
  match l with
  | [] => mret tt
  | x :: rest => body x;; for_each rest body
  end.

(** *** Driver calls *)

(** [oracledb.init_oracle_client()] and [oracledb.connect(...)] *)
Definition oracledb_connect : M nat :=
  r ← ask db_connect;
  match r with
  | None => c ← fresh; emit (EvConnect (Some c));; mret c
  | Some e => emit (EvConnect None);; raise e
  end.

(** [connection.cursor()]; [None] has no such attribute. *)
Definition connection_cursor (conn : option nat) : M nat :=
  match conn with
  | None => raise AttributeError
  | Some c =>
      r ← ask db_cursor;
      match r with
      | None => k ← fresh; emit (EvCursor c (Some k));; mret k
      | Some e => emit (EvCursor c None);; raise e
      end
  end.

(** [connection.commit()] *)
Definition connection_commit (conn : option nat) : M unit :=
  match conn with
  | None => raise AttributeError
  | Some c =>
      r ← ask db_commit;
      match r with
      | None => emit (EvCommit c true)
      | Some e => emit (EvCommit c false);; raise e
      end
  end.

Definition cursor_execute (k : nat) (sql : string) : M unit :=
  r ← ask (fun env t => db_execute env t sql);
  match r with
  | None => emit (EvExecute k sql true)
  | Some e => emit (EvExecute k sql false);; raise e
  end.

Definition cursor_executemany (k : nat) (sql : string) (rows : list (list pyvalue)) : M unit :=
  r ← ask (fun env t => db_executemany env t sql rows);
  match r with
  | None => emit (EvExecutemany k sql rows true)
  | Some e => emit (EvExecutemany k sql rows false);; raise e
  end.

Definition cursor_fetchone (k : nat) : M (option (list pyvalue)) :=
  emit (EvFetchone k);; r ← ask db_fetchone; lift r.

Definition cursor_fetchall (k : nat) : M (list string) :=
  emit (EvFetchall k);; r ← ask db_fetchall; lift r.

(** [row[0]] for what [fetchone] returned. *)
Definition item0 (row : option (list pyvalue)) : M pyvalue :=
  match row with
  | None => raise TypeError
  | Some [] => raise IndexError
  | Some (v :: _) => mret v
  end.

(** [l[i]] for a list of strings. *)
Definition item (l : list string) (i : nat) : M string :=
  match l !! i with
  | Some x => mret x
  | None => raise IndexError
  end.

(** [print(f'{message}{e}')] in an [except] block. *)
Definition print_error (message : string) (e : exception) : M unit :=
  emit (EvPrintError message e).

End Effects.

(** ** The five helpers and the entry point *)

Module Loader.
Import PyStr Effects.

(** Lines 31-46.  Every exception is caught and reported; the caller
    receives Python's [None]. *)
Definition connect_to_oracledb : M (option nat) :=
  try_except
    (c ← oracledb_connect; mret (Some c))
    (fun e => print_error "Error connecting to the database: " e;; mret None).

(** The [finally] block the four helpers share (lines 60-64, 79-83,
    140-144 and 202-206): [if cursor: cursor.close()] and then
    [if connection: connection.close()]. *)
Definition release : M unit :=
  k ← get_cursor;
  emit (EvCloseCursor k);;
  c ← get_connection;
  match c with
  | Some c => emit (EvCloseConnection c)
  | None => mret tt
  end.

(** Lines 50-51, 68-69, 87-88 and 148-149. *)
Definition acquire : M (option nat * nat) :=
  c ← connect_to_oracledb;
  set_connection c;;
  k ← connection_cursor c;
  set_cursor k;;
  mret (c, k).

(** Lines 48-64. *)
Definition delete_existing_data_before_load (staging_tablename : string) : M unit :=
  call
    (try_finally
       (try_except
          ('(_, k) ← acquire;
           let truncate_query := "TRUNCATE TABLE " +:+ staging_tablename in
           cursor_execute k truncate_query)
          (fun e => print_error "Error truncating table - " e))
       release).

(** Lines 66-83. *)
Definition validate_by_count_query (staging_tablename : string) : M unit :=
  call
    (try_finally
       (try_except
          ('(_, k) ← acquire;
           let count_validation_query :=
             "SELECT COUNT(*) AS ct_recs FROM " +:+ staging_tablename in
           cursor_execute k count_validation_query;;
           row ← cursor_fetchone k;
           _ ← item0 row;
           mret tt)
          (fun e => print_error "Failed to retrieve record count - " e))
       release).

(** Line 91. *)
Definition queryToFetchTableColumnNames (owner table_name : string) : string :=
  "SELECT column_name FROM sys.all_tab_columns WHERE owner = UPPER('" +:+ owner +:+
  "') AND table_name = UPPER('" +:+ table_name +:+ "') ORDER BY column_id".

(** Lines 85-144.  The function returns the resolved list from inside the
    [try]; when the [except] block ran it falls off the end and returns
    Python's [None].  [records] holds the column name of each fetched
    one-field row. *)
Definition retrieve_staging_table_column_names (staging_tablename : string)
    (stagingTableOptionalColumns : list string) : M (option (list string)) :=
  call
    (try_finally
       (try_except
          ('(c, k) ← acquire;
           owner ← item (split_dot staging_tablename) 0;
           table_name ← item (split_dot staging_tablename) 1;
           cursor_execute k (queryToFetchTableColumnNames owner table_name);;
           records ← cursor_fetchall k;
           let stagingTableColumnsModifiedv2 :=
             Resolver.resolve records stagingTableOptionalColumns in
           connection_commit c;;
           mret (Some stagingTableColumnsModifiedv2))
          (fun e => print_error "Failed to retrieve the staging table fields - " e;;
                    mret None))
       release).

(** Lines 146-206; there is no [except] block here. *)
Definition load_csv_data_into_table (staging_tablename : string)
    (staging_table_columns : option (list string)) (dataDF_columns : list string)
    (modified_dataInsertionTuples : list (list pyvalue))
    (dateColumnConversion : list dateColConversionDict) : M unit :=
  call
    (try_finally
       ('(c, k) ← acquire;
        data_insertion_query ← lift (Synth.data_insertion_query staging_tablename
                                       staging_table_columns dataDF_columns
                                       dateColumnConversion);
        cursor_executemany k data_insertion_query modified_dataInsertionTuples;;
        connection_commit c)
       release).

(** Line 225. *)
Definition selected (obj_name source_filepath : string) : bool :=
  (endswith obj_name ".csv" || endswith obj_name ".xlsx")
  && String.eqb obj_name source_filepath.

(** Lines 226-257: fetch the object and parse it by its extension. *)
Definition read_object (obj_name : string) : M (list string * list (list pyvalue)) :=
  emit (EvGetObject obj_name);;
  if endswith obj_name ".csv"
  then r ← ask (fun env _ => s3_read_csv env obj_name); lift r
  else r ← ask (fun env _ => s3_read_excel env obj_name); lift r.

(** Lines 273-281. *)
Definition pipeline (staging_tablename : string)
    (stagingTableOptionalColumns : list string)
    (dateColumnConversion : list dateColConversionDict)
    (dataDF_columns : list string)
    (modified_dataInsertionTuples : list (list pyvalue)) : M unit :=
  delete_existing_data_before_load staging_tablename;;
  validate_by_count_query staging_tablename;;
  staging_table_columns ←
    retrieve_staging_table_column_names staging_tablename stagingTableOptionalColumns;
  load_csv_data_into_table staging_tablename staging_table_columns dataDF_columns
                           modified_dataInsertionTuples dateColumnConversion;;
  validate_by_count_query staging_tablename.

(** Body of the loop at line 218. *)
Definition loop_body (source_filepath staging_tablename : string)
    (stagingTableOptionalColumns : list string)
    (dateColumnConversion : list dateColConversionDict) (obj_name : string) : M unit :=
  if selected obj_name source_filepath
  then
    '(dataDF_columns, dataInsertionTuples) ← read_object obj_name;
    let modified_dataInsertionTuples :=
      Normalizer.modified_dataInsertionTuples dataInsertionTuples in
    pipeline staging_tablename stagingTableOptionalColumns dateColumnConversion
             dataDF_columns modified_dataInsertionTuples
  else mret tt.

(** Lines 24-281.  Iterating [None] raises [TypeError]. *)
Definition read_from_s3_and_write_to_oracle (source_filepath staging_tablename : string)
    (stagingTableOptionalColumns : list string)
    (dateColumnConversion : list dateColConversionDict) : M unit :=
  objects_list ← ask (fun env _ => s3_contents env);
  match objects_list with
  | None => raise TypeError
  | Some objs =>
      for_each objs (loop_body source_filepath staging_tablename
                               stagingTableOptionalColumns dateColumnConversion)
  end.

(** A whole run from an empty trace. *)
Definition run {A : Type} (m : M A) (env : Env) : result A * list event :=
  match m env {| trace := []; locals := unbound |} with
  | (r, s) => (r, trace s)
  end.

(** *** Reading a trace *)

Definition opened_connections (t : list event) : list nat :=
  flat_map (fun e => match e with EvConnect (Some c) => [c] | _ => [] end) t.

Definition closed_connections (t : list event) : list nat :=
  flat_map (fun e => match e with EvCloseConnection c => [c] | _ => [] end) t.

Definition opened_cursors (t : list event) : list nat :=
  flat_map (fun e => match e with EvCursor _ (Some k) => [k] | _ => [] end) t.

Definition closed_cursors (t : list event) : list nat :=
  flat_map (fun e => match e with EvCloseCursor k => [k] | _ => [] end) t.

Definition minus (l r : list nat) : list nat :=
  List.filter (fun x => negb (existsb (Nat.eqb x) r)) l.

(** Sessions and cursors opened and not closed. *)
Definition leaked_connections (t : list event) : list nat :=
  minus (opened_connections t) (closed_connections t).

Definition leaked_cursors (t : list event) : list nat :=
  minus (opened_cursors t) (closed_cursors t).

(** The state after further events. *)
Definition extend (s : state) (evs : list event) : state :=
  {| trace := trace s ++ evs; locals := locals s |}.

(** Events that open a session or ask for a cursor. *)
Definition opens (e : event) : bool :=
  match e with
  | EvConnect _ | EvCursor _ _ => true
  | _ => false
  end.

(** What a helper adds to the trace when it obtains session [c] and
    cursor [k], does [middle], and closes both. *)
Definition bracket (c k : nat) (middle : list event) : list event :=
  EvConnect (Some c) :: EvCursor c (Some k) :: middle
  ++ [EvCloseCursor k; EvCloseConnection c].

(** The outcome of a helper called in state [s] that stops in its
    [finally] block on the unbound name [cursor]: nothing has been closed,
    and the session, if one was opened, is still open. *)
Definition stops_unreleased {A : Type} (env : Env) (s : state)
    (out : result A * state) : Prop :=
  exists evs,
    out = (Raise UnboundLocalError, extend s evs)
    /\ closed_cursors evs = []
    /\ closed_connections evs = []
    /\ leaked_connections evs =
       match db_connect env (trace s) with
       | None => [length (trace s)]
       | Some _ => []
       end.

(** A database call of the pipeline: anything but a report or a fetch
    from the object store. *)
Definition is_db_event (e : event) : bool :=
  match e with
  | EvGetObject _ | EvPrintError _ _ => false
  | _ => true
  end.

Definition is_executemany (e : event) : bool :=
  match e with
  | EvExecutemany _ _ _ _ => true
  | _ => false
  end.

Definition is_execute (e : event) : bool :=
  match e with
  | EvExecute _ _ _ => true
  | _ => false
  end.

End Loader.

(** ** Concrete inputs used by the examples below *)

Module Examples.
Import PyStr.

(** Two mapping entries for the same position. *)
Definition twice_position_0 : list dateColConversionDict :=
  [mkDateCol 0 "DD/MM/YYYY"; mkDateCol 0 "YYYY-MM-DD"].

(** One entry before the first position and one past the last of a row of
    width two. *)
Definition out_of_range : list dateColConversionDict :=
  [mkDateCol (-1) "DD/MM/YYYY"; mkDateCol 5 "YYYY-MM-DD"].

(** Scenario A of the specification. *)
Definition scenario_columns : list string :=
  ["ID"; "NAME"; dquote +:+ "Start Date" +:+ dquote].

Definition scenario_dates : list dateColConversionDict := [mkDateCol 2 "DD/MM/YYYY"].

(** The float 2.0 and the row of scenario B, held in a store. *)
Definition two : spec_float := S754_finite false 1 1.

Definition scenario_store : list Normalizer.object :=
  [Normalizer.Tuple [PyInt 1; PyFloat two; PyFloat S754_nan; PyStr "x"]].

(** A database that answers every call, whose catalog lists [records] for
    the table, under a store that lists the single object [key], a
    delimited file of two columns and one row. *)
Definition database (records : list string) (key : string) : Env := {|
  db_connect := fun _ => None;
  db_cursor := fun _ => None;
  db_execute := fun _ _ => None;
  db_fetchone := fun _ => Ok (Some [PyInt 0]);
  db_fetchall := fun _ => Ok records;
  db_executemany := fun _ _ _ => None;
  db_commit := fun _ => None;
  s3_contents := Some [key];
  s3_read_csv := fun _ => Ok (["c1"; "c2"], [[PyInt 1; PyFloat S754_nan]]);
  s3_read_excel := fun _ => Ok (["c1"; "c2"], [[PyInt 1; PyFloat S754_nan]])
|}.

Definition key : string := "inputstream/cdw/orders.csv".

(** The same, with no object under the prefix: the listing response has no
    [Contents] entry. *)
Definition empty_prefix : Env := {|
  db_connect := fun _ => None;
  db_cursor := fun _ => None;
  db_execute := fun _ _ => None;
  db_fetchone := fun _ => Ok (Some [PyInt 0]);
  db_fetchall := fun _ => Ok ["A"; "B"];
  db_executemany := fun _ _ _ => None;
  db_commit := fun _ => None;
  s3_contents := None;
  s3_read_csv := fun _ => Ok ([], []);
  s3_read_excel := fun _ => Ok ([], [])
|}.

(** The database cannot be reached: [oracledb.connect] raises. *)
Definition unreachable : Env := {|
  db_connect := fun _ => Some (DatabaseError "DPY-6005: cannot connect to database");
  db_cursor := fun _ => None;
  db_execute := fun _ _ => None;
  db_fetchone := fun _ => Ok (Some [PyInt 0]);
  db_fetchall := fun _ => Ok ["A"; "B"];
  db_executemany := fun _ _ _ => None;
  db_commit := fun _ => None;
  s3_contents := Some [key];
  s3_read_csv := fun _ => Ok (["c1"; "c2"], [[PyInt 1; PyFloat S754_nan]]);
  s3_read_excel := fun _ => Ok (["c1"; "c2"], [[PyInt 1; PyFloat S754_nan]])
|}.

(** The session opens but [connection.cursor()] raises. *)
Definition no_cursor : Env := {|
  db_connect := fun _ => None;
  db_cursor := fun _ => Some (DatabaseError "DPY-1001: not connected to database");
  db_execute := fun _ _ => None;
  db_fetchone := fun _ => Ok (Some [PyInt 0]);
  db_fetchall := fun _ => Ok ["A"; "B"];
  db_executemany := fun _ _ _ => None;
  db_commit := fun _ => None;
  s3_contents := Some [key];
  s3_read_csv := fun _ => Ok (["c1"; "c2"], [[PyInt 1; PyFloat S754_nan]]);
  s3_read_excel := fun _ => Ok (["c1"; "c2"], [[PyInt 1; PyFloat S754_nan]])
|}.

(** Every statement runs but the catalog query, which the server
    rejects. *)
Definition catalog_fails : Env := {|
  db_connect := fun _ => None;
  db_cursor := fun _ => None;
  db_execute := fun _ sql =>
    if String.prefix "SELECT column_name" sql
    then Some (DatabaseError "ORA-00942: table or view does not exist")
    else None;
  db_fetchone := fun _ => Ok (Some [PyInt 0]);
  db_fetchall := fun _ => Ok ["A"; "B"];
  db_executemany := fun _ _ _ => None;
  db_commit := fun _ => None;
  s3_contents := Some [key];
  s3_read_csv := fun _ => Ok (["c1"; "c2"], [[PyInt 1; PyFloat S754_nan]]);
  s3_read_excel := fun _ => Ok (["c1"; "c2"], [[PyInt 1; PyFloat S754_nan]])
|}.

(** A healthy database under a store whose readers raise. *)
Definition unparsable : Env := {|
  db_connect := fun _ => None;
  db_cursor := fun _ => None;
  db_execute := fun _ _ => None;
  db_fetchone := fun _ => Ok (Some [PyInt 0]);
  db_fetchall := fun _ => Ok ["A"; "B"];
  db_executemany := fun _ _ _ => None;
  db_commit := fun _ => None;
  s3_contents := Some ["a.csv"; "b.csv"];
  s3_read_csv := fun _ => Raise TypeError;
  s3_read_excel := fun _ => Raise TypeError
|}.

(** A database that answers every call but rejects every bulk insert. *)
Definition insert_rejected : Env := {|
  db_connect := fun _ => None;
  db_cursor := fun _ => None;
  db_execute := fun _ _ => None;
  db_fetchone := fun _ => Ok (Some [PyInt 0]);
  db_fetchall := fun _ => Ok ["A"; "B"];
  db_executemany := fun _ _ _ =>
    Some (DatabaseError "ORA-12899: value too large for column");
  db_commit := fun _ => None;
  s3_contents := Some [key];
  s3_read_csv := fun _ => Ok (["c1"; "c2"], [[PyInt 1; PyFloat S754_nan]]);
  s3_read_excel := fun _ => Ok (["c1"; "c2"], [[PyInt 1; PyFloat S754_nan]])
|}.

(** A database that answers every call but refuses every commit. *)
Definition commit_refused : Env := {|
  db_connect := fun _ => None;
  db_cursor := fun _ => None;
  db_execute := fun _ _ => None;
  db_fetchone := fun _ => Ok (Some [PyInt 0]);
  db_fetchall := fun _ => Ok ["A"; "B"];
  db_executemany := fun _ _ _ => None;
  db_commit := fun _ => Some (DatabaseError "ORA-03114: not connected to ORACLE");
  s3_contents := Some [key];
  s3_read_csv := fun _ => Ok (["c1"; "c2"], [[PyInt 1; PyFloat S754_nan]]);
  s3_read_excel := fun _ => Ok (["c1"; "c2"], [[PyInt 1; PyFloat S754_nan]])
|}.

(** The no-break space U+00A0 and the letter U+00C9, each one character
    of two bytes. *)
Definition nbsp : string :=
  String (ascii_of_nat 194) (String (ascii_of_nat 160) EmptyString).

Definition e_acute : string :=
  String (ascii_of_nat 195) (String (ascii_of_nat 137) EmptyString).

End Examples.


(** ** Further readings of a trace *)

Module Reading.
Import PyStr Loader.

(** The outcome of a helper called in state [s] that obtained session and
    cursor: whatever it did in between, it closed both before returning,
    and it opened nothing else. *)
Definition releases {A : Type} (s : state) (out : result A * state) : Prop :=
  exists middle,
    snd out = extend s (bracket (length (trace s)) (S (length (trace s))) middle)
    /\ forallb (fun e => negb (opens e)) middle = true
    /\ leaked_connections (bracket (length (trace s)) (S (length (trace s))) middle) = []
    /\ leaked_cursors (bracket (length (trace s)) (S (length (trace s))) middle) = [].

(** A trace without bulk insert. *)
Definition no_insert (evs : list event) : Prop :=
  forallb (fun e => negb (is_executemany e)) evs = true.

(** A trace in which every session and every cursor opened is closed. *)
Definition all_closed (evs : list event) : Prop :=
  leaked_connections evs = [] /\ leaked_cursors evs = [].

(** A trace at no moment of which two sessions, or two cursors, are open
    together. *)
Definition one_at_a_time (evs : list event) : Prop :=
  forall p q, evs = p ++ q ->
    length (leaked_connections p) <= 1 /\ length (leaked_cursors p) <= 1.

(** A trace in which at most one session and one cursor is opened. *)
Definition opens_once (evs : list event) : Prop :=
  length (opened_connections evs) <= 1 /\ length (opened_cursors evs) <= 1.

(** No float NaN in a list of rows. *)
Definition nan_free (rows : list (list pyvalue)) : Prop :=
  forall row v, In row rows -> In v row -> v <> PyFloat S754_nan.

(** A trace of one pipeline in which every bulk insert comes after a
    [TRUNCATE] of the table was submitted, carries exactly [rows] and an
    [INSERT] statement for the table. *)
Definition inserted_after_truncate (staging_tablename : string)
    (rows : list (list pyvalue)) (evs : list event) : Prop :=
  forall pre k sql rows0 ok post,
    evs = pre ++ EvExecutemany k sql rows0 ok :: post ->
    (exists k0 ok0,
       In (EvExecute k0 ("TRUNCATE TABLE " +:+ staging_tablename) ok0) pre)
    /\ rows0 = rows
    /\ exists cols values,
         sql = "INSERT INTO " +:+ staging_tablename +:+ "(" +:+ join ", " cols +:+
               ") VALUES(" +:+ join ", " values +:+ ")".

(** A trace in which every bulk insert into [staging_tablename] comes
    after the object [key] was fetched and a [TRUNCATE] of the table was
    submitted, carries rows free of NaN and an [INSERT] statement for that
    table. *)
Definition prepared (staging_tablename key : string) (evs : list event) : Prop :=
  forall pre k sql rows ok post,
    evs = pre ++ EvExecutemany k sql rows ok :: post ->
    In (EvGetObject key) pre
    /\ (exists k0 ok0,
          In (EvExecute k0 ("TRUNCATE TABLE " +:+ staging_tablename) ok0) pre)
    /\ nan_free rows
    /\ exists cols values,
         sql = "INSERT INTO " +:+ staging_tablename +:+ "(" +:+ join ", " cols +:+
               ") VALUES(" +:+ join ", " values +:+ ")".

End Reading.

(** * Properties *)

Import PyStr Synth.

(** ** Statement synthesis *)

Lemma columns_by_index_id (cols : list string) : columns_by_index cols = cols.
Proof.
  unfold columns_by_index.
  apply list_eq; intros i.
  rewrite list_lookup_fmap.
  destruct (decide (i < length cols)) as [Hlt | Hge].
  - rewrite lookup_seq_lt by exact Hlt. simpl.
    destruct (lookup_lt_is_Some_2 cols i Hlt) as [c Hc].
    now rewrite Hc.
  - rewrite lookup_seq_ge by lia. simpl.
    symmetry. apply lookup_ge_None. lia.
Qed.

Lemma date_loop_spec x conv b acc :
  fold_left (date_loop_body x) conv (b, acc) =
  (b || negb (forallb (fun _ => false) (entries_at x conv)),
   acc ++ List.map (fun d => to_date_slot x (dateColumnConversionFormat d)) (entries_at x conv)).
Proof.
  revert b acc.
  induction conv as [| d conv IH]; intros b acc; simpl.
  - now rewrite orb_false_r, app_nil_r.
  - unfold date_loop_body at 2. unfold entries_at in *. simpl.
    destruct (Z.of_nat x =? dateColumnIndex d)%Z; simpl.
    + rewrite IH. rewrite orb_true_r. now rewrite <- app_assoc.
    + apply IH.
Qed.

Lemma position_body_spec conv acc x :
  position_body conv acc x = acc ++ slots_at conv x.
Proof.
  unfold position_body, slots_at.
  rewrite date_loop_spec. simpl.
  destruct (entries_at x conv) as [| d ds]; simpl.
  - now rewrite app_nil_r.
  - reflexivity.
Qed.

Lemma positions_loop_spec conv l acc :
  fold_left (position_body conv) l acc = acc ++ flat_map (slots_at conv) l.
Proof.
  revert acc.
  induction l as [| x l IH]; intros acc; simpl.
  - now rewrite app_nil_r.
  - rewrite IH, position_body_spec. now rewrite <- app_assoc.
Qed.

Lemma valuesToInsert_spec dataDF_columns conv :
  valuesToInsert dataDF_columns conv =
  flat_map (slots_at conv) (seq 0 (length dataDF_columns)).
Proof. unfold valuesToInsert. now rewrite positions_loop_spec. Qed.


Lemma entries_at_count conv x :
  length (entries_at x conv) =
  count_occ Z.eq_dec (List.map dateColumnIndex conv) (Z.of_nat x).
Proof.
  unfold entries_at.
  induction conv as [| d conv IH]; simpl; [reflexivity |].
  destruct (Z.eqb_spec (Z.of_nat x) (dateColumnIndex d)) as [He | Hne].
  - destruct (Z.eq_dec (dateColumnIndex d) (Z.of_nat x)); [simpl; now rewrite IH | congruence].
  - destruct (Z.eq_dec (dateColumnIndex d) (Z.of_nat x)); [congruence | exact IH].
Qed.

Lemma count_occ_filter (p : Z -> bool) (l : list Z) (z : Z) :
  count_occ Z.eq_dec (List.filter p l) z = if p z then count_occ Z.eq_dec l z else 0.
Proof.
  induction l as [| a l IH]; simpl.
  - now destruct (p z).
  - destruct (p a) eqn:Hpa; simpl.
    + destruct (Z.eq_dec a z) as [-> |]; [rewrite Hpa, IH, Hpa; reflexivity | exact IH].
    + destruct (Z.eq_dec a z) as [-> |]; [now rewrite IH, Hpa | exact IH].
Qed.

Lemma in_range_spec (n : nat) (z : Z) :
  in_range n z = true <-> exists x, x < n /\ z = Z.of_nat x.
Proof.
  unfold in_range. rewrite andb_true_iff, Z.leb_le, Z.ltb_lt. split.
  - intros [H0 Hn]. exists (Z.to_nat z). split; lia.
  - intros (x & Hx & ->). lia.
Qed.

Lemma NoDup_in_range (n : nat) conv :
  List.NoDup (in_range_indices n conv) <->
  forall x, x < n -> length (entries_at x conv) <= 1.
Proof.
  unfold in_range_indices.
  rewrite (NoDup_count_occ Z.eq_dec). split.
  - intros H x Hx. rewrite entries_at_count.
    specialize (H (Z.of_nat x)). rewrite count_occ_filter in H.
    assert (Hr : in_range n (Z.of_nat x) = true) by (apply in_range_spec; eauto).
    now rewrite Hr in H.
  - intros H z. rewrite count_occ_filter.
    destruct (in_range n z) eqn:Hr; [| lia].
    apply in_range_spec in Hr as (x & Hx & ->).
    rewrite <- entries_at_count. now apply H.
Qed.





Lemma flat_map_ext_in {A B : Type} (f g : A -> list B) (l : list A) :
  (forall x, In x l -> f x = g x) -> flat_map f l = flat_map g l.
Proof.
  induction l as [| a l IH]; intros H; simpl; [reflexivity |].
  rewrite (H a) by now left. f_equal. apply IH. intros x Hx. apply H. now right.
Qed.

Lemma flat_map_singletons {A B : Type} (f : A -> list B) (g : A -> B) (l : list A) :
  (forall x, In x l -> f x = [g x]) -> flat_map f l = List.map g l.
Proof.
  induction l as [| a l IH]; intros H; simpl; [reflexivity |].
  rewrite (H a) by now left. simpl. f_equal. apply IH. intros x Hx. apply H. now right.
Qed.

Lemma entries_at_In conv x d :
  In d (entries_at x conv) <-> In d conv /\ dateColumnIndex d = Z.of_nat x.
Proof.
  unfold entries_at. rewrite filter_In, Z.eqb_eq. intuition congruence.
Qed.

Lemma entries_at_nil conv x :
  entries_at x conv = [] <-> forall d, In d conv -> dateColumnIndex d <> Z.of_nat x.
Proof.
  split.
  - intros E d Hd Hx.
    assert (H : In d (entries_at x conv)) by now apply entries_at_In.
    rewrite E in H. destruct H.
  - intros H. destruct (entries_at x conv) as [| d ds] eqn:E; [reflexivity |].
    assert (Hd : In d (entries_at x conv)) by (rewrite E; now left).
    apply entries_at_In in Hd as [Hd Hx]. now destruct (H d Hd).
Qed.

Lemma bare_slot_not_to_date x y fmt : bare_slot x <> to_date_slot y fmt.
Proof. unfold bare_slot, to_date_slot. simpl. discriminate. Qed.


Lemma valuesToInsert_filter dataDF_columns conv :
  valuesToInsert dataDF_columns
    (List.filter (fun d => in_range (length dataDF_columns) (dateColumnIndex d)) conv)
  = valuesToInsert dataDF_columns conv.
Proof.
  rewrite !valuesToInsert_spec.
  apply flat_map_ext_in. intros x Hx. apply in_seq in Hx.
  unfold slots_at.
  assert (E : entries_at x (List.filter
                 (fun d => in_range (length dataDF_columns) (dateColumnIndex d)) conv)
              = entries_at x conv).
  { unfold entries_at.
    induction conv as [| d conv IH]; simpl; [reflexivity |].
    destruct (in_range (length dataDF_columns) (dateColumnIndex d)) eqn:Hr; simpl.
    - now rewrite IH.
    - rewrite IH.
      destruct (Z.eqb_spec (Z.of_nat x) (dateColumnIndex d)) as [He | Hne]; [| reflexivity].
      exfalso. rewrite <- He in Hr.
      assert (Ht : in_range (length dataDF_columns) (Z.of_nat x) = true)
        by (apply in_range_spec; exists x; split; [lia | reflexivity]).
      congruence. }
  now rewrite E.
Qed.

(** C6.  At every position of the source row, each mapping entry whose
    index is that position contributes a [TO_DATE] slot that wraps the
    position's own placeholder and carries the entry's format string
    unchanged, and no bare placeholder is emitted there; a position that no
    entry names is emitted as its bare placeholder and nothing else.  The
    value list of the statement is the concatenation of these groups in
    position order. *)
Theorem date_positions_wrapped (staging_tablename : string)
    (cols dataDF_columns : list string)
    (dateColumnConversion : list dateColConversionDict) (x : nat) :
  x < length dataDF_columns ->
  data_insertion_query staging_tablename (Some cols) dataDF_columns dateColumnConversion
  = Ok ("INSERT INTO " +:+ staging_tablename +:+ "(" +:+ join ", " cols +:+ ") VALUES(" +:+
        join ", " (valuesToInsert dataDF_columns dateColumnConversion) +:+ ")")
  /\ valuesToInsert dataDF_columns dateColumnConversion
     = flat_map (slots_at dateColumnConversion) (seq 0 (length dataDF_columns))
  /\ (forall d, In d dateColumnConversion -> dateColumnIndex d = Z.of_nat x ->
        In (to_date_slot x (dateColumnConversionFormat d)) (slots_at dateColumnConversion x)
        /\ In (to_date_slot x (dateColumnConversionFormat d))
              (valuesToInsert dataDF_columns dateColumnConversion)
        /\ ~ In (bare_slot x) (slots_at dateColumnConversion x))
  /\ ((forall d, In d dateColumnConversion -> dateColumnIndex d <> Z.of_nat x) ->
        slots_at dateColumnConversion x = [bare_slot x])
  /\ (forall s, In s (slots_at dateColumnConversion x) ->
        (s = bare_slot x /\
         forall d, In d dateColumnConversion -> dateColumnIndex d <> Z.of_nat x)
        \/ exists d, In d dateColumnConversion /\ dateColumnIndex d = Z.of_nat x /\
                     s = to_date_slot x (dateColumnConversionFormat d)).
Proof.
  intros Hx.
  assert (Hseq : In x (seq 0 (length dataDF_columns))) by (apply in_seq; lia).
  split; [| split; [| split; [| split]]].
  - unfold data_insertion_query. now rewrite columns_by_index_id.
  - apply valuesToInsert_spec.
  - intros d Hd Hi.
    assert (He : In d (entries_at x dateColumnConversion)) by now apply entries_at_In.
    assert (Hs : In (to_date_slot x (dateColumnConversionFormat d))
                    (slots_at dateColumnConversion x)).
    { unfold slots_at. destruct (entries_at x dateColumnConversion) as [| d0 ds] eqn:E.
      - destruct He.
      - apply in_map_iff. exists d. split; [reflexivity | exact He]. }
    split; [exact Hs | split].
    + rewrite valuesToInsert_spec. apply in_flat_map. exists x. now split.
    + unfold slots_at. destruct (entries_at x dateColumnConversion) as [| d0 ds] eqn:E.
      * destruct He.
      * intros Hb. apply in_map_iff in Hb as (d' & Hd' & _).
        symmetry in Hd'. now apply bare_slot_not_to_date in Hd'.
  - intros Hno. unfold slots_at.
    now rewrite (proj2 (entries_at_nil dateColumnConversion x) Hno).
  - intros s Hs. unfold slots_at in Hs.
    destruct (entries_at x dateColumnConversion) as [| d0 ds] eqn:E.
    + left. destruct Hs as [<- | []]. split; [reflexivity |]. now apply entries_at_nil.
    + right. apply in_map_iff in Hs as (d & <- & Hd).
      rewrite <- E in Hd. apply entries_at_In in Hd as [Hd Hi]. now exists d.
Qed.

Lemma date_positions_wrapped_witness :
  2 < length ["c1"; "c2"; "c3"]
  /\ data_insertion_query "T" (Some Examples.scenario_columns) ["c1"; "c2"; "c3"]
       Examples.scenario_dates
     = Ok ("INSERT INTO T(ID, NAME, " +:+ dquote +:+ "Start Date" +:+ dquote +:+
           ") VALUES(:1, :2, TO_DATE(:3, 'DD/MM/YYYY'))").
Proof.
  split; [simpl; lia |].
  destruct (date_positions_wrapped "T" Examples.scenario_columns ["c1"; "c2"; "c3"]
              Examples.scenario_dates 2) as [H _]; [simpl; lia |].
  rewrite H. reflexivity.
Defined.



(** C1, as the code has it.  For a non-empty resolved column list, a row
    width not below its length and a date mapping in which no two entries
    share an index, the statement names the resolved columns in order and
    its value list has exactly one slot per position of the row: the slot
    at position [x] holds the placeholder numbered [x + 1], bare when no
    entry names [x] and wrapped with that entry's format otherwise.  The
    number of slots follows the row width, not the number of columns. *)
Theorem statement_has_row_width_slots (staging_tablename : string)
    (cols dataDF_columns : list string)
    (dateColumnConversion : list dateColConversionDict) :
  cols <> [] ->
  length cols <= length dataDF_columns ->
  List.NoDup (List.map dateColumnIndex dateColumnConversion) ->
  let values := valuesToInsert dataDF_columns dateColumnConversion in
  data_insertion_query staging_tablename (Some cols) dataDF_columns dateColumnConversion
  = Ok ("INSERT INTO " +:+ staging_tablename +:+ "(" +:+ join ", " cols +:+ ") VALUES(" +:+
        join ", " values +:+ ")")
  /\ length values = length dataDF_columns
  /\ forall x, x < length dataDF_columns ->
       (values !! x = Some (bare_slot x) /\
        forall d, In d dateColumnConversion -> dateColumnIndex d <> Z.of_nat x)
       \/ exists d, In d dateColumnConversion /\ dateColumnIndex d = Z.of_nat x /\
                    values !! x = Some (to_date_slot x (dateColumnConversionFormat d)).
Proof.
  intros _ _ Hnd values. subst values.
  assert (Hle : forall x, length (entries_at x dateColumnConversion) <= 1).
  { intros x. rewrite entries_at_count. now apply NoDup_count_occ. }
  set (slot := fun x => match entries_at x dateColumnConversion with
                        | [] => bare_slot x
                        | d :: _ => to_date_slot x (dateColumnConversionFormat d)
                        end).
  assert (Hval : valuesToInsert dataDF_columns dateColumnConversion
                 = List.map slot (seq 0 (length dataDF_columns))).
  { rewrite valuesToInsert_spec. apply flat_map_singletons. intros x _.
    unfold slots_at, slot. specialize (Hle x).
    destruct (entries_at x dateColumnConversion) as [| d [| d' ds]]; simpl in *;
      [reflexivity | reflexivity | lia]. }
  split; [| split].
  - unfold data_insertion_query. now rewrite columns_by_index_id.
  - now rewrite Hval, length_map, length_seq.
  - intros x Hx. rewrite Hval.
    change (List.map slot (seq 0 (length dataDF_columns)) !! x)
      with ((slot <$> seq 0 (length dataDF_columns)) !! x).
    rewrite list_lookup_fmap, lookup_seq_lt by exact Hx. simpl. unfold slot.
    destruct (entries_at x dateColumnConversion) as [| d ds] eqn:E.
    + left. split; [reflexivity |]. now apply entries_at_nil.
    + right. exists d.
      assert (Hd : In d (entries_at x dateColumnConversion)) by (rewrite E; now left).
      apply entries_at_In in Hd as [Hd Hi]. now split; [| split].
Qed.

Lemma statement_has_row_width_slots_witness :
  data_insertion_query "T" (Some ["A"; "B"]) ["c1"; "c2"; "c3"] Examples.scenario_dates
  = Ok "INSERT INTO T(A, B) VALUES(:1, :2, TO_DATE(:3, 'DD/MM/YYYY'))"
  /\ length (valuesToInsert ["c1"; "c2"; "c3"] Examples.scenario_dates) = 3.
Proof.
  assert (H1 : ["A"; "B"] <> ([] : list string)) by discriminate.
  assert (H2 : length ["A"; "B"] <= length ["c1"; "c2"; "c3"]) by (simpl; lia).
  assert (H3 : List.NoDup (List.map dateColumnIndex Examples.scenario_dates)).
  { simpl. constructor; [intros [] | constructor]. }
  destruct (statement_has_row_width_slots "T" ["A"; "B"] ["c1"; "c2"; "c3"]
              Examples.scenario_dates H1 H2 H3) as (Hq & Hlen & _).
  split; [rewrite Hq; reflexivity | exact Hlen].
Defined.

(** C1 fails as stated: with two mapping entries for position 0 a row of
    width two yields three value slots, two of them on placeholder [:1]. *)
Lemma statement_slots_exceed_row_width :
  ["A"] <> ([] : list string)
  /\ length ["A"] <= length ["c1"; "c2"]
  /\ valuesToInsert ["c1"; "c2"] Examples.twice_position_0
     = ["TO_DATE(:1, 'DD/MM/YYYY')"; "TO_DATE(:1, 'YYYY-MM-DD')"; ":2"]
  /\ length (valuesToInsert ["c1"; "c2"] Examples.twice_position_0) <> length ["c1"; "c2"]
  /\ data_insertion_query "T" (Some ["A"]) ["c1"; "c2"] Examples.twice_position_0
     = Ok "INSERT INTO T(A) VALUES(TO_DATE(:1, 'DD/MM/YYYY'), TO_DATE(:1, 'YYYY-MM-DD'), :2)".
Proof.
  split; [discriminate |].
  split; [simpl; lia |].
  split; [reflexivity |].
  split; [vm_compute; discriminate | reflexivity].
Qed.

(** C3, as the code has it.  Synthesis never inspects the range of a
    mapping index: with a column list it always yields a statement, and
    that statement is the one built from the mapping with every entry whose
    index is negative or not below the row width removed.  It raises
    [TypeError] exactly when there is no column list, whatever the
    mapping. *)
Theorem synthesis_ignores_out_of_range (staging_tablename : string)
    (cols dataDF_columns : list string)
    (dateColumnConversion : list dateColConversionDict) :
  (exists statement,
     data_insertion_query staging_tablename (Some cols) dataDF_columns dateColumnConversion
     = Ok statement)
  /\ data_insertion_query staging_tablename (Some cols) dataDF_columns dateColumnConversion
     = data_insertion_query staging_tablename (Some cols) dataDF_columns
         (List.filter (fun d => in_range (length dataDF_columns) (dateColumnIndex d))
                      dateColumnConversion)
  /\ data_insertion_query staging_tablename None dataDF_columns dateColumnConversion
     = Raise TypeError.
Proof.
  split; [eexists; reflexivity |].
  split; [| reflexivity].
  unfold data_insertion_query. now rewrite valuesToInsert_filter.
Qed.

(** C3 fails as stated: a mapping with the indices -1 and 5 for a row of
    width two is accepted and the statement is built without them. *)
Lemma out_of_range_index_accepted :
  in_range (length ["c1"; "c2"]) (-1) = false
  /\ in_range (length ["c1"; "c2"]) 5 = false
  /\ data_insertion_query "T" (Some ["A"; "B"]) ["c1"; "c2"] Examples.out_of_range
     = Ok "INSERT INTO T(A, B) VALUES(:1, :2)".
Proof. repeat split. Qed.

(** ** Row normalisation *)

Import Normalizer.

Lemma nan_body_at (pre suf : list pyvalue) (v : pyvalue) :
  nan_body (pre ++ v :: suf) (length pre, v) = pre ++ nan_to_none v :: suf.
Proof.
  unfold nan_body. simpl.
  assert (E : <[length pre := PyNone]> (pre ++ v :: suf) = pre ++ PyNone :: suf).
  { replace (length pre) with (length pre + 0) at 1 by lia.
    now rewrite insert_app_r. }
  destruct v as [| b | z | f | s]; try reflexivity.
  destruct f; simpl; try reflexivity. exact E.
Qed.

Lemma nan_fold_spec (suf pre : list pyvalue) :
  fold_left nan_body (combine (seq (length pre) (length suf)) suf) (pre ++ suf)
  = pre ++ List.map nan_to_none suf.
Proof.
  revert pre.
  induction suf as [| v suf IH]; intros pre; simpl; [reflexivity |].
  rewrite nan_body_at.
  specialize (IH (pre ++ [nan_to_none v])).
  rewrite length_app in IH. simpl in IH.
  replace (length pre + 1) with (S (length pre)) in IH by lia.
  rewrite <- !app_assoc in IH. exact IH.
Qed.

Lemma modified_dataTuple_spec (dataTuple : list pyvalue) :
  modified_dataTuple dataTuple = List.map nan_to_none dataTuple.
Proof.
  unfold modified_dataTuple, enumerate.
  exact (nan_fold_spec dataTuple []).
Qed.

Lemma modified_rows_acc (rows acc : list (list pyvalue)) :
  fold_left (fun acc dataTuple => acc ++ [modified_dataTuple dataTuple]) rows acc
  = acc ++ List.map (List.map nan_to_none) rows.
Proof.
  revert acc.
  induction rows as [| r rows IH]; intros acc; simpl.
  - now rewrite app_nil_r.
  - rewrite IH, modified_dataTuple_spec. now rewrite <- app_assoc.
Qed.

Lemma modified_dataInsertionTuples_spec (rows : list (list pyvalue)) :
  modified_dataInsertionTuples rows = List.map (List.map nan_to_none) rows.
Proof. unfold modified_dataInsertionTuples. apply modified_rows_acc. Qed.

Lemma nan_to_none_cases (v : pyvalue) :
  (nan_to_none v = PyNone /\ exists f, v = PyFloat f /\ isnan f = true)
  \/ (nan_to_none v = v /\ forall f, v = PyFloat f -> isnan f = false).
Proof.
  destruct v as [| b | z | f | s]; try (right; split; [reflexivity | discriminate]).
  destruct f; simpl.
  all: try (right; split; [reflexivity | intros f [= <-]; reflexivity]).
  left. split; [reflexivity |]. now exists S754_nan.
Qed.

(** The loop over the store, started after [k] items of the list at
    address [a], leaves that list normalised and touches nothing else. *)
Lemma nan_loop_spec (suf pre : list pyvalue) (h : list object) (a : nat) :
  h !! a = Some (PyList (pre ++ suf)) ->
  nan_loop h a (combine (seq (length pre) (length suf)) suf)
  = Some (<[a := PyList (pre ++ List.map nan_to_none suf)]> h).
Proof.
  revert pre h.
  induction suf as [| v suf IH]; intros pre h Ha; simpl.
  - f_equal. symmetry. now apply list_insert_id.
  - assert (Hlt : a < length h) by (eapply lookup_lt_Some; eauto).
    assert (Hnext : forall h', h' !! a = Some (PyList ((pre ++ [nan_to_none v]) ++ suf)) ->
              nan_loop h' a (combine (seq (S (length pre)) (length suf)) suf)
              = Some (<[a := PyList (pre ++ nan_to_none v :: List.map nan_to_none suf)]> h')).
    { intros h' Ha'. specialize (IH (pre ++ [nan_to_none v]) h' Ha').
      rewrite length_app in IH. simpl in IH.
      replace (length pre + 1) with (S (length pre)) in IH by lia.
      now rewrite <- app_assoc in IH. }
    assert (Hsame : nan_to_none v = v ->
              nan_loop h a (combine (seq (S (length pre)) (length suf)) suf)
              = Some (<[a := PyList (pre ++ nan_to_none v :: List.map nan_to_none suf)]> h)).
    { intros E. apply Hnext. rewrite E, <- app_assoc. exact Ha. }
    destruct v as [| b | z | f | s]; try (apply Hsame; reflexivity).
    destruct f; simpl; try (apply Hsame; reflexivity).
    unfold setitem. rewrite Ha.
    destruct (decide (length pre < length (pre ++ PyFloat S754_nan :: suf))) as [_ | Hn];
      [| rewrite length_app in Hn; simpl in Hn; lia].
    simpl.
    replace (<[length pre := PyNone]> (pre ++ PyFloat S754_nan :: suf))
      with (pre ++ PyNone :: suf).
    2:{ replace (length pre) with (length pre + 0) at 1 by lia.
        now rewrite insert_app_r. }
    rewrite (Hnext (<[a := PyList (pre ++ PyNone :: suf)]> h)).
    + now rewrite list_insert_insert_eq.
    + rewrite list_lookup_insert_eq by exact Hlt. now rewrite <- app_assoc.
Qed.

Lemma row_step_spec (h : list object) (out : list nat) (a : nat) (t : object) :
  h !! a = Some t ->
  row_step (h, out) a
  = Some (h ++ [PyList (List.map nan_to_none (items_of t)); PyList (items_of t);
                Tuple (List.map nan_to_none (items_of t))],
          out ++ [length h + 2]).
Proof.
  intros Ha. unfold row_step, alloc. simpl. rewrite Ha. simpl.
  rewrite lookup_app_r by lia. rewrite Nat.sub_diag. simpl.
  rewrite length_app. simpl.
  rewrite lookup_app_r by (rewrite length_app; simpl; lia).
  rewrite length_app. simpl.
  replace (length h + 1 - (length h + 1)) with 0 by lia. simpl.
  pose proof (nan_loop_spec (items_of t) []
                ((h ++ [PyList (items_of t)]) ++ [PyList (items_of t)]) (length h)) as Hloop.
  simpl in Hloop. unfold enumerate. rewrite Hloop.
  2:{ rewrite <- app_assoc. rewrite lookup_app_r by lia. now rewrite Nat.sub_diag. }
  simpl.
  assert (E : <[length h := PyList (List.map nan_to_none (items_of t))]>
                ((h ++ [PyList (items_of t)]) ++ [PyList (items_of t)])
              = h ++ [PyList (List.map nan_to_none (items_of t)); PyList (items_of t)]).
  { rewrite <- app_assoc. simpl.
    replace (length h) with (length h + 0) at 1 by lia.
    now rewrite insert_app_r. }
  rewrite E.
  rewrite lookup_app_r by lia. rewrite Nat.sub_diag. simpl.
  rewrite length_app. simpl.
  rewrite <- app_assoc. simpl. reflexivity.
Qed.

Lemma rows_at_app (h ext : list object) (addrs : list nat) :
  (forall a, In a addrs -> a < length h) ->
  rows_at (h ++ ext) addrs = rows_at h addrs.
Proof.
  intros H. unfold rows_at. apply map_ext_in. intros a Ha.
  now rewrite lookup_app_l by (apply H; exact Ha).
Qed.

Lemma rows_at_cons (h : list object) (a : nat) (addrs : list nat) :
  rows_at h (a :: addrs) = from_option items_of [] (h !! a) :: rows_at h addrs.
Proof. reflexivity. Qed.

Lemma rows_loop_spec (addrs : list nat) (h0 ext : list object) (out : list nat) :
  (forall a, In a addrs -> a < length h0) ->
  exists ext' new,
    rows_loop (h0 ++ ext, out) addrs = Some (h0 ++ ext ++ ext', out ++ new)
    /\ (forall a, In a new -> length (h0 ++ ext) <= a < length (h0 ++ ext ++ ext'))
    /\ rows_at (h0 ++ ext ++ ext') new = List.map (List.map nan_to_none) (rows_at h0 addrs).
Proof.
  revert ext out.
  induction addrs as [| a addrs IH]; intros ext out Hvalid.
  - exists [], []. simpl. rewrite !app_nil_r. split; [reflexivity |].
    split; [intros a [] | reflexivity].
  - assert (Ha : a < length h0) by (apply Hvalid; now left).
    destruct (lookup_lt_is_Some_2 h0 a Ha) as [t Ht].
    assert (Ht' : (h0 ++ ext) !! a = Some t) by now rewrite lookup_app_l.
    simpl. rewrite (row_step_spec _ _ _ _ Ht'). simpl.
    set (added := [PyList (List.map nan_to_none (items_of t)); PyList (items_of t);
                   Tuple (List.map nan_to_none (items_of t))]).
    destruct (IH (ext ++ added) (out ++ [length (h0 ++ ext) + 2])) as (ext' & new & Hrun & Hfresh & Hrows).
    { intros b Hb. apply Hvalid. now right. }
    exists (added ++ ext'), ((length (h0 ++ ext) + 2) :: new).
    rewrite <- !app_assoc in Hrun. rewrite <- !app_assoc in Hfresh, Hrows.
    rewrite <- (app_assoc h0 ext added). rewrite Hrun.
    split; [reflexivity |]. split.
    + intros b [<- | Hb].
      * rewrite !length_app. simpl. lia.
      * specialize (Hfresh b Hb). rewrite !length_app in *. simpl in *. lia.
    + rewrite !rows_at_cons, Hrows, Ht. simpl. f_equal.
      rewrite app_assoc.
      rewrite lookup_app_r by lia.
      replace (length (h0 ++ ext) + 2 - length (h0 ++ ext)) with 2 by lia.
      reflexivity.
Qed.

(** C4.  Run over a store in which every input row is an object,
    normalisation returns; each row of the result is the input row with
    every float NaN replaced by [None] and every other value (other floats,
    integers, booleans, text, [None]) unchanged, in the same order; the list
    built by lines 261-269 is that same sequence; every result row is a new
    object, and every object that existed before, the input rows included,
    still holds what it held. *)
Theorem normalization_replaces_nan_only (h : list object)
    (dataInsertionTuples : list nat) :
  (forall a, In a dataInsertionTuples -> a < length h) ->
  exists h' modified,
    normalize_store h dataInsertionTuples = Some (h', modified)
    /\ rows_at h' modified
       = List.map (List.map nan_to_none) (rows_at h dataInsertionTuples)
    /\ modified_dataInsertionTuples (rows_at h dataInsertionTuples)
       = List.map (List.map nan_to_none) (rows_at h dataInsertionTuples)
    /\ (forall v,
          (nan_to_none v = PyNone /\ exists f, v = PyFloat f /\ isnan f = true)
          \/ (nan_to_none v = v /\ forall f, v = PyFloat f -> isnan f = false))
    /\ (forall a, a < length h -> h' !! a = h !! a)
    /\ rows_at h' dataInsertionTuples = rows_at h dataInsertionTuples
    /\ (forall a, In a modified -> length h <= a < length h').
Proof.
  intros Hvalid.
  destruct (rows_loop_spec dataInsertionTuples h [] [] Hvalid)
    as (ext' & new & Hrun & Hfresh & Hrows).
  simpl in Hrun, Hfresh, Hrows. rewrite app_nil_r in Hrun, Hfresh.
  exists (h ++ ext'), new.
  split; [exact Hrun |].
  split; [exact Hrows |].
  split; [apply modified_dataInsertionTuples_spec |].
  split; [apply nan_to_none_cases |].
  split; [intros a Ha; now rewrite lookup_app_l |].
  split; [now apply rows_at_app | exact Hfresh].
Qed.

Lemma normalization_replaces_nan_only_witness :
  (forall a, In a [0] -> a < length Examples.scenario_store)
  /\ exists h' modified,
       normalize_store Examples.scenario_store [0] = Some (h', modified)
       /\ rows_at h' modified
          = [[PyInt 1; PyFloat Examples.two; PyNone; PyStr "x"]]
       /\ rows_at h' [0]
          = [[PyInt 1; PyFloat Examples.two; PyFloat S754_nan; PyStr "x"]].
Proof.
  assert (Hvalid : forall a, In a [0] -> a < length Examples.scenario_store).
  { intros a [<- | []]. simpl. lia. }
  split; [exact Hvalid |].
  destruct (normalization_replaces_nan_only Examples.scenario_store [0] Hvalid)
    as (h' & modified & Hrun & Hrows & _ & _ & _ & Hin & _).
  exists h', modified.
  split; [exact Hrun |].
  split; [rewrite Hrows; reflexivity | rewrite Hin; reflexivity].
Defined.
(** ** Column resolution *)

Import Resolver.

Lemma quote_fold (v1 acc : list string) :
  fold_left quote_step v1 acc = acc ++ List.map quoted v1.
Proof.
  revert acc.
  induction v1 as [| c v1 IH]; intros acc; simpl.
  - now rewrite app_nil_r.
  - rewrite IH. unfold quote_step, quoted.
    destruct (search_space c); now rewrite <- app_assoc.
Qed.

Lemma resolve_spec (records excluded : list string) :
  resolve records excluded
  = List.map (fun c => quoted (strip c))
      (List.filter (fun c => not_in (strip c) excluded)
                   (iterate (squeeze_tolist records))).
Proof.
  unfold resolve, stagingTableColumnsModifiedv2, stagingTableColumnsModifiedv1.
  rewrite quote_fold. simpl. now rewrite map_map.
Qed.

(** With no record or with two or more, the resolver does what the
    specification asks: trim, drop the excluded names, quote the names that
    hold whitespace, keep the catalog order. *)
Lemma resolve_listed (records excluded : list string) :
  length records <> 1 ->
  resolve records excluded
  = List.map (fun c => quoted (strip c))
      (List.filter (fun c => not_in (strip c) excluded) records).
Proof.
  intros Hlen. rewrite resolve_spec.
  destruct records as [| r [| r' rs]]; simpl in *; [reflexivity | lia | reflexivity].
Qed.

Lemma not_in_spec (x : string) (l : list string) :
  not_in x l = true <-> ~ In x l.
Proof.
  unfold not_in. rewrite negb_true_iff. split.
  - intros H Hin.
    assert (Ht : existsb (String.eqb x) l = true).
    { apply existsb_exists. exists x. split; [exact Hin | apply String.eqb_refl]. }
    congruence.
  - intros H. destruct (existsb (String.eqb x) l) eqn:E; [| reflexivity].
    apply existsb_exists in E as (y & Hy & Heq).
    apply String.eqb_eq in Heq. subst y. now destruct H.
Qed.

(** *** Characters *)

Lemma chars_cons (b : ascii) (r : string) :
  chars (String b r)
  = match chars r with
    | [] => [String b EmptyString]
    | c :: cs => if continues c then String b c :: cs
                 else String b EmptyString :: c :: cs
    end.
Proof. reflexivity. Qed.

Lemma chars_one (b : ascii) (t : string) :
  continuation_bytes t = true -> chars (String b t) = [String b t].
Proof.
  revert b. induction t as [| b' t IH]; intros b H; [reflexivity |].
  simpl in H. apply andb_true_iff in H as [Hb Ht].
  rewrite chars_cons, (IH b' Ht). simpl. now rewrite Hb.
Qed.

Lemma chars_shape (s c : string) :
  In c (chars s) -> exists b t, c = String b t /\ continuation_bytes t = true.
Proof.
  revert c. induction s as [| b r IH]; intros c; [intros [] |].
  rewrite chars_cons.
  destruct (chars r) as [| c0 cs] eqn:E.
  - intros [<- | []]. now exists b, EmptyString.
  - destruct (continues c0) eqn:Hc0.
    + intros [<- | Hin].
      * destruct (IH c0 (or_introl eq_refl)) as (b0 & t0 & -> & Ht0).
        exists b, (String b0 t0). split; [reflexivity |].
        simpl in *. now rewrite Hc0, Ht0.
      * apply IH. now right.
    + intros [<- | Hin]; [now exists b, EmptyString | now apply IH].
Qed.

(** Every character of a string is a string of one character. *)
Lemma chars_single (s c : string) : In c (chars s) -> chars c = [c].
Proof.
  intros H. destruct (chars_shape s c H) as (b & t & -> & Ht).
  now apply chars_one.
Qed.

Lemma append_cons (a : ascii) (x y : string) :
  String a x +:+ y = String a (x +:+ y).
Proof. reflexivity. Qed.

Lemma append_empty (x : string) : x +:+ EmptyString = x.
Proof.
  induction x as [| a x IH]; [reflexivity |].
  now rewrite append_cons, IH.
Qed.

Lemma join_empty_cons (x : string) (l : list string) :
  join EmptyString (x :: l) = x +:+ join EmptyString l.
Proof.
  destruct l as [| y l]; [| reflexivity].
  simpl. now rewrite append_empty.
Qed.

(** The characters of a string, put together again, are the string. *)
Lemma chars_join (s : string) : join EmptyString (chars s) = s.
Proof.
  induction s as [| b r IH]; [reflexivity |].
  rewrite chars_cons.
  destruct (chars r) as [| c0 cs] eqn:E.
  - simpl in IH. now rewrite <- IH.
  - destruct (continues c0).
    + rewrite join_empty_cons, append_cons.
      rewrite join_empty_cons in IH. now rewrite IH.
    + rewrite join_empty_cons, append_cons. now rewrite IH.
Qed.

Lemma len_one (s : string) : len s = 1 -> chars s = [s].
Proof.
  unfold len. intros H. pose proof (chars_join s) as J.
  destruct (chars s) as [| c [| c' cs]]; simpl in *; [lia | congruence | lia].
Qed.

Lemma strip_single (c : string) :
  chars c = [c] -> strip c = if isspace c then EmptyString else c.
Proof.
  intros H. unfold strip, rstrip. rewrite H. simpl.
  destruct (isspace c) eqn:E; simpl; [reflexivity | now rewrite E].
Qed.

Lemma strip_single_short (c : string) : chars c = [c] -> len (strip c) <= 1.
Proof.
  intros H. rewrite (strip_single c H).
  destruct (isspace c); unfold len; [simpl; lia | rewrite H; simpl; lia].
Qed.



Lemma filter_all {A : Type} (p : A -> bool) (l : list A) :
  (forall x, In x l -> p x = true) -> List.filter p l = l.
Proof.
  induction l as [| a l IH]; intros H; simpl; [reflexivity |].
  rewrite (H a) by now left. f_equal. apply IH. intros x Hx. apply H. now right.
Qed.


(** A catalog whose single column has a name of one character is resolved
    as a list of columns is: the only character is the name. *)
Lemma one_character_name_is_kept (name : string) (excluded : list string) :
  len name = 1 ->
  resolve [name] excluded
  = List.map (fun c => quoted (strip c))
      (List.filter (fun c => not_in (strip c) excluded) [name]).
Proof.
  intros H. rewrite resolve_spec. simpl. now rewrite (len_one name H).
Qed.



(** ** The helpers: acquisition and release *)

Import Effects Loader.

Ltac run_monad :=
  unfold mbind, M_bind, mret, M_ret, ask, fresh, emit, lift, raise; simpl.

Lemma acquire_ok (env : Env) (s : state) :
  db_connect env (trace s) = None ->
  db_cursor env (trace s ++ [EvConnect (Some (length (trace s)))]) = None ->
  acquire env s
  = (Ok (Some (length (trace s)), S (length (trace s))),
     {| trace := trace s ++ [EvConnect (Some (length (trace s)));
                             EvCursor (length (trace s)) (Some (S (length (trace s))))];
        locals := {| connection := Some (Some (length (trace s)));
                     cursor := Some (S (length (trace s))) |} |}).
Proof.
  intros Hc Hk.
  unfold acquire, connect_to_oracledb, try_except, oracledb_connect, set_connection,
    connection_cursor, set_cursor.
  run_monad. rewrite Hc. simpl. rewrite Hk. simpl.
  rewrite length_app. simpl. rewrite Nat.add_1_r.
  now rewrite <- app_assoc.
Qed.

Lemma release_bound (env : Env) (s : state) (c k : nat) :
  locals s = {| connection := Some (Some c); cursor := Some k |} ->
  release env s = (Ok tt, extend s [EvCloseCursor k; EvCloseConnection c]).
Proof.
  destruct s as [t l]. simpl. intros ->.
  unfold release, get_cursor, get_connection, extend.
  run_monad. now rewrite <- app_assoc.
Qed.

Lemma release_unbound (env : Env) (s : state) :
  cursor (locals s) = None -> release env s = (Raise UnboundLocalError, s).
Proof.
  destruct s as [t [c k]]. simpl. intros ->.
  unfold release, get_cursor. now run_monad.
Qed.

Lemma bind_ok {A B : Type} (m : M A) (k : A -> M B) (env : Env) (s s' : state) (a : A) :
  m env s = (Ok a, s') -> (m ≫= k) env s = k a env s'.
Proof. intros H. unfold mbind, M_bind. now rewrite H. Qed.

Lemma bind_raise {A B : Type} (m : M A) (k : A -> M B) (env : Env) (s s' : state)
    (e : exception) :
  m env s = (Raise e, s') -> (m ≫= k) env s = (Raise e, s').
Proof. intros H. unfold mbind, M_bind. now rewrite H. Qed.

Lemma extend_extend (s : state) (l1 l2 : list event) :
  extend (extend s l1) l2 = extend s (l1 ++ l2).
Proof. unfold extend. simpl. now rewrite <- app_assoc. Qed.

Lemma delete_releases (env : Env) (s : state) (staging_tablename : string) :
  db_connect env (trace s) = None ->
  db_cursor env (trace s ++ [EvConnect (Some (length (trace s)))]) = None ->
  exists middle,
    delete_existing_data_before_load staging_tablename env s
    = (Ok tt, extend s (bracket (length (trace s)) (S (length (trace s))) middle))
    /\ forallb (fun e => negb (opens e)) middle = true.
Proof.
  intros Hc Hk.
  unfold delete_existing_data_before_load, call, try_finally, try_except.
  rewrite (bind_ok _ _ _ _ _ _ (acquire_ok env {| trace := trace s; locals := unbound |} Hc Hk)).
  unfold cursor_execute. run_monad.
  match goal with |- context [db_execute env ?t ?q] => destruct (db_execute env t q) as [e |] end;
    simpl.
  - unfold print_error. run_monad.
    eexists [_; _].
    split; [unfold extend, bracket; simpl; now rewrite <- !app_assoc | reflexivity].
  - eexists [_].
    split; [unfold extend, bracket; simpl; now rewrite <- !app_assoc | reflexivity].
Qed.

Ltac finish_bracket :=
  first
    [ solve [eexists []; split;
             [unfold extend, bracket; simpl; now rewrite <- ?app_assoc | reflexivity]]
    | solve [eexists [_]; split;
             [unfold extend, bracket; simpl; now rewrite <- ?app_assoc | reflexivity]]
    | solve [eexists [_; _]; split;
             [unfold extend, bracket; simpl; now rewrite <- ?app_assoc | reflexivity]]
    | solve [eexists [_; _; _]; split;
             [unfold extend, bracket; simpl; now rewrite <- ?app_assoc | reflexivity]]
    | solve [eexists [_; _; _; _]; split;
             [unfold extend, bracket; simpl; now rewrite <- ?app_assoc | reflexivity]] ].

Ltac case_driver f :=
  match goal with
  | |- context [f ?env ?t ?a ?b] => destruct (f env t a b); simpl
  | |- context [f ?env ?t ?a] => destruct (f env t a); simpl
  | |- context [f ?env ?t] => destruct (f env t); simpl
  end.

Lemma count_releases (env : Env) (s : state) (staging_tablename : string) :
  db_connect env (trace s) = None ->
  db_cursor env (trace s ++ [EvConnect (Some (length (trace s)))]) = None ->
  exists middle,
    validate_by_count_query staging_tablename env s
    = (Ok tt, extend s (bracket (length (trace s)) (S (length (trace s))) middle))
    /\ forallb (fun e => negb (opens e)) middle = true.
Proof.
  intros Hc Hk.
  unfold validate_by_count_query, call, try_finally, try_except.
  rewrite (bind_ok _ _ _ _ _ _ (acquire_ok env {| trace := trace s; locals := unbound |} Hc Hk)).
  unfold cursor_execute, cursor_fetchone, item0, print_error. run_monad.
  case_driver db_execute; [finish_bracket |].
  case_driver db_fetchone; [| finish_bracket].
  destruct a as [[| v row] |]; simpl; finish_bracket.
Qed.

Lemma retrieve_releases (env : Env) (s : state) (staging_tablename : string)
    (stagingTableOptionalColumns : list string) :
  db_connect env (trace s) = None ->
  db_cursor env (trace s ++ [EvConnect (Some (length (trace s)))]) = None ->
  exists r middle,
    retrieve_staging_table_column_names staging_tablename stagingTableOptionalColumns env s
    = (Ok r, extend s (bracket (length (trace s)) (S (length (trace s))) middle))
    /\ forallb (fun e => negb (opens e)) middle = true.
Proof.
  intros Hc Hk.
  unfold retrieve_staging_table_column_names, call, try_finally, try_except.
  rewrite (bind_ok _ _ _ _ _ _ (acquire_ok env {| trace := trace s; locals := unbound |} Hc Hk)).
  unfold cursor_execute, cursor_fetchall, connection_commit, item, print_error. run_monad.
  destruct (split_dot staging_tablename) as [| owner [| table_name rest]]; simpl;
    try (eexists; finish_bracket).
  case_driver db_execute; [eexists; finish_bracket |].
  case_driver db_fetchall; [| eexists; finish_bracket].
  case_driver db_commit; eexists; finish_bracket.
Qed.

Lemma load_releases (env : Env) (s : state) (staging_tablename : string)
    (staging_table_columns : option (list string)) (dataDF_columns : list string)
    (rows : list (list pyvalue)) (dateColumnConversion : list dateColConversionDict) :
  db_connect env (trace s) = None ->
  db_cursor env (trace s ++ [EvConnect (Some (length (trace s)))]) = None ->
  exists r middle,
    load_csv_data_into_table staging_tablename staging_table_columns dataDF_columns rows
      dateColumnConversion env s
    = (r, extend s (bracket (length (trace s)) (S (length (trace s))) middle))
    /\ forallb (fun e => negb (opens e)) middle = true.
Proof.
  intros Hc Hk.
  unfold load_csv_data_into_table, call, try_finally.
  rewrite (bind_ok _ _ _ _ _ _ (acquire_ok env {| trace := trace s; locals := unbound |} Hc Hk)).
  unfold cursor_executemany, connection_commit. run_monad.
  destruct staging_table_columns as [cols |]; simpl; [| eexists; finish_bracket].
  case_driver db_executemany; [eexists; finish_bracket |].
  case_driver db_commit; eexists; finish_bracket.
Qed.

Lemma quiet_opens_nothing (middle : list event) :
  forallb (fun e => negb (opens e)) middle = true ->
  opened_connections middle = [] /\ opened_cursors middle = [].
Proof.
  unfold opened_connections, opened_cursors.
  induction middle as [| e middle IH]; simpl; [now split |].
  rewrite andb_true_iff. intros [He Hm]. destruct (IH Hm) as [IH1 IH2].
  rewrite IH1, IH2. destruct e as [[c |] | c [k |] | | | | | | | | |]; simpl in *;
    try discriminate; now split.
Qed.

(** A helper that obtained its session and its cursor has closed both when
    it returns, however its body ended. *)
Lemma bracket_no_leak (c k : nat) (middle : list event) :
  forallb (fun e => negb (opens e)) middle = true ->
  leaked_connections (bracket c k middle) = []
  /\ leaked_cursors (bracket c k middle) = [].
Proof.
  intros Hq. destruct (quiet_opens_nothing middle Hq) as [Hc Hk].
  unfold leaked_connections, leaked_cursors, opened_connections, closed_connections,
    opened_cursors, closed_cursors, bracket in *.
  simpl. rewrite !flat_map_app, Hc, Hk. simpl.
  assert (E1 : forall l, existsb (Nat.eqb c) (l ++ [c]) = true).
  { intros l. rewrite existsb_app. simpl. now rewrite Nat.eqb_refl, orb_true_r. }
  assert (E2 : forall l, existsb (Nat.eqb k) (l ++ [k]) = true).
  { intros l. rewrite existsb_app. simpl. now rewrite Nat.eqb_refl, orb_true_r. }
  unfold minus. simpl. rewrite E1.
  replace (flat_map (fun e => match e with EvCloseCursor k0 => [k0] | _ => [] end) middle
           ++ [k] ++ [])
    with (flat_map (fun e => match e with EvCloseCursor k0 => [k0] | _ => [] end) middle
          ++ [k]) by reflexivity.
  now rewrite E2.
Qed.

(** Without a session the cursor is never bound, and the [finally] block
    of a helper stops at its first line. *)
Lemma delete_without_session (env : Env) (s : state) (staging_tablename : string)
    (e : exception) :
  db_connect env (trace s) = Some e ->
  delete_existing_data_before_load staging_tablename env s
  = (Raise UnboundLocalError,
     extend s [EvConnect None; EvPrintError "Error connecting to the database: " e;
               EvPrintError "Error truncating table - " AttributeError]).
Proof.
  intros Hc.
  unfold delete_existing_data_before_load, call, try_finally, try_except, acquire,
    connect_to_oracledb, try_except, oracledb_connect, set_connection, connection_cursor,
    print_error, release, get_cursor.
  run_monad. rewrite Hc. simpl.
  unfold extend. now rewrite <- !app_assoc.
Qed.

Lemma load_without_session (env : Env) (s : state) (staging_tablename : string)
    (staging_table_columns : option (list string)) (dataDF_columns : list string)
    (rows : list (list pyvalue)) (dateColumnConversion : list dateColConversionDict)
    (e : exception) :
  db_connect env (trace s) = Some e ->
  load_csv_data_into_table staging_tablename staging_table_columns dataDF_columns rows
    dateColumnConversion env s
  = (Raise UnboundLocalError,
     extend s [EvConnect None; EvPrintError "Error connecting to the database: " e]).
Proof.
  intros Hc.
  unfold load_csv_data_into_table, call, try_finally, acquire,
    connect_to_oracledb, try_except, oracledb_connect, set_connection, connection_cursor,
    print_error, release, get_cursor.
  run_monad. rewrite Hc. simpl.
  unfold extend. now rewrite <- !app_assoc.
Qed.

Ltac run_unacquired Hbad :=
  unfold call, try_finally, try_except, acquire, connect_to_oracledb, try_except,
    oracledb_connect, set_connection, connection_cursor, print_error, release, get_cursor;
  run_monad;
  match goal with
  | |- context [db_connect ?env ?t] =>
      destruct (db_connect env t) as [e0 |] eqn:Hconn; simpl;
      [ unfold stops_unreleased; rewrite Hconn
      | match goal with
        | |- context [db_cursor env ?t'] =>
            destruct (db_cursor env t') as [e1 |] eqn:Hcur; simpl;
            [ unfold stops_unreleased; rewrite Hconn
            | exfalso; destruct Hbad as [Hbad | Hbad]; now apply Hbad ]
        end ]
  end.

Ltac unreleased :=
  eexists;
  (split; [unfold extend; simpl; rewrite <- ?app_assoc; simpl; reflexivity |]);
  repeat split.

(** C7.  The claim fails on the code.  Whenever a helper does not obtain
    its cursor, because the database cannot be reached and
    [connect_to_oracledb] returns [None] or because [connection.cursor()]
    raises, the name [cursor] is never bound and the [finally] block of
    each of the four helpers raises [UnboundLocalError] at [if cursor:]:
    the exit path itself fails, nothing is closed, and a session that had
    been opened stays open. *)
Theorem release_fails_when_cursor_unbound (env : Env) (s : state)
    (staging_tablename : string) (stagingTableOptionalColumns : list string)
    (staging_table_columns : option (list string)) (dataDF_columns : list string)
    (rows : list (list pyvalue)) (dateColumnConversion : list dateColConversionDict) :
  db_connect env (trace s) <> None
  \/ db_cursor env (trace s ++ [EvConnect (Some (length (trace s)))]) <> None ->
  stops_unreleased env s (delete_existing_data_before_load staging_tablename env s)
  /\ stops_unreleased env s (validate_by_count_query staging_tablename env s)
  /\ stops_unreleased env s
       (retrieve_staging_table_column_names staging_tablename
          stagingTableOptionalColumns env s)
  /\ stops_unreleased env s
       (load_csv_data_into_table staging_tablename staging_table_columns dataDF_columns
          rows dateColumnConversion env s).
Proof.
  intros Hbad.
  split; [| split; [| split]].
  - unfold delete_existing_data_before_load.
    run_unacquired Hbad; unreleased.
  - unfold validate_by_count_query.
    run_unacquired Hbad; unreleased.
  - unfold retrieve_staging_table_column_names.
    run_unacquired Hbad; unreleased.
  - unfold load_csv_data_into_table.
    run_unacquired Hbad; unreleased.
Qed.

Lemma release_fails_when_cursor_unbound_witness :
  db_connect Examples.unreachable [] <> None
  /\ fst (run (delete_existing_data_before_load "S.T") Examples.unreachable)
     = Raise UnboundLocalError
  /\ fst (run (load_csv_data_into_table "S.T" (Some ["A"; "B"]) ["c1"; "c2"] [] [])
              Examples.unreachable)
     = Raise UnboundLocalError.
Proof.
  assert (Hdown : db_connect Examples.unreachable [] <> None) by discriminate.
  split; [exact Hdown |].
  destruct (release_fails_when_cursor_unbound Examples.unreachable
              {| trace := []; locals := unbound |} "S.T" [] (Some ["A"; "B"])
              ["c1"; "c2"] [] [] (or_introl Hdown))
    as ((evs1 & E1 & _) & _ & _ & (evs4 & E4 & _)).
  unfold run. rewrite E1, E4. split; reflexivity.
Defined.

(** The four helpers against a database that cannot be reached, and the
    first of them against a session that yields no cursor: the traces in
    full.  In the last run session 0 is opened and never closed. *)
Lemma helpers_without_cursor_traces :
  run (delete_existing_data_before_load "S.T") Examples.unreachable
  = (Raise UnboundLocalError,
     [EvConnect None;
      EvPrintError "Error connecting to the database: "
        (DatabaseError "DPY-6005: cannot connect to database");
      EvPrintError "Error truncating table - " AttributeError])
  /\ run (validate_by_count_query "S.T") Examples.unreachable
     = (Raise UnboundLocalError,
        [EvConnect None;
         EvPrintError "Error connecting to the database: "
           (DatabaseError "DPY-6005: cannot connect to database");
         EvPrintError "Failed to retrieve record count - " AttributeError])
  /\ run (retrieve_staging_table_column_names "S.T" []) Examples.unreachable
     = (Raise UnboundLocalError,
        [EvConnect None;
         EvPrintError "Error connecting to the database: "
           (DatabaseError "DPY-6005: cannot connect to database");
         EvPrintError "Failed to retrieve the staging table fields - " AttributeError])
  /\ run (load_csv_data_into_table "S.T" (Some ["A"; "B"]) ["c1"; "c2"] [] [])
         Examples.unreachable
     = (Raise UnboundLocalError,
        [EvConnect None;
         EvPrintError "Error connecting to the database: "
           (DatabaseError "DPY-6005: cannot connect to database")])
  /\ run (delete_existing_data_before_load "S.T") Examples.no_cursor
     = (Raise UnboundLocalError,
        [EvConnect (Some 0); EvCursor 0 None;
         EvPrintError "Error truncating table - "
           (DatabaseError "DPY-1001: not connected to database")])
  /\ leaked_connections (snd (run (delete_existing_data_before_load "S.T")
                                  Examples.no_cursor)) = [0].
Proof. repeat split; vm_compute; reflexivity. Qed.

(** ** The entry point *)

Lemma endswith_self_eq (a b suffix : string) :
  String.eqb a b = true -> endswith a suffix = endswith b suffix.
Proof. intros H. apply String.eqb_eq in H. now subst. Qed.

Lemma not_selected (obj_name source_filepath : string) (objs : list string) :
  In obj_name objs ->
  (endswith source_filepath ".csv" || endswith source_filepath ".xlsx" = false
   \/ ~ In source_filepath objs) ->
  selected obj_name source_filepath = false.
Proof.
  intros Hin Hno. unfold selected.
  destruct (String.eqb obj_name source_filepath) eqn:E; [| apply andb_false_r].
  apply String.eqb_eq in E. subst obj_name.
  destruct Hno as [Hext | Hnot]; [now rewrite Hext | now destruct Hnot].
Qed.

Lemma for_each_skips {A : Type} (l : list A) (body : A -> M unit) (env : Env) (s : state) :
  (forall x, In x l -> body x = mret tt) ->
  for_each l body env s = (Ok tt, s).
Proof.
  induction l as [| x l IH]; intros H; simpl; [reflexivity |].
  rewrite (H x) by now left.
  unfold mbind, M_bind, mret, M_ret. apply IH. intros y Hy. apply H. now right.
Qed.

(** When the listing holds objects, a path with another extension or a
    path that is no listed key selects nothing: the call returns normally
    and nothing at all has happened. *)
Lemma unmatched_path_is_skipped (env : Env) (objs : list string)
    (source_filepath staging_tablename : string)
    (stagingTableOptionalColumns : list string)
    (dateColumnConversion : list dateColConversionDict) :
  s3_contents env = Some objs ->
  (endswith source_filepath ".csv" || endswith source_filepath ".xlsx" = false
   \/ ~ In source_filepath objs) ->
  run (read_from_s3_and_write_to_oracle source_filepath staging_tablename
         stagingTableOptionalColumns dateColumnConversion) env
  = (Ok tt, []).
Proof.
  intros Hobjs Hno.
  unfold run, read_from_s3_and_write_to_oracle. run_monad. rewrite Hobjs.
  rewrite for_each_skips; [reflexivity |].
  intros obj Hobj. unfold loop_body.
  now rewrite (not_selected obj source_filepath objs Hobj Hno).
Qed.

(** C8.  The claim fails on the code when no object lies under the prefix:
    the listing response then has no [Contents] entry, [objects_list] is
    [None], and the [for] statement raises [TypeError] before anything else
    happens, whatever the path. *)
Theorem empty_listing_raises (env : Env) (source_filepath staging_tablename : string)
    (stagingTableOptionalColumns : list string)
    (dateColumnConversion : list dateColConversionDict) :
  s3_contents env = None ->
  run (read_from_s3_and_write_to_oracle source_filepath staging_tablename
         stagingTableOptionalColumns dateColumnConversion) env
  = (Raise TypeError, []).
Proof.
  intros Hnone.
  unfold run, read_from_s3_and_write_to_oracle. run_monad. now rewrite Hnone.
Qed.

Lemma empty_listing_raises_witness :
  endswith "inputstream/cdw/notes.txt" ".csv"
  || endswith "inputstream/cdw/notes.txt" ".xlsx" = false
  /\ run (read_from_s3_and_write_to_oracle "inputstream/cdw/notes.txt" "S.T" [] [])
         Examples.empty_prefix
     = (Raise TypeError, []).
Proof.
  split; [reflexivity |].
  apply (empty_listing_raises Examples.empty_prefix); reflexivity.
Defined.

(** ** Resolution failures and the rest of the pipeline *)

Lemma retrieve_query_fails (env : Env) (s : state)
    (staging_tablename owner table_name : string) (rest excluded : list string)
    (e : exception) :
  split_dot staging_tablename = owner :: table_name :: rest ->
  db_connect env (trace s) = None ->
  db_cursor env (trace s ++ [EvConnect (Some (length (trace s)))]) = None ->
  (forall t, db_execute env t (queryToFetchTableColumnNames owner table_name) = Some e) ->
  retrieve_staging_table_column_names staging_tablename excluded env s
  = (Ok None,
     extend s (bracket (length (trace s)) (S (length (trace s)))
                 [EvExecute (S (length (trace s)))
                    (queryToFetchTableColumnNames owner table_name) false;
                  EvPrintError "Failed to retrieve the staging table fields - " e])).
Proof.
  intros Hsplit Hc Hk Hq.
  unfold retrieve_staging_table_column_names, call, try_finally, try_except.
  rewrite (bind_ok _ _ _ _ _ _ (acquire_ok env {| trace := trace s; locals := unbound |} Hc Hk)).
  unfold cursor_execute, cursor_fetchall, connection_commit, item, print_error. run_monad.
  rewrite Hsplit. simpl. rewrite Hq. simpl.
  unfold extend, bracket. simpl. now rewrite <- !app_assoc.
Qed.

Lemma retrieve_zero_rows (env : Env) (s : state)
    (staging_tablename owner table_name : string) (rest excluded : list string) :
  split_dot staging_tablename = owner :: table_name :: rest ->
  db_connect env (trace s) = None ->
  db_cursor env (trace s ++ [EvConnect (Some (length (trace s)))]) = None ->
  (forall t, db_execute env t (queryToFetchTableColumnNames owner table_name) = None) ->
  (forall t, db_fetchall env t = Ok []) ->
  (forall t, db_commit env t = None) ->
  retrieve_staging_table_column_names staging_tablename excluded env s
  = (Ok (Some []),
     extend s (bracket (length (trace s)) (S (length (trace s)))
                 [EvExecute (S (length (trace s)))
                    (queryToFetchTableColumnNames owner table_name) true;
                  EvFetchall (S (length (trace s)));
                  EvCommit (length (trace s)) true])).
Proof.
  intros Hsplit Hc Hk Hq Hf Hcm.
  unfold retrieve_staging_table_column_names, call, try_finally, try_except.
  rewrite (bind_ok _ _ _ _ _ _ (acquire_ok env {| trace := trace s; locals := unbound |} Hc Hk)).
  unfold cursor_execute, cursor_fetchall, connection_commit, item, print_error. run_monad.
  rewrite Hsplit. simpl. rewrite Hq. simpl. rewrite Hf. simpl. rewrite Hcm. simpl.
  unfold extend, bracket. simpl. now rewrite <- !app_assoc.
Qed.

Lemma load_without_columns (env : Env) (s : state) (staging_tablename : string)
    (dataDF_columns : list string) (rows : list (list pyvalue))
    (dateColumnConversion : list dateColConversionDict) :
  db_connect env (trace s) = None ->
  db_cursor env (trace s ++ [EvConnect (Some (length (trace s)))]) = None ->
  load_csv_data_into_table staging_tablename None dataDF_columns rows
    dateColumnConversion env s
  = (Raise TypeError, extend s (bracket (length (trace s)) (S (length (trace s))) [])).
Proof.
  intros Hc Hk.
  unfold load_csv_data_into_table, call, try_finally.
  rewrite (bind_ok _ _ _ _ _ _ (acquire_ok env {| trace := trace s; locals := unbound |} Hc Hk)).
  run_monad. unfold extend, bracket. simpl. now rewrite <- !app_assoc.
Qed.

Lemma load_with_columns (env : Env) (s : state) (staging_tablename : string)
    (cols dataDF_columns : list string) (rows : list (list pyvalue))
    (dateColumnConversion : list dateColConversionDict) :
  db_connect env (trace s) = None ->
  db_cursor env (trace s ++ [EvConnect (Some (length (trace s)))]) = None ->
  exists r ok tail,
    load_csv_data_into_table staging_tablename (Some cols) dataDF_columns rows
      dateColumnConversion env s
    = (r, extend s (bracket (length (trace s)) (S (length (trace s)))
                      (EvExecutemany (S (length (trace s)))
                         ("INSERT INTO " +:+ staging_tablename +:+ "(" +:+
                          join ", " cols +:+ ") VALUES(" +:+
                          join ", " (valuesToInsert dataDF_columns dateColumnConversion)
                          +:+ ")")
                         rows ok :: tail))).
Proof.
  intros Hc Hk.
  unfold load_csv_data_into_table, call, try_finally.
  rewrite (bind_ok _ _ _ _ _ _ (acquire_ok env {| trace := trace s; locals := unbound |} Hc Hk)).
  unfold cursor_executemany, connection_commit, data_insertion_query.
  rewrite columns_by_index_id. run_monad.
  case_driver db_executemany.
  - eexists _, false, []. unfold extend, bracket. simpl. now rewrite <- !app_assoc.
  - case_driver db_commit.
    + eexists _, true, [_]. unfold extend, bracket. simpl. now rewrite <- !app_assoc.
    + eexists _, true, [_]. unfold extend, bracket. simpl. now rewrite <- !app_assoc.
Qed.

(** C2, as the code has it.  On a server that grants sessions and cursors:
    when the catalog query is rejected, the resolver catches the error,
    reports it, closes its cursor and session and returns [None] instead of
    raising; the pipeline goes on to the load step, which opens a session
    and a cursor, fails with [TypeError] on the missing column list before
    any bulk insert, closes both and lets that error end the run, so that no
    count follows.  When the catalog returns no row, the resolver returns
    the empty list without any error, and the load step builds the
    statement and submits the bulk insert. *)
Theorem failed_resolution_is_not_raised (env : Env) (s : state)
    (staging_tablename owner table_name : string) (rest : list string)
    (stagingTableOptionalColumns : list string)
    (dateColumnConversion : list dateColConversionDict)
    (dataDF_columns : list string) (rows : list (list pyvalue)) :
  split_dot staging_tablename = owner :: table_name :: rest ->
  (forall t, db_connect env t = None) ->
  (forall t, db_cursor env t = None) ->
  let query := queryToFetchTableColumnNames owner table_name in
  (forall e,
     (forall t, db_execute env t query = Some e) ->
     let report := EvPrintError "Failed to retrieve the staging table fields - " e in
     retrieve_staging_table_column_names staging_tablename stagingTableOptionalColumns env s
     = (Ok None,
        extend s (bracket (length (trace s)) (S (length (trace s)))
                    [EvExecute (S (length (trace s))) query false; report]))
     /\ exists before,
          let c := length (trace s ++ before) in
          pipeline staging_tablename stagingTableOptionalColumns dateColumnConversion
                   dataDF_columns rows env s
          = (Raise TypeError,
             extend s (before
                       ++ bracket c (S c) [EvExecute (S c) query false; report]
                       ++ bracket (c + 6) (c + 7) [])))
  /\ ((forall t, db_execute env t query = None) ->
      (forall t, db_fetchall env t = Ok []) ->
      (forall t, db_commit env t = None) ->
      retrieve_staging_table_column_names staging_tablename stagingTableOptionalColumns env s
      = (Ok (Some []),
         extend s (bracket (length (trace s)) (S (length (trace s)))
                     [EvExecute (S (length (trace s))) query true;
                      EvFetchall (S (length (trace s)));
                      EvCommit (length (trace s)) true]))
      /\ exists before r ok tail after,
           let c := length (trace s ++ before) in
           pipeline staging_tablename stagingTableOptionalColumns dateColumnConversion
                    dataDF_columns rows env s
           = (r,
              extend s (before
                        ++ bracket c (S c)
                             [EvExecute (S c) query true; EvFetchall (S c); EvCommit c true]
                        ++ bracket (c + 7) (c + 8)
                             (EvExecutemany (c + 8)
                                ("INSERT INTO " +:+ staging_tablename +:+ "(" +:+
                                 join ", " [] +:+ ") VALUES(" +:+
                                 join ", " (valuesToInsert dataDF_columns dateColumnConversion)
                                 +:+ ")")
                                rows ok :: tail)
                        ++ after))).
Proof.
  intros Hsplit Hc Hk query.
  assert (Hstart : exists before,
            (delete_existing_data_before_load staging_tablename;;
             validate_by_count_query staging_tablename) env s
            = (Ok tt, extend s before)).
  { destruct (delete_releases env s staging_tablename (Hc _) (Hk _)) as (m1 & E1 & _).
    rewrite (bind_ok _ _ _ _ _ _ E1).
    match goal with |- context [extend s ?b] => set (b1 := b) end.
    destruct (count_releases env (extend s b1) staging_tablename (Hc _) (Hk _))
      as (m2 & E2 & _).
    rewrite E2, extend_extend. now eexists. }
  destruct Hstart as (before & Hbefore).
  assert (Hpipe : forall k : option (list string) -> M unit,
            (delete_existing_data_before_load staging_tablename;;
             validate_by_count_query staging_tablename;;
             cols ← retrieve_staging_table_column_names staging_tablename
                      stagingTableOptionalColumns;
             k cols) env s
            = (cols ← retrieve_staging_table_column_names staging_tablename
                        stagingTableOptionalColumns;
               k cols) env (extend s before)).
  { intros k. unfold mbind, M_bind in *.
    destruct (delete_existing_data_before_load staging_tablename env s) as [[[] | e1] s1];
      [| discriminate].
    destruct (validate_by_count_query staging_tablename env s1) as [[[] | e2] s2];
      [| discriminate].
    now injection Hbefore as ->. }
  split.
  - intros e Hq report. split.
    + now apply (retrieve_query_fails env s staging_tablename owner table_name rest).
    + exists before. intros c. unfold pipeline.
      pose proof (retrieve_query_fails env (extend s before) staging_tablename owner
                    table_name rest stagingTableOptionalColumns e Hsplit (Hc _) (Hk _) Hq)
        as Hret.
      match type of Hret with _ = (_, ?st) => set (s3 := st) in * end.
      pose proof (load_without_columns env s3 staging_tablename dataDF_columns rows
                    dateColumnConversion (Hc _) (Hk _)) as Hload.
      assert (Hlen : length (trace s3) = c + 6).
      { subst s3 c. simpl. rewrite !length_app. simpl. lia. }
      rewrite Hpipe, (bind_ok _ _ _ _ _ _ Hret), (bind_raise _ _ _ _ _ _ Hload).
      rewrite Hlen. subst s3. rewrite !extend_extend.
      replace (S (c + 6)) with (c + 7) by lia.
      subst c. reflexivity.
  - intros Hq Hf Hcm. split.
    + now apply (retrieve_zero_rows env s staging_tablename owner table_name rest).
    + pose proof (retrieve_zero_rows env (extend s before) staging_tablename owner
                    table_name rest stagingTableOptionalColumns Hsplit (Hc _) (Hk _)
                    Hq Hf Hcm) as Hret.
      match type of Hret with _ = (_, ?st) => set (s3 := st) in * end.
      destruct (load_with_columns env s3 staging_tablename [] dataDF_columns rows
                  dateColumnConversion (Hc _) (Hk _)) as (r & ok & tail & Hload).
      assert (Hlen : length (trace s3) = length (trace s ++ before) + 7).
      { subst s3. simpl. rewrite !length_app. simpl. lia. }
      rewrite Hlen in Hload.
      replace (S (length (trace s ++ before) + 7))
        with (length (trace s ++ before) + 8) in Hload by lia.
      match type of Hload with _ = (_, extend _ ?l) => set (inserted := l) in * end.
      destruct r as [[] | e].
      * destruct (count_releases env (extend s3 inserted) staging_tablename (Hc _) (Hk _))
          as (m3 & E3 & _).
        match type of E3 with _ = (_, extend _ ?l) => set (after := l) in * end.
        exists before, (Ok tt), ok, tail, after. intros c. unfold pipeline.
        rewrite Hpipe, (bind_ok _ _ _ _ _ _ Hret), (bind_ok _ _ _ _ _ _ Hload), E3.
        subst s3. rewrite !extend_extend. reflexivity.
      * exists before, (Raise e), ok, tail, []. intros c. unfold pipeline.
        rewrite Hpipe, (bind_ok _ _ _ _ _ _ Hret), (bind_raise _ _ _ _ _ _ Hload).
        subst s3. rewrite !extend_extend, app_nil_r. reflexivity.
Qed.

Lemma failed_resolution_is_not_raised_witness :
  split_dot "S.T" = ["S"; "T"]
  /\ run (retrieve_staging_table_column_names "S.T" []) Examples.catalog_fails
     = (Ok None,
        [EvConnect (Some 0); EvCursor 0 (Some 1);
         EvExecute 1 (queryToFetchTableColumnNames "S" "T") false;
         EvPrintError "Failed to retrieve the staging table fields - "
           (DatabaseError "ORA-00942: table or view does not exist");
         EvCloseCursor 1; EvCloseConnection 0]).
Proof.
  split; [reflexivity |].
  destruct (failed_resolution_is_not_raised Examples.catalog_fails
              {| trace := []; locals := unbound |} "S.T" "S" "T" [] [] []
              ["c1"; "c2"] [] eq_refl (fun _ => eq_refl) (fun _ => eq_refl)) as [H _].
  destruct (H (DatabaseError "ORA-00942: table or view does not exist")
              (fun _ => eq_refl)) as [Hret _].
  unfold run. rewrite Hret. reflexivity.
Defined.

(** C2 fails as stated.  With the catalog query rejected the resolver
    returns [None] and raises nothing; the run goes on into the load step,
    which opens session 18 and cursor 19 before it stops on a [TypeError].
    With a catalog of no rows the resolver returns the empty list, and the
    statement is built, the bulk insert submitted and the second count
    made. *)
Lemma failed_resolution_goes_on_to_load :
  run (retrieve_staging_table_column_names "S.T" []) Examples.catalog_fails
  = (Ok None,
     [EvConnect (Some 0); EvCursor 0 (Some 1);
      EvExecute 1 (queryToFetchTableColumnNames "S" "T") false;
      EvPrintError "Failed to retrieve the staging table fields - "
        (DatabaseError "ORA-00942: table or view does not exist");
      EvCloseCursor 1; EvCloseConnection 0])
  /\ run (read_from_s3_and_write_to_oracle Examples.key "S.T" [] []) Examples.catalog_fails
     = (Raise TypeError,
        [EvGetObject Examples.key;
         EvConnect (Some 1); EvCursor 1 (Some 2);
         EvExecute 2 "TRUNCATE TABLE S.T" true;
         EvCloseCursor 2; EvCloseConnection 1;
         EvConnect (Some 6); EvCursor 6 (Some 7);
         EvExecute 7 "SELECT COUNT(*) AS ct_recs FROM S.T" true; EvFetchone 7;
         EvCloseCursor 7; EvCloseConnection 6;
         EvConnect (Some 12); EvCursor 12 (Some 13);
         EvExecute 13 (queryToFetchTableColumnNames "S" "T") false;
         EvPrintError "Failed to retrieve the staging table fields - "
           (DatabaseError "ORA-00942: table or view does not exist");
         EvCloseCursor 13; EvCloseConnection 12;
         EvConnect (Some 18); EvCursor 18 (Some 19);
         EvCloseCursor 19; EvCloseConnection 18])
  /\ run (read_from_s3_and_write_to_oracle Examples.key "S.T" [] [])
         (Examples.database [] Examples.key)
     = (Ok tt,
        [EvGetObject Examples.key;
         EvConnect (Some 1); EvCursor 1 (Some 2);
         EvExecute 2 "TRUNCATE TABLE S.T" true;
         EvCloseCursor 2; EvCloseConnection 1;
         EvConnect (Some 6); EvCursor 6 (Some 7);
         EvExecute 7 "SELECT COUNT(*) AS ct_recs FROM S.T" true; EvFetchone 7;
         EvCloseCursor 7; EvCloseConnection 6;
         EvConnect (Some 12); EvCursor 12 (Some 13);
         EvExecute 13 (queryToFetchTableColumnNames "S" "T") true;
         EvFetchall 13; EvCommit 12 true;
         EvCloseCursor 13; EvCloseConnection 12;
         EvConnect (Some 19); EvCursor 19 (Some 20);
         EvExecutemany 20 "INSERT INTO S.T() VALUES(:1, :2)" [[PyInt 1; PyNone]] true;
         EvCommit 19 true;
         EvCloseCursor 20; EvCloseConnection 19;
         EvConnect (Some 25); EvCursor 25 (Some 26);
         EvExecute 26 "SELECT COUNT(*) AS ct_recs FROM S.T" true; EvFetchone 26;
         EvCloseCursor 26; EvCloseConnection 25]).
Proof. repeat split; vm_compute; reflexivity. Qed.

(** C5.  The claim fails on the code for a catalog of one column.  The
    table [S.T] has the single column [ID]: the resolver returns the two
    entries [I] and [D], not the name; naming [ID] as excluded changes
    nothing, so an excluded column is not dropped; and of the single column
    [Start Date] the blank is trimmed to an empty entry and nothing is
    quoted. *)
Theorem single_column_catalog_is_split :
  resolve ["ID"] [] = ["I"; "D"]
  /\ resolve ["ID"] [] <> [quoted (strip "ID")]
  /\ resolve ["ID"] ["ID"] = ["I"; "D"]
  /\ resolve ["Start Date"] []
     = ["S"; "t"; "a"; "r"; "t"; EmptyString; "D"; "a"; "t"; "e"]
  /\ run (retrieve_staging_table_column_names "S.T" [])
         (Examples.database ["ID"] Examples.key)
     = (Ok (Some ["I"; "D"]),
        [EvConnect (Some 0); EvCursor 0 (Some 1);
         EvExecute 1 (queryToFetchTableColumnNames "S" "T") true;
         EvFetchall 1; EvCommit 0 true; EvCloseCursor 1; EvCloseConnection 0]).
Proof.
  split; [reflexivity |].
  split; [vm_compute; discriminate |].
  repeat split; vm_compute; reflexivity.
Qed.

(** * Further properties of the code *)

(** ** Row normalisation (lines 261-269) *)

Lemma nan_to_none_idempotent (v : pyvalue) : nan_to_none (nan_to_none v) = nan_to_none v.
Proof. destruct v as [| b | z | f | s]; try reflexivity. now destruct f. Qed.

Lemma nan_to_none_not_nan (v : pyvalue) (f : spec_float) :
  nan_to_none v = PyFloat f -> isnan f = false.
Proof.
  destruct v as [| b | z | g | s]; simpl; try discriminate.
  destruct g; simpl; try discriminate; intros [= <-]; reflexivity.
Qed.

(** The list handed to the bulk insert has as many rows as the file, each
    row keeps its width, no float NaN is left in it, and normalising once
    more changes nothing; rows that hold no NaN come out as they went
    in. *)
Theorem normalization_keeps_shape (dataInsertionTuples : list (list pyvalue)) :
  let modified := modified_dataInsertionTuples dataInsertionTuples in
  length modified = length dataInsertionTuples
  /\ (forall i row, dataInsertionTuples !! i = Some row ->
        exists row', modified !! i = Some row' /\ length row' = length row)
  /\ (forall row v f, In row modified -> In v row -> v = PyFloat f -> isnan f = false)
  /\ modified_dataInsertionTuples modified = modified
  /\ ((forall row v f, In row dataInsertionTuples -> In v row -> v = PyFloat f ->
         isnan f = false) ->
      modified = dataInsertionTuples).
Proof.
  intros modified. subst modified.
  rewrite !modified_dataInsertionTuples_spec.
  split; [now rewrite length_map |].
  split.
  { intros i row Hrow. exists (List.map nan_to_none row).
    change (List.map (List.map nan_to_none) dataInsertionTuples !! i)
      with ((List.map nan_to_none <$> dataInsertionTuples) !! i).
    rewrite list_lookup_fmap, Hrow. simpl. split; [reflexivity | apply length_map]. }
  split.
  { intros row v f Hrow Hv ->.
    apply in_map_iff in Hrow as (row0 & <- & _).
    apply in_map_iff in Hv as (v0 & Hv0 & _).
    now apply (nan_to_none_not_nan v0). }
  split.
  { rewrite map_map. apply map_ext. intros row. rewrite map_map.
    apply map_ext. apply nan_to_none_idempotent. }
  intros Hclean.
  rewrite <- (map_id dataInsertionTuples) at 2.
  apply map_ext_in. intros row Hrow.
  rewrite <- (map_id row) at 2.
  apply map_ext_in. intros v Hv.
  destruct (nan_to_none_cases v) as [[_ (f & -> & Hnan)] | [E _]]; [| exact E].
  rewrite (Hclean row (PyFloat f) f Hrow Hv eq_refl) in Hnan. discriminate.
Qed.

(** ** Statement synthesis (lines 182-193) *)

Lemma entries_at_perm (x : nat) (conv conv' : list dateColConversionDict) :
  Permutation conv conv' -> Permutation (entries_at x conv) (entries_at x conv').
Proof.
  unfold entries_at. induction 1 as [| d l l' _ IH | d d' l | l l' l'' _ IH1 _ IH2]; simpl.
  - constructor.
  - destruct (Z.of_nat x =? dateColumnIndex d)%Z; [now constructor | exact IH].
  - destruct (Z.of_nat x =? dateColumnIndex d)%Z, (Z.of_nat x =? dateColumnIndex d')%Z;
      try reflexivity; now constructor.
  - now transitivity (List.filter (fun d => (Z.of_nat x =? dateColumnIndex d)%Z) l').
Qed.

Lemma short_perm_eq {A : Type} (l l' : list A) :
  Permutation l l' -> length l <= 1 -> l = l'.
Proof.
  intros Hp Hlen.
  destruct l as [| a [| b l]]; simpl in Hlen; [| | lia].
  - now apply Permutation_nil in Hp.
  - now apply Permutation_length_1_inv in Hp.
Qed.

(** The order in which the caller lists the date mappings does not matter
    for the statement, provided no two of them name the same position of
    the row. *)
Theorem statement_ignores_mapping_order (staging_tablename : string)
    (staging_table_columns : option (list string)) (dataDF_columns : list string)
    (dateColumnConversion reordered : list dateColConversionDict) :
  Permutation dateColumnConversion reordered ->
  List.NoDup (in_range_indices (length dataDF_columns) dateColumnConversion) ->
  valuesToInsert dataDF_columns reordered = valuesToInsert dataDF_columns dateColumnConversion
  /\ data_insertion_query staging_tablename staging_table_columns dataDF_columns reordered
     = data_insertion_query staging_tablename staging_table_columns dataDF_columns
         dateColumnConversion.
Proof.
  intros Hp Hnd.
  assert (Hv : valuesToInsert dataDF_columns reordered
               = valuesToInsert dataDF_columns dateColumnConversion).
  { rewrite !valuesToInsert_spec. apply flat_map_ext_in. intros x Hx.
    apply in_seq in Hx. unfold slots_at.
    rewrite <- (short_perm_eq _ _ (entries_at_perm x _ _ Hp)); [reflexivity |].
    apply (proj1 (NoDup_in_range _ _) Hnd). lia. }
  split; [exact Hv |].
  unfold data_insertion_query. now rewrite Hv.
Qed.

Lemma statement_ignores_mapping_order_witness :
  data_insertion_query "T" (Some ["A"; "B"]) ["c1"; "c2"]
    [mkDateCol 1 "YYYY"; mkDateCol 0 "DD"]
  = data_insertion_query "T" (Some ["A"; "B"]) ["c1"; "c2"]
      [mkDateCol 0 "DD"; mkDateCol 1 "YYYY"].
Proof.
  apply (statement_ignores_mapping_order "T" (Some ["A"; "B"]) ["c1"; "c2"]
           [mkDateCol 0 "DD"; mkDateCol 1 "YYYY"] [mkDateCol 1 "YYYY"; mkDateCol 0 "DD"]).
  - apply perm_swap.
  - vm_compute. repeat constructor; simpl; intuition discriminate.
Defined.

(** Where two mappings name the same position the order does matter: the
    slots of that position follow the order of the mapping. *)
Lemma mapping_order_matters_with_duplicates :
  valuesToInsert ["c1"] [mkDateCol 0 "DD"; mkDateCol 0 "YYYY"]
  <> valuesToInsert ["c1"] [mkDateCol 0 "YYYY"; mkDateCol 0 "DD"].
Proof. vm_compute. discriminate. Qed.

(** With no date mapping, which is the default, or with a mapping none of
    whose indices is a position of the row, the value list is the bare
    placeholders [:1] to [:n] in order, one per column of the file. *)
Theorem unmapped_statement_is_plain (staging_tablename : string) (cols : list string)
    (dataDF_columns : list string) (dateColumnConversion : list dateColConversionDict) :
  (forall d, In d dateColumnConversion ->
     in_range (length dataDF_columns) (dateColumnIndex d) = false) ->
  valuesToInsert dataDF_columns dateColumnConversion
  = List.map bare_slot (seq 0 (length dataDF_columns))
  /\ valuesToInsert dataDF_columns []
     = List.map (fun x => ":" +:+ str (x + 1)) (seq 0 (length dataDF_columns))
  /\ data_insertion_query staging_tablename (Some cols) dataDF_columns dateColumnConversion
     = Ok ("INSERT INTO " +:+ staging_tablename +:+ "(" +:+ join ", " cols +:+ ") VALUES(" +:+
           join ", " (List.map bare_slot (seq 0 (length dataDF_columns))) +:+ ")").
Proof.
  intros Hout.
  assert (Hbare : forall conv,
            (forall d, In d conv -> in_range (length dataDF_columns) (dateColumnIndex d) = false) ->
            valuesToInsert dataDF_columns conv
            = List.map bare_slot (seq 0 (length dataDF_columns))).
  { intros conv Hc. rewrite valuesToInsert_spec. apply flat_map_singletons.
    intros x Hx. apply in_seq in Hx. unfold slots_at.
    rewrite (proj2 (entries_at_nil conv x)); [reflexivity |].
    intros d Hd Hi. specialize (Hc d Hd). rewrite Hi in Hc.
    assert (Ht : in_range (length dataDF_columns) (Z.of_nat x) = true)
      by (apply in_range_spec; exists x; split; [lia | reflexivity]).
    congruence. }
  split; [now apply Hbare |].
  split; [apply Hbare; intros d [] |].
  unfold data_insertion_query. now rewrite columns_by_index_id, Hbare.
Qed.

Lemma unmapped_statement_is_plain_witness :
  data_insertion_query "CDW_STG.T" (Some ["A"; "B"; "C"]) ["c1"; "c2"; "c3"] []
  = Ok "INSERT INTO CDW_STG.T(A, B, C) VALUES(:1, :2, :3)".
Proof.
  destruct (unmapped_statement_is_plain "CDW_STG.T" ["A"; "B"; "C"] ["c1"; "c2"; "c3"] [])
    as (_ & _ & H); [intros d [] |].
  rewrite H. reflexivity.
Defined.

(** ** Column resolution (lines 101-131) *)

Lemma lstrip_spec (l : list string) :
  exists pre,
    l = pre ++ lstrip l
    /\ forallb isspace pre = true
    /\ (forall c r, lstrip l = c :: r -> isspace c = false).
Proof.
  induction l as [| c l IH]; simpl.
  - exists []. repeat split. intros c r [=].
  - destruct (isspace c) eqn:E.
    + destruct IH as (pre & H1 & H2 & H3). exists (c :: pre). simpl.
      rewrite E, H2. repeat split; [now rewrite <- H1 | exact H3].
    + exists []. repeat split. intros c' r [= <- _]. exact E.
Qed.

Lemma rstrip_spec (l : list string) :
  exists post,
    l = rstrip l ++ post
    /\ forallb isspace post = true
    /\ (forall c r, rstrip l = r ++ [c] -> isspace c = false).
Proof.
  unfold rstrip.
  destruct (lstrip_spec (rev l)) as (pre & H1 & H2 & H3).
  exists (rev pre). split; [| split].
  - rewrite <- rev_app_distr, <- H1. now rewrite rev_involutive.
  - apply forallb_forall. intros x Hx. apply in_rev in Hx.
    now apply (proj1 (forallb_forall _ _) H2).
  - intros c r E. apply (H3 c (rev r)).
    rewrite <- (rev_involutive (lstrip (rev l))), E, rev_app_distr. reflexivity.
Qed.

(** What trimming is: the characters of a name are whitespace, then the
    characters of the trimmed name, then whitespace, and the trimmed name
    neither starts nor ends with whitespace. *)
Lemma strip_spec (s : string) :
  exists pre kept post,
    chars s = pre ++ kept ++ post
    /\ strip s = join EmptyString kept
    /\ forallb isspace pre = true
    /\ forallb isspace post = true
    /\ (forall c r, kept = c :: r -> isspace c = false)
    /\ (forall c r, kept = r ++ [c] -> isspace c = false).
Proof.
  destruct (lstrip_spec (chars s)) as (pre & H1 & H2 & H3).
  destruct (rstrip_spec (lstrip (chars s))) as (post & K1 & K2 & K3).
  exists pre, (rstrip (lstrip (chars s))), post.
  split; [now rewrite <- K1 |]. split; [reflexivity |].
  split; [exact H2 |]. split; [exact K2 |]. split; [| exact K3].
  intros c r E. apply (H3 c (r ++ post)). now rewrite K1, E.
Qed.

(** For a catalog of no column or of two columns and more, the resolver
    returns, in catalog order, the trimmed name of every column whose
    trimmed name is not excluded, in double quotes exactly when it holds
    whitespace.  No excluded column is kept and no other column is lost;
    with nothing excluded there is one entry per column.  Whitespace is
    what [str.strip] and the pattern [\s] take for it, the no-break space
    included. *)
Theorem listed_catalog_resolved (records stagingTableOptionalColumns : list string) :
  length records <> 1 ->
  resolve records stagingTableOptionalColumns
  = List.map (fun c => quoted (strip c))
      (List.filter (fun c => not_in (strip c) stagingTableOptionalColumns) records)
  /\ (forall x, In x (resolve records stagingTableOptionalColumns) ->
        exists c, In c records /\ ~ In (strip c) stagingTableOptionalColumns
                  /\ ((search_space (strip c) = true
                       /\ x = dquote +:+ strip c +:+ dquote)
                      \/ (search_space (strip c) = false /\ x = strip c)))
  /\ (forall c, In c records -> ~ In (strip c) stagingTableOptionalColumns ->
        In (quoted (strip c)) (resolve records stagingTableOptionalColumns))
  /\ length (resolve records stagingTableOptionalColumns) <= length records
  /\ length (resolve records []) = length records.
Proof.
  intros Hlen.
  pose proof (resolve_listed records stagingTableOptionalColumns Hlen) as E.
  split; [exact E |]. split; [| split; [| split]].
  - intros x Hx. rewrite E in Hx.
    apply in_map_iff in Hx as (c & <- & Hc).
    apply filter_In in Hc as [Hc Hn]. apply not_in_spec in Hn.
    exists c. split; [exact Hc |]. split; [exact Hn |].
    unfold quoted. destruct (search_space (strip c)); [left | right]; now split.
  - intros c Hc Hn. rewrite E. apply in_map_iff. exists c. split; [reflexivity |].
    apply filter_In. split; [exact Hc | now apply not_in_spec].
  - rewrite E, length_map. apply filter_length_le.
  - rewrite (resolve_listed records [] Hlen), length_map.
    now rewrite filter_all by reflexivity.
Qed.

Lemma listed_catalog_resolved_witness :
  resolve ["ID "; "Start Date"; "ETL_CYCLE"] ["ETL_CYCLE"]
  = ["ID"; dquote +:+ "Start Date" +:+ dquote]
  /\ resolve ["A" +:+ Examples.nbsp +:+ "B"; Examples.nbsp +:+ "C" +:+ Examples.nbsp;
              "D"; Examples.e_acute] []
     = [dquote +:+ "A" +:+ Examples.nbsp +:+ "B" +:+ dquote; "C"; "D"; Examples.e_acute].
Proof.
  split.
  - destruct (listed_catalog_resolved ["ID "; "Start Date"; "ETL_CYCLE"] ["ETL_CYCLE"])
      as (E & _); [simpl; lia |].
    rewrite E. vm_compute. reflexivity.
  - destruct (listed_catalog_resolved
                ["A" +:+ Examples.nbsp +:+ "B"; Examples.nbsp +:+ "C" +:+ Examples.nbsp;
                 "D"; Examples.e_acute] [])
      as (E & _); [simpl; lia |].
    rewrite E. vm_compute. reflexivity.
Defined.

Lemma filter_ext_in_bool {A : Type} (p q : A -> bool) (l : list A) :
  (forall x, In x l -> p x = q x) -> List.filter p l = List.filter q l.
Proof.
  induction l as [| a l IH]; intros H; simpl; [reflexivity |].
  rewrite (H a) by now left. rewrite IH; [reflexivity |].
  intros x Hx. apply H. now right.
Qed.

(** A name that is the trimmed name of no catalog column changes nothing
    and raises nothing when it is named as optional, provided the catalog
    does not consist of a single column or the name has two characters or
    more.  (Of a single column the resolver visits the characters, so a
    name of one character can remove an entry: lemma
    [one_character_optional_name_is_not_ignored].) *)
Theorem unknown_optional_column_is_ignored (records : list string)
    (stagingTableOptionalColumns : list string) (unknown : string) :
  (forall c, In c records -> strip c <> unknown) ->
  length records <> 1 \/ 2 <= len unknown ->
  resolve records (unknown :: stagingTableOptionalColumns)
  = resolve records stagingTableOptionalColumns.
Proof.
  intros Hno Hcase.
  assert (Hvisit : forall c, In c (iterate (squeeze_tolist records)) -> strip c <> unknown).
  { destruct records as [| name [| r' rs]]; [exact Hno | | exact Hno].
    destruct Hcase as [Hlen | Hlen]; [simpl in Hlen; lia |].
    simpl. intros c Hc E.
    pose proof (strip_single_short c (chars_single name c Hc)) as Hs.
    rewrite E in Hs. lia. }
  rewrite !resolve_spec. f_equal.
  apply filter_ext_in_bool. intros c Hc. unfold not_in. simpl.
  destruct (String.eqb_spec (strip c) unknown) as [He | Hne]; [| reflexivity].
  now destruct (Hvisit c Hc).
Qed.

Lemma unknown_optional_column_is_ignored_witness :
  resolve ["A"; "B"] ["PROCESS_NAME"; "B"] = resolve ["A"; "B"] ["B"]
  /\ resolve ["ID"] ["PROCESS_NAME"] = resolve ["ID"] [].
Proof.
  split.
  - apply (unknown_optional_column_is_ignored ["A"; "B"] ["B"] "PROCESS_NAME").
    + intros c [<- | [<- | []]]; vm_compute; discriminate.
    + left. simpl. lia.
  - apply (unknown_optional_column_is_ignored ["ID"] [] "PROCESS_NAME").
    + intros c [<- | []]; vm_compute; discriminate.
    + right. vm_compute. lia.
Defined.

(** The proviso is needed: the catalog of the single column [ID] does not
    list [I], yet naming [I] as optional removes an entry. *)
Lemma one_character_optional_name_is_not_ignored :
  (forall c, In c ["ID"] -> strip c <> "I")
  /\ resolve ["ID"] [] = ["I"; "D"]
  /\ resolve ["ID"] ["I"] = ["D"].
Proof.
  split; [intros c [<- | []]; vm_compute; discriminate |].
  split; vm_compute; reflexivity.
Qed.

(** ** The helpers (lines 48-206) *)

Import Reading.

(** Once a helper holds its session and its cursor, every way out of it
    closes both: whether the statement runs, the driver rejects it, the
    fetch or the commit fails, or the column list is missing.  The truncate,
    the count and the resolver then also keep the error to themselves and
    return normally; only the load lets an error through. *)
Theorem helpers_release_after_acquisition (env : Env) (s : state)
    (staging_tablename : string) (stagingTableOptionalColumns : list string)
    (staging_table_columns : option (list string)) (dataDF_columns : list string)
    (rows : list (list pyvalue)) (dateColumnConversion : list dateColConversionDict) :
  db_connect env (trace s) = None ->
  db_cursor env (trace s ++ [EvConnect (Some (length (trace s)))]) = None ->
  (fst (delete_existing_data_before_load staging_tablename env s) = Ok tt
   /\ releases s (delete_existing_data_before_load staging_tablename env s))
  /\ (fst (validate_by_count_query staging_tablename env s) = Ok tt
      /\ releases s (validate_by_count_query staging_tablename env s))
  /\ ((exists r, fst (retrieve_staging_table_column_names staging_tablename
                        stagingTableOptionalColumns env s) = Ok r)
      /\ releases s (retrieve_staging_table_column_names staging_tablename
                       stagingTableOptionalColumns env s))
  /\ releases s (load_csv_data_into_table staging_tablename staging_table_columns
                   dataDF_columns rows dateColumnConversion env s).
Proof.
  intros Hc Hk.
  destruct (delete_releases env s staging_tablename Hc Hk) as (m1 & E1 & Q1).
  destruct (count_releases env s staging_tablename Hc Hk) as (m2 & E2 & Q2).
  destruct (retrieve_releases env s staging_tablename stagingTableOptionalColumns Hc Hk)
    as (r3 & m3 & E3 & Q3).
  destruct (load_releases env s staging_tablename staging_table_columns dataDF_columns
              rows dateColumnConversion Hc Hk) as (r4 & m4 & E4 & Q4).
  rewrite E1, E2, E3, E4. simpl.
  repeat split; eauto;
    match goal with
    | |- releases _ (_, extend _ (bracket _ _ ?m)) =>
        exists m; simpl; split; [reflexivity |]; split; [assumption |];
        now apply bracket_no_leak
    end.
Qed.

Lemma helpers_release_after_acquisition_witness :
  fst (run (delete_existing_data_before_load "S.T") Examples.catalog_fails) = Ok tt
  /\ releases {| trace := []; locals := unbound |}
       (retrieve_staging_table_column_names "S.T" [] Examples.catalog_fails
          {| trace := []; locals := unbound |}).
Proof.
  destruct (helpers_release_after_acquisition Examples.catalog_fails
              {| trace := []; locals := unbound |} "S.T" [] None [] [] []
              eq_refl eq_refl) as ((H1 & _) & _ & (_ & H3) & _).
  split; [| exact H3].
  unfold run.
  destruct (delete_existing_data_before_load "S.T" Examples.catalog_fails
              {| trace := []; locals := unbound |}) as [r st].
  exact H1.
Defined.

(** ** Every outcome of a helper *)

Ltac unfold_helper :=
  unfold delete_existing_data_before_load, validate_by_count_query,
    retrieve_staging_table_column_names, load_csv_data_into_table,
    call, try_finally, try_except, acquire, connect_to_oracledb, try_except,
    oracledb_connect, set_connection, connection_cursor, set_cursor, cursor_execute,
    cursor_fetchone, cursor_fetchall, cursor_executemany, connection_commit, item0, item,
    print_error, release, get_cursor, get_connection;
  run_monad.

Ltac case_answer :=
  match goal with
  | |- context [db_connect ?env ?t] => destruct (db_connect env t); simpl
  | |- context [db_cursor ?env ?t] => destruct (db_cursor env t); simpl
  | |- context [db_execute ?env ?t ?q] => destruct (db_execute env t q); simpl
  | |- context [db_fetchone ?env ?t] => destruct (db_fetchone env t) as [[[| ? ?] |] | ?]; simpl
  | |- context [db_fetchall ?env ?t] => destruct (db_fetchall env t); simpl
  | |- context [db_executemany ?env ?t ?q ?r] => destruct (db_executemany env t q r); simpl
  | |- context [db_commit ?env ?t] => destruct (db_commit env t); simpl
  end.

Ltac same_state :=
  unfold extend; simpl; rewrite <- ?app_assoc; simpl; reflexivity.

Ltac no_leak :=
  unfold leaked_connections, leaked_cursors, opened_connections, closed_connections,
    opened_cursors, closed_cursors, minus; simpl; rewrite ?Nat.eqb_refl; reflexivity.

Ltac pick_in := simpl; repeat first [left; reflexivity | right].

Lemma delete_outcomes (env : Env) (s : state) (staging_tablename : string) :
  exists r evs,
    delete_existing_data_before_load staging_tablename env s = (r, extend s evs)
    /\ no_insert evs /\ opens_once evs
    /\ (r = Ok tt ->
        (exists k0 ok0,
           In (EvExecute k0 ("TRUNCATE TABLE " +:+ staging_tablename) ok0) evs)
        /\ all_closed evs).
Proof.
  unfold_helper. repeat case_answer.
  all: eexists _, _; split; [same_state |]; split; [reflexivity |];
    (split; [split; simpl; lia |]).
  all: try (intros [=]; fail).
  all: intros _; split; [eexists _, _; pick_in | split; no_leak].
Qed.

Lemma count_outcomes (env : Env) (s : state) (staging_tablename : string) :
  exists r evs,
    validate_by_count_query staging_tablename env s = (r, extend s evs)
    /\ no_insert evs /\ opens_once evs
    /\ (r = Ok tt -> all_closed evs).
Proof.
  unfold_helper. repeat case_answer.
  all: eexists _, _; split; [same_state |]; split; [reflexivity |];
    (split; [split; simpl; lia |]).
  all: try (intros [=]; fail).
  all: intros _; split; no_leak.
Qed.

Lemma retrieve_outcomes (env : Env) (s : state) (staging_tablename : string)
    (stagingTableOptionalColumns : list string) :
  exists r evs,
    retrieve_staging_table_column_names staging_tablename stagingTableOptionalColumns env s
    = (r, extend s evs)
    /\ no_insert evs /\ opens_once evs
    /\ (forall x, r = Ok x -> all_closed evs).
Proof.
  unfold_helper.
  destruct (split_dot staging_tablename) as [| owner [| table_name rest]]; simpl;
    repeat case_answer.
  all: eexists _, _; split; [same_state |]; split; [reflexivity |];
    (split; [split; simpl; lia |]).
  all: try (intros x [=]; fail).
  all: intros x _; split; no_leak.
Qed.

Lemma load_outcomes (env : Env) (s : state) (staging_tablename : string)
    (staging_table_columns : option (list string)) (dataDF_columns : list string)
    (rows : list (list pyvalue)) (dateColumnConversion : list dateColConversionDict) :
  exists r evs,
    load_csv_data_into_table staging_tablename staging_table_columns dataDF_columns rows
      dateColumnConversion env s = (r, extend s evs)
    /\ (forall e, In e evs -> is_executemany e = true ->
          exists k ok sql,
            e = EvExecutemany k sql rows ok
            /\ data_insertion_query staging_tablename staging_table_columns dataDF_columns
                 dateColumnConversion = Ok sql)
    /\ opens_once evs
    /\ (r = Ok tt -> all_closed evs).
Proof.
  remember (data_insertion_query staging_tablename staging_table_columns dataDF_columns
              dateColumnConversion) as q eqn:Hq.
  unfold load_csv_data_into_table. rewrite <- Hq. clear Hq.
  unfold_helper. destruct q as [sql | e0]; simpl; repeat case_answer.
  all: eexists _, _; split; [same_state |]; split; [| split; [split; simpl; lia |]].
  all: try (intros [=]; fail).
  all: try (intros _; split; no_leak).
  all: intros ev He Hmany; simpl in He;
    repeat (destruct He as [<- | He]; [try discriminate Hmany |]); try destruct He.
  all: eexists _, _, _; split; reflexivity.
Qed.

Lemma no_insert_app (a b : list event) :
  no_insert a -> no_insert b -> no_insert (a ++ b).
Proof. unfold no_insert. intros Ha Hb. now rewrite forallb_app, Ha, Hb. Qed.

Lemma no_insert_in (evs : list event) (e : event) :
  no_insert evs -> In e evs -> is_executemany e = false.
Proof.
  unfold no_insert. intros H He.
  rewrite forallb_forall in H. specialize (H e He).
  now apply negb_true_iff in H.
Qed.

Lemma app_split_cases {A : Type} (a b pre post : list A) (x : A) :
  a ++ b = pre ++ x :: post ->
  (exists post', a = pre ++ x :: post' /\ post = post' ++ b)
  \/ (exists pre', pre = a ++ pre' /\ b = pre' ++ x :: post).
Proof.
  revert pre.
  induction a as [| y a IH]; intros pre E; simpl in E.
  - right. now exists pre.
  - destruct pre as [| z pre]; simpl in E.
    + injection E as -> <-. left. now exists a.
    + injection E as -> E. destruct (IH pre E) as [(post' & -> & ->) | (pre' & -> & ->)].
      * left. now exists post'.
      * right. now exists pre'.
Qed.

Lemma minus_nil (l r : list nat) :
  minus l r = [] <-> forall x, In x l -> In x r.
Proof.
  unfold minus. split.
  - intros H x Hx.
    destruct (existsb (Nat.eqb x) r) eqn:E.
    + apply existsb_exists in E as (y & Hy & Hxy). apply Nat.eqb_eq in Hxy. now subst.
    + assert (Hin : In x (List.filter (fun x => negb (existsb (Nat.eqb x) r)) l)).
      { apply filter_In. split; [exact Hx | now rewrite E]. }
      rewrite H in Hin. destruct Hin.
  - intros H. induction l as [| a l IH]; simpl; [reflexivity |].
    assert (Ha : existsb (Nat.eqb a) r = true).
    { apply existsb_exists. exists a. split; [apply H; now left | apply Nat.eqb_refl]. }
    rewrite Ha. simpl. apply IH. intros x Hx. apply H. now right.
Qed.

Lemma all_closed_nil : all_closed [].
Proof. split; reflexivity. Qed.

Lemma all_closed_app (a b : list event) :
  all_closed a -> all_closed b -> all_closed (a ++ b).
Proof.
  unfold all_closed, leaked_connections, leaked_cursors, opened_connections,
    closed_connections, opened_cursors, closed_cursors.
  rewrite !minus_nil, !flat_map_app.
  intros [Ha1 Ha2] [Hb1 Hb2]. split; intros x Hx; apply in_app_iff;
    apply in_app_iff in Hx as [Hx | Hx]; auto.
Qed.

Lemma all_closed_cons_other (e : event) (evs : list event) :
  opens e = false -> all_closed evs -> all_closed (e :: evs).
Proof.
  intros He H. change (e :: evs) with ([e] ++ evs). apply all_closed_app; [| exact H].
  destruct e as [[c |] | c [k |] | | | | | | | | |]; try discriminate He;
    split; reflexivity.
Qed.

Lemma filter_length_mono {A : Type} (f g : A -> bool) (l : list A) :
  (forall x, f x = true -> g x = true) ->
  length (List.filter f l) <= length (List.filter g l).
Proof.
  intros H. induction l as [| a l IH]; simpl; [lia |].
  destruct (f a) eqn:Ef.
  - rewrite (H a Ef). simpl. lia.
  - destruct (g a); simpl; lia.
Qed.

Lemma minus_after_closed (oa op ca cp : list nat) :
  minus oa ca = [] ->
  length (minus (oa ++ op) (ca ++ cp)) <= length (minus op cp).
Proof.
  intros Ha. unfold minus. rewrite List.filter_app, length_app.
  assert (E : List.filter (fun x => negb (existsb (Nat.eqb x) (ca ++ cp))) oa = []).
  { apply (proj2 (minus_nil oa (ca ++ cp))). intros x Hx.
    apply in_app_iff. left. now apply (proj1 (minus_nil oa ca) Ha). }
  rewrite E. simpl. apply filter_length_mono.
  intros x Hx. rewrite existsb_app in Hx.
  apply negb_true_iff in Hx. apply orb_false_iff in Hx as [_ Hx]. now rewrite Hx.
Qed.

Lemma leaked_after_closed (a p : list event) :
  all_closed a ->
  length (leaked_connections (a ++ p)) <= length (leaked_connections p)
  /\ length (leaked_cursors (a ++ p)) <= length (leaked_cursors p).
Proof.
  unfold all_closed, leaked_connections, leaked_cursors, opened_connections,
    closed_connections, opened_cursors, closed_cursors.
  intros [H1 H2]. rewrite !flat_map_app.
  split; now apply minus_after_closed.
Qed.

Lemma prefix_split_cases {A : Type} (a b p q : list A) :
  a ++ b = p ++ q ->
  (exists q', a = p ++ q') \/ (exists p', p = a ++ p' /\ b = p' ++ q).
Proof.
  revert p. induction a as [| y a IH]; intros p E; simpl in E.
  - right. now exists p.
  - destruct p as [| z p]; simpl in E.
    + left. now exists (y :: a).
    + injection E as -> E. destruct (IH p E) as [(q' & ->) | (p' & -> & ->)].
      * left. now exists q'.
      * right. now exists p'.
Qed.

Lemma opens_once_one_at_a_time (evs : list event) :
  opens_once evs -> one_at_a_time evs.
Proof.
  unfold opens_once, one_at_a_time, leaked_connections, leaked_cursors,
    opened_connections, opened_cursors, minus.
  intros [H1 H2] p q ->. rewrite !flat_map_app, !length_app in *.
  split.
  - etransitivity; [apply filter_length_le |]. lia.
  - etransitivity; [apply filter_length_le |]. lia.
Qed.

Lemma one_at_a_time_app (a b : list event) :
  all_closed a -> one_at_a_time a -> one_at_a_time b -> one_at_a_time (a ++ b).
Proof.
  intros Hc Ha Hb p q E.
  destruct (prefix_split_cases _ _ _ _ E) as [(q' & Ea) | (p' & -> & Eb)].
  - exact (Ha p q' Ea).
  - destruct (Hb p' q Eb) as [H1 H2].
    destruct (leaked_after_closed a p' Hc) as [L1 L2]. split; lia.
Qed.

Lemma insert_after_prefix (staging_tablename : string) (rows : list (list pyvalue))
    (a b : list event) :
  no_insert a ->
  (exists k0 ok0, In (EvExecute k0 ("TRUNCATE TABLE " +:+ staging_tablename) ok0) a) ->
  (forall e, In e b -> is_executemany e = true ->
     exists k ok sql,
       e = EvExecutemany k sql rows ok
       /\ exists cols values,
            sql = "INSERT INTO " +:+ staging_tablename +:+ "(" +:+ join ", " cols +:+
                  ") VALUES(" +:+ join ", " values +:+ ")") ->
  inserted_after_truncate staging_tablename rows (a ++ b).
Proof.
  intros Ha (k0 & ok0 & Ht) Hb pre k sql rows0 ok post E.
  destruct (app_split_cases _ _ _ _ _ E) as [(post' & Ea & _) | (pre' & -> & Eb)].
  - assert (Hin : In (EvExecutemany k sql rows0 ok) a).
    { rewrite Ea. apply in_app_iff. right. now left. }
    pose proof (no_insert_in a _ Ha Hin) as Hf. discriminate Hf.
  - split; [exists k0, ok0; apply in_app_iff; now left |].
    assert (Hin : In (EvExecutemany k sql rows0 ok) b).
    { rewrite Eb. apply in_app_iff. right. now left. }
    destruct (Hb _ Hin eq_refl) as (k' & ok' & sql' & [= -> -> -> ->] & Hshape).
    split; [reflexivity | exact Hshape].
Qed.

Lemma no_insert_prepared (staging_tablename : string) (rows : list (list pyvalue))
    (evs : list event) :
  no_insert evs -> inserted_after_truncate staging_tablename rows evs.
Proof.
  intros Hn pre k sql rows0 ok post E.
  assert (Hin : In (EvExecutemany k sql rows0 ok) evs).
  { rewrite E. apply in_app_iff. right. now left. }
  pose proof (no_insert_in evs _ Hn Hin) as Hf. discriminate Hf.
Qed.

Lemma query_shape (staging_tablename : string) (staging_table_columns : option (list string))
    (dataDF_columns : list string) (dateColumnConversion : list dateColConversionDict)
    (sql : string) :
  data_insertion_query staging_tablename staging_table_columns dataDF_columns
    dateColumnConversion = Ok sql ->
  exists cols values,
    sql = "INSERT INTO " +:+ staging_tablename +:+ "(" +:+ join ", " cols +:+
          ") VALUES(" +:+ join ", " values +:+ ")".
Proof.
  unfold data_insertion_query. destruct staging_table_columns as [cols |]; [| discriminate].
  intros [= <-]. now eexists _, _.
Qed.

(** Every outcome of the five steps run for one object. *)
Lemma pipeline_outcomes (env : Env) (s : state) (staging_tablename : string)
    (stagingTableOptionalColumns : list string)
    (dateColumnConversion : list dateColConversionDict)
    (dataDF_columns : list string) (rows : list (list pyvalue)) :
  exists r evs,
    pipeline staging_tablename stagingTableOptionalColumns dateColumnConversion
             dataDF_columns rows env s = (r, extend s evs)
    /\ inserted_after_truncate staging_tablename rows evs
    /\ one_at_a_time evs
    /\ (r = Ok tt -> all_closed evs).
Proof.
  unfold pipeline.
  destruct (delete_outcomes env s staging_tablename) as (r1 & e1 & E1 & N1 & O1 & H1).
  destruct r1 as [[] | x1].
  2:{ exists (Raise x1), e1. rewrite (bind_raise _ _ _ _ _ _ E1).
      split; [reflexivity |]. split; [now apply no_insert_prepared |].
      split; [now apply opens_once_one_at_a_time | discriminate]. }
  rewrite (bind_ok _ _ _ _ _ _ E1). destruct (H1 eq_refl) as (Ht & C1).
  destruct (count_outcomes env (extend s e1) staging_tablename) as (r2 & e2 & E2 & N2 & O2 & H2).
  rewrite extend_extend in E2.
  destruct r2 as [[] | x2].
  2:{ exists (Raise x2), (e1 ++ e2). rewrite (bind_raise _ _ _ _ _ _ E2).
      split; [reflexivity |].
      split; [apply no_insert_prepared; now apply no_insert_app |].
      split; [| discriminate].
      apply one_at_a_time_app; auto using opens_once_one_at_a_time. }
  rewrite (bind_ok _ _ _ _ _ _ E2).
  destruct (retrieve_outcomes env (extend s (e1 ++ e2)) staging_tablename
              stagingTableOptionalColumns) as (r3 & e3 & E3 & N3 & O3 & H3).
  rewrite extend_extend in E3.
  destruct r3 as [cols | x3].
  2:{ exists (Raise x3), ((e1 ++ e2) ++ e3). rewrite (bind_raise _ _ _ _ _ _ E3).
      split; [reflexivity |].
      split; [apply no_insert_prepared; repeat apply no_insert_app; assumption |].
      split; [| discriminate].
      repeat (apply one_at_a_time_app || apply all_closed_app);
        auto using opens_once_one_at_a_time. }
  rewrite (bind_ok _ _ _ _ _ _ E3).
  destruct (load_outcomes env (extend s ((e1 ++ e2) ++ e3)) staging_tablename cols
              dataDF_columns rows dateColumnConversion) as (r4 & e4 & E4 & N4 & O4 & H4).
  rewrite extend_extend in E4.
  assert (Hpre : no_insert ((e1 ++ e2) ++ e3)) by (repeat apply no_insert_app; assumption).
  assert (Htr : exists k0 ok0,
            In (EvExecute k0 ("TRUNCATE TABLE " +:+ staging_tablename) ok0)
               ((e1 ++ e2) ++ e3)).
  { destruct Ht as (k0 & ok0 & Hin). exists k0, ok0.
    apply in_app_iff. left. apply in_app_iff. now left. }
  destruct r4 as [[] | x4].
  2:{ exists (Raise x4), (((e1 ++ e2) ++ e3) ++ e4). rewrite (bind_raise _ _ _ _ _ _ E4).
      split; [reflexivity |]. split; [| split; [| discriminate]].
      - apply insert_after_prefix; [exact Hpre | exact Htr |].
        intros e He Hm. destruct (N4 e He Hm) as (k & ok & sql & -> & Hq).
        exists k, ok, sql. split; [reflexivity | now apply query_shape in Hq].
      - repeat (apply one_at_a_time_app || apply all_closed_app);
          auto using opens_once_one_at_a_time; now apply (H3 cols). }
  rewrite (bind_ok _ _ _ _ _ _ E4).
  destruct (count_outcomes env (extend s (((e1 ++ e2) ++ e3) ++ e4)) staging_tablename)
    as (r5 & e5 & E5 & N5 & O5 & H5).
  rewrite extend_extend in E5.
  exists r5, ((((e1 ++ e2) ++ e3) ++ e4) ++ e5). rewrite E5.
  split; [reflexivity |]. split; [| split].
  - rewrite <- app_assoc. apply insert_after_prefix; [exact Hpre | exact Htr |].
    intros e He Hm. apply in_app_iff in He as [He | He].
    + destruct (N4 e He Hm) as (k & ok & sql & -> & Hq).
      exists k, ok, sql. split; [reflexivity | now apply query_shape in Hq].
    + rewrite (no_insert_in e5 e N5 He) in Hm. discriminate.
  - repeat (apply one_at_a_time_app || apply all_closed_app);
      auto using opens_once_one_at_a_time; now apply (H3 cols).
  - intros Hr5. repeat apply all_closed_app; auto. now apply (H3 cols).
Qed.

(** ** Every outcome of the entry point (lines 216-281) *)

Lemma extend_nil (s : state) : extend s [] = s.
Proof. destruct s as [t l]. unfold extend. simpl. now rewrite app_nil_r. Qed.

Lemma prepared_nil (staging_tablename key : string) : prepared staging_tablename key [].
Proof. intros pre k sql rows ok post E. now destruct pre. Qed.

Lemma one_at_a_time_nil : one_at_a_time [].
Proof.
  intros p q E. symmetry in E. apply app_eq_nil in E as [-> _]. split; simpl; lia.
Qed.

Lemma prepared_app (staging_tablename key : string) (a b : list event) :
  prepared staging_tablename key a -> prepared staging_tablename key b ->
  prepared staging_tablename key (a ++ b).
Proof.
  intros Ha Hb pre k sql rows ok post E.
  destruct (app_split_cases _ _ _ _ _ E) as [(post' & Ea & _) | (pre' & -> & Eb)].
  - exact (Ha _ _ _ _ _ _ Ea).
  - destruct (Hb _ _ _ _ _ _ Eb) as (Hget & (k0 & ok0 & Htr) & Hnan & Hsql).
    split; [apply in_app_iff; now right |].
    split; [exists k0, ok0; apply in_app_iff; now right |].
    now split.
Qed.

Lemma modified_rows_nan_free (rows : list (list pyvalue)) :
  nan_free (modified_dataInsertionTuples rows).
Proof.
  intros row v Hrow Hv ->.
  rewrite modified_dataInsertionTuples_spec in Hrow.
  apply in_map_iff in Hrow as (row0 & <- & _).
  apply in_map_iff in Hv as (v0 & Hv0 & _).
  pose proof (nan_to_none_not_nan v0 S754_nan Hv0). discriminate.
Qed.

Lemma loop_body_outcomes (env : Env) (s : state)
    (source_filepath staging_tablename : string)
    (stagingTableOptionalColumns : list string)
    (dateColumnConversion : list dateColConversionDict) (obj_name : string) :
  exists r evs,
    loop_body source_filepath staging_tablename stagingTableOptionalColumns
      dateColumnConversion obj_name env s = (r, extend s evs)
    /\ prepared staging_tablename source_filepath evs
    /\ one_at_a_time evs
    /\ (r = Ok tt -> all_closed evs).
Proof.
  unfold loop_body. destruct (selected obj_name source_filepath) eqn:Hsel.
  2:{ exists (Ok tt), []. rewrite extend_nil.
      split; [reflexivity |]. split; [apply prepared_nil |].
      split; [apply one_at_a_time_nil | intros _; apply all_closed_nil]. }
  assert (Hname : obj_name = source_filepath).
  { unfold selected in Hsel. apply andb_true_iff in Hsel as [_ Heq].
    now apply String.eqb_eq. }
  assert (Hread : exists r0, read_object obj_name env s = (r0, extend s [EvGetObject obj_name])).
  { unfold read_object. run_monad.
    destruct (endswith obj_name ".csv"); run_monad; now eexists. }
  destruct Hread as ([[dataDF_columns dataInsertionTuples] | x0] & Hread).
  2:{ exists (Raise x0), [EvGetObject obj_name]. rewrite (bind_raise _ _ _ _ _ _ Hread).
      split; [reflexivity |]. split; [| split; [| discriminate]].
      - intros pre k sql rows ok post E.
        destruct pre as [| e [| e' pre]]; simpl in E; discriminate.
      - apply opens_once_one_at_a_time. split; simpl; lia. }
  rewrite (bind_ok _ _ _ _ _ _ Hread).
  destruct (pipeline_outcomes env (extend s [EvGetObject obj_name]) staging_tablename
              stagingTableOptionalColumns dateColumnConversion dataDF_columns
              (modified_dataInsertionTuples dataInsertionTuples))
    as (r & evs & E & Hprep & Hone & Hclosed).
  rewrite extend_extend in E.
  exists r, ([EvGetObject obj_name] ++ evs). split; [exact E |]. split; [| split].
  - intros pre k sql rows ok post Esplit.
    destruct pre as [| e pre]; simpl in Esplit; [discriminate |].
    injection Esplit as <- Esplit.
    destruct (Hprep _ _ _ _ _ _ Esplit) as ((k0 & ok0 & Htr) & -> & Hsql).
    split; [left; now rewrite Hname |].
    split; [exists k0, ok0; now right |].
    split; [apply modified_rows_nan_free | exact Hsql].
  - apply one_at_a_time_app; [split; reflexivity | | exact Hone].
    apply opens_once_one_at_a_time. split; simpl; lia.
  - intros Hr. apply all_closed_cons_other; [reflexivity | now apply Hclosed].
Qed.

Lemma for_each_outcomes (env : Env) (source_filepath staging_tablename : string)
    (stagingTableOptionalColumns : list string)
    (dateColumnConversion : list dateColConversionDict) (objs : list string) (s : state) :
  exists r evs,
    for_each objs (loop_body source_filepath staging_tablename stagingTableOptionalColumns
                             dateColumnConversion) env s = (r, extend s evs)
    /\ prepared staging_tablename source_filepath evs
    /\ one_at_a_time evs
    /\ (r = Ok tt -> all_closed evs).
Proof.
  revert s. induction objs as [| obj objs IH]; intros s.
  - exists (Ok tt), []. rewrite extend_nil.
    split; [reflexivity |]. split; [apply prepared_nil |].
    split; [apply one_at_a_time_nil | intros _; apply all_closed_nil].
  - simpl.
    destruct (loop_body_outcomes env s source_filepath staging_tablename
                stagingTableOptionalColumns dateColumnConversion obj)
      as (r1 & e1 & E1 & P1 & S1 & C1).
    destruct r1 as [[] | x1].
    2:{ exists (Raise x1), e1. rewrite (bind_raise _ _ _ _ _ _ E1).
        split; [reflexivity |]. split; [exact P1 |]. split; [exact S1 | discriminate]. }
    rewrite (bind_ok _ _ _ _ _ _ E1).
    destruct (IH (extend s e1)) as (r2 & e2 & E2 & P2 & S2 & C2).
    rewrite extend_extend in E2.
    exists r2, (e1 ++ e2). split; [exact E2 |].
    split; [now apply prepared_app |].
    split; [apply one_at_a_time_app; auto |].
    intros Hr. apply all_closed_app; auto.
Qed.

Lemma run_outcomes (env : Env) (source_filepath staging_tablename : string)
    (stagingTableOptionalColumns : list string)
    (dateColumnConversion : list dateColConversionDict) :
  exists r evs,
    run (read_from_s3_and_write_to_oracle source_filepath staging_tablename
           stagingTableOptionalColumns dateColumnConversion) env = (r, evs)
    /\ prepared staging_tablename source_filepath evs
    /\ one_at_a_time evs
    /\ (r = Ok tt -> all_closed evs).
Proof.
  unfold run, read_from_s3_and_write_to_oracle. run_monad.
  destruct (s3_contents env) as [objs |].
  - destruct (for_each_outcomes env source_filepath staging_tablename
                stagingTableOptionalColumns dateColumnConversion objs
                {| trace := []; locals := unbound |}) as (r & evs & E & P & S & C).
    rewrite E. simpl. now exists r, evs.
  - exists (Raise TypeError), []. simpl.
    split; [reflexivity |]. split; [apply prepared_nil |].
    split; [apply one_at_a_time_nil | discriminate].
Qed.

(** On every run, whatever the database and the object store answer, a
    bulk insert is submitted only after the selected object was fetched and
    a [TRUNCATE] of the destination table was submitted, it carries rows
    from which every float NaN has been replaced, and its statement is an
    [INSERT] into the destination table. *)
Theorem bulk_insert_is_prepared (env : Env) (source_filepath staging_tablename : string)
    (stagingTableOptionalColumns : list string)
    (dateColumnConversion : list dateColConversionDict) :
  forall pre k sql rows ok post,
    snd (run (read_from_s3_and_write_to_oracle source_filepath staging_tablename
                stagingTableOptionalColumns dateColumnConversion) env)
    = pre ++ EvExecutemany k sql rows ok :: post ->
    In (EvGetObject source_filepath) pre
    /\ (exists k0 ok0,
          In (EvExecute k0 ("TRUNCATE TABLE " +:+ staging_tablename) ok0) pre)
    /\ (forall row v, In row rows -> In v row -> v <> PyFloat S754_nan)
    /\ exists cols values,
         sql = "INSERT INTO " +:+ staging_tablename +:+ "(" +:+ join ", " cols +:+
               ") VALUES(" +:+ join ", " values +:+ ")".
Proof.
  destruct (run_outcomes env source_filepath staging_tablename stagingTableOptionalColumns
              dateColumnConversion) as (r & evs & E & P & _ & _).
  rewrite E. simpl. exact P.
Qed.

(** A run that returns normally has closed every session and every cursor
    it opened. *)
Theorem normal_return_closes_everything (env : Env)
    (source_filepath staging_tablename : string)
    (stagingTableOptionalColumns : list string)
    (dateColumnConversion : list dateColConversionDict) (evs : list event) :
  run (read_from_s3_and_write_to_oracle source_filepath staging_tablename
         stagingTableOptionalColumns dateColumnConversion) env = (Ok tt, evs) ->
  leaked_connections evs = [] /\ leaked_cursors evs = [].
Proof.
  intros Hrun.
  destruct (run_outcomes env source_filepath staging_tablename stagingTableOptionalColumns
              dateColumnConversion) as (r & evs' & E & _ & _ & C).
  rewrite E in Hrun. injection Hrun as -> ->. now apply C.
Qed.

(** At no moment of any run are two sessions, or two cursors, open
    together: each step closes what it opened before the next one opens
    its own, and a step that fails to close ends the run. *)
Theorem sessions_never_overlap (env : Env) (source_filepath staging_tablename : string)
    (stagingTableOptionalColumns : list string)
    (dateColumnConversion : list dateColConversionDict) :
  forall p q,
    snd (run (read_from_s3_and_write_to_oracle source_filepath staging_tablename
                stagingTableOptionalColumns dateColumnConversion) env) = p ++ q ->
    length (leaked_connections p) <= 1 /\ length (leaked_cursors p) <= 1.
Proof.
  destruct (run_outcomes env source_filepath staging_tablename stagingTableOptionalColumns
              dateColumnConversion) as (r & evs & E & _ & S & _).
  rewrite E. simpl. exact S.
Qed.

Lemma bulk_insert_is_prepared_witness :
  exists pre post,
    snd (run (read_from_s3_and_write_to_oracle Examples.key "S.T" [] [])
             (Examples.database ["A"; "B"] Examples.key))
    = pre ++ EvExecutemany 20 "INSERT INTO S.T(A, B) VALUES(:1, :2)"
               [[PyInt 1; PyNone]] true :: post
    /\ In (EvGetObject Examples.key) pre
    /\ exists k0 ok0, In (EvExecute k0 "TRUNCATE TABLE S.T" ok0) pre.
Proof.
  exists [EvGetObject Examples.key;
          EvConnect (Some 1); EvCursor 1 (Some 2);
          EvExecute 2 "TRUNCATE TABLE S.T" true;
          EvCloseCursor 2; EvCloseConnection 1;
          EvConnect (Some 6); EvCursor 6 (Some 7);
          EvExecute 7 "SELECT COUNT(*) AS ct_recs FROM S.T" true; EvFetchone 7;
          EvCloseCursor 7; EvCloseConnection 6;
          EvConnect (Some 12); EvCursor 12 (Some 13);
          EvExecute 13 (queryToFetchTableColumnNames "S" "T") true;
          EvFetchall 13; EvCommit 12 true;
          EvCloseCursor 13; EvCloseConnection 12;
          EvConnect (Some 19); EvCursor 19 (Some 20)],
         [EvCommit 19 true; EvCloseCursor 20; EvCloseConnection 19;
          EvConnect (Some 25); EvCursor 25 (Some 26);
          EvExecute 26 "SELECT COUNT(*) AS ct_recs FROM S.T" true; EvFetchone 26;
          EvCloseCursor 26; EvCloseConnection 25].
  assert (E : snd (run (read_from_s3_and_write_to_oracle Examples.key "S.T" [] [])
                       (Examples.database ["A"; "B"] Examples.key))
              = [EvGetObject Examples.key;
                 EvConnect (Some 1); EvCursor 1 (Some 2);
                 EvExecute 2 "TRUNCATE TABLE S.T" true;
                 EvCloseCursor 2; EvCloseConnection 1;
                 EvConnect (Some 6); EvCursor 6 (Some 7);
                 EvExecute 7 "SELECT COUNT(*) AS ct_recs FROM S.T" true; EvFetchone 7;
                 EvCloseCursor 7; EvCloseConnection 6;
                 EvConnect (Some 12); EvCursor 12 (Some 13);
                 EvExecute 13 (queryToFetchTableColumnNames "S" "T") true;
                 EvFetchall 13; EvCommit 12 true;
                 EvCloseCursor 13; EvCloseConnection 12;
                 EvConnect (Some 19); EvCursor 19 (Some 20)]
                ++ EvExecutemany 20 "INSERT INTO S.T(A, B) VALUES(:1, :2)"
                     [[PyInt 1; PyNone]] true
                   :: [EvCommit 19 true; EvCloseCursor 20; EvCloseConnection 19;
                       EvConnect (Some 25); EvCursor 25 (Some 26);
                       EvExecute 26 "SELECT COUNT(*) AS ct_recs FROM S.T" true;
                       EvFetchone 26; EvCloseCursor 26; EvCloseConnection 25])
    by (vm_compute; reflexivity).
  split; [exact E |].
  destruct (bulk_insert_is_prepared (Examples.database ["A"; "B"] Examples.key)
              Examples.key "S.T" [] [] _ _ _ _ _ _ E) as (Hget & Htr & _).
  split; [exact Hget | exact Htr].
Defined.

Lemma normal_return_closes_everything_witness :
  run (read_from_s3_and_write_to_oracle Examples.key "S.T" [] [])
      (Examples.database ["A"; "B"] Examples.key)
  = (Ok tt,
     [EvGetObject Examples.key;
      EvConnect (Some 1); EvCursor 1 (Some 2);
      EvExecute 2 "TRUNCATE TABLE S.T" true;
      EvCloseCursor 2; EvCloseConnection 1;
      EvConnect (Some 6); EvCursor 6 (Some 7);
      EvExecute 7 "SELECT COUNT(*) AS ct_recs FROM S.T" true; EvFetchone 7;
      EvCloseCursor 7; EvCloseConnection 6;
      EvConnect (Some 12); EvCursor 12 (Some 13);
      EvExecute 13 (queryToFetchTableColumnNames "S" "T") true;
      EvFetchall 13; EvCommit 12 true;
      EvCloseCursor 13; EvCloseConnection 12;
      EvConnect (Some 19); EvCursor 19 (Some 20);
      EvExecutemany 20 "INSERT INTO S.T(A, B) VALUES(:1, :2)"
        [[PyInt 1; PyNone]] true;
      EvCommit 19 true; EvCloseCursor 20; EvCloseConnection 19;
      EvConnect (Some 25); EvCursor 25 (Some 26);
      EvExecute 26 "SELECT COUNT(*) AS ct_recs FROM S.T" true; EvFetchone 26;
      EvCloseCursor 26; EvCloseConnection 25])
  /\ leaked_connections
       (snd (run (read_from_s3_and_write_to_oracle Examples.key "S.T" [] [])
                 (Examples.database ["A"; "B"] Examples.key))) = [].
Proof.
  assert (E : run (read_from_s3_and_write_to_oracle Examples.key "S.T" [] [])
                  (Examples.database ["A"; "B"] Examples.key)
              = (Ok tt,
                 [EvGetObject Examples.key;
                  EvConnect (Some 1); EvCursor 1 (Some 2);
                  EvExecute 2 "TRUNCATE TABLE S.T" true;
                  EvCloseCursor 2; EvCloseConnection 1;
                  EvConnect (Some 6); EvCursor 6 (Some 7);
                  EvExecute 7 "SELECT COUNT(*) AS ct_recs FROM S.T" true; EvFetchone 7;
                  EvCloseCursor 7; EvCloseConnection 6;
                  EvConnect (Some 12); EvCursor 12 (Some 13);
                  EvExecute 13 (queryToFetchTableColumnNames "S" "T") true;
                  EvFetchall 13; EvCommit 12 true;
                  EvCloseCursor 13; EvCloseConnection 12;
                  EvConnect (Some 19); EvCursor 19 (Some 20);
                  EvExecutemany 20 "INSERT INTO S.T(A, B) VALUES(:1, :2)"
                    [[PyInt 1; PyNone]] true;
                  EvCommit 19 true; EvCloseCursor 20; EvCloseConnection 19;
                  EvConnect (Some 25); EvCursor 25 (Some 26);
                  EvExecute 26 "SELECT COUNT(*) AS ct_recs FROM S.T" true; EvFetchone 26;
                  EvCloseCursor 26; EvCloseConnection 25]))
    by (vm_compute; reflexivity).
  split; [exact E |].
  rewrite E.
  exact (proj1 (normal_return_closes_everything _ _ _ _ _ _ E)).
Defined.

(** ** The selected object (lines 218-257) *)

Lemma selected_self (source_filepath : string) :
  selected source_filepath source_filepath
  = (endswith source_filepath ".csv" || endswith source_filepath ".xlsx").
Proof. unfold selected. now rewrite String.eqb_refl, andb_true_r. Qed.

Lemma selected_other (obj_name source_filepath : string) :
  obj_name <> source_filepath -> selected obj_name source_filepath = false.
Proof.
  intros Hne. unfold selected.
  destruct (String.eqb_spec obj_name source_filepath); [contradiction | apply andb_false_r].
Qed.

Lemma for_each_only {A : Type} (dec : forall x y : A, {x = y} + {x <> y})
    (l : list A) (body : A -> M unit) (x : A) (env : Env) (s : state) :
  List.NoDup l -> In x l ->
  (forall y, y <> x -> body y = mret tt) ->
  for_each l body env s = body x env s.
Proof.
  intros Hnd Hin Hskip.
  induction l as [| y l IH]; [destruct Hin |].
  inversion Hnd as [| y' l' Hnotin Hnd']; subst. simpl.
  destruct (dec y x) as [-> | Hne].
  - unfold mbind, M_bind.
    destruct (body x env s) as [[[] | e] s']; [| reflexivity].
    apply for_each_skips. intros z Hz. apply Hskip. intros ->. contradiction.
  - rewrite (Hskip y Hne). unfold mbind, M_bind, mret, M_ret.
    apply IH; [exact Hnd' |]. destruct Hin as [-> | Hin]; [contradiction | exact Hin].
Qed.

(** When the path is one of the listed keys and ends in [.csv] or [.xlsx],
    the run is the fetch of that one object followed by the five steps on
    its normalised rows: the other objects under the prefix are not
    fetched and have no influence, wherever they stand in the listing. *)
Theorem only_the_selected_object_is_loaded (env : Env) (objs : list string)
    (source_filepath staging_tablename : string)
    (stagingTableOptionalColumns : list string)
    (dateColumnConversion : list dateColConversionDict) :
  s3_contents env = Some objs ->
  List.NoDup objs ->
  In source_filepath objs ->
  endswith source_filepath ".csv" || endswith source_filepath ".xlsx" = true ->
  run (read_from_s3_and_write_to_oracle source_filepath staging_tablename
         stagingTableOptionalColumns dateColumnConversion) env
  = run ('(dataDF_columns, dataInsertionTuples) ← read_object source_filepath;
         pipeline staging_tablename stagingTableOptionalColumns dateColumnConversion
                  dataDF_columns (modified_dataInsertionTuples dataInsertionTuples)) env.
Proof.
  intros Hobjs Hnd Hin Hext.
  unfold run, read_from_s3_and_write_to_oracle.
  unfold mbind at 1, M_bind at 1, ask at 1. rewrite Hobjs.
  rewrite (for_each_only String.string_dec objs _ source_filepath env _ Hnd Hin).
  - unfold loop_body. now rewrite selected_self, Hext.
  - intros y Hy. unfold loop_body. now rewrite (selected_other y source_filepath Hy).
Qed.

Lemma only_the_selected_object_is_loaded_witness :
  run (read_from_s3_and_write_to_oracle "b.csv" "S.T" [] [])
      (Examples.database ["A"; "B"] "b.csv")
  = run ('(dataDF_columns, dataInsertionTuples) ← read_object "b.csv";
         pipeline "S.T" [] [] dataDF_columns
                  (modified_dataInsertionTuples dataInsertionTuples))
        (Examples.database ["A"; "B"] "b.csv").
Proof.
  apply (only_the_selected_object_is_loaded (Examples.database ["A"; "B"] "b.csv")
           ["b.csv"]).
  - reflexivity.
  - constructor; [intros [] | constructor].
  - now left.
  - reflexivity.
Defined.

Lemma for_each_stops {A : Type} (dec : forall x y : A, {x = y} + {x <> y})
    (l : list A) (body : A -> M unit) (x : A) (env : Env) (e : exception)
    (evs : list event) :
  In x l ->
  (forall y, y <> x -> body y = mret tt) ->
  (forall s, body x env s = (Raise e, extend s evs)) ->
  forall s, for_each l body env s = (Raise e, extend s evs).
Proof.
  intros Hin Hskip Hbody.
  induction l as [| y l IH]; [destruct Hin |]. intros s. simpl.
  destruct (dec y x) as [-> | Hne].
  - now rewrite (bind_raise _ _ _ _ _ _ (Hbody s)).
  - rewrite (Hskip y Hne). unfold mbind, M_bind, mret, M_ret.
    apply IH. destruct Hin as [-> | Hin]; [contradiction | exact Hin].
Qed.

(** When the selected object cannot be read or parsed, the error ends the
    run at once: the object was fetched and nothing else happened, so the
    destination table has not been truncated. *)
Theorem unreadable_object_leaves_table_alone (env : Env) (objs : list string)
    (source_filepath staging_tablename : string)
    (stagingTableOptionalColumns : list string)
    (dateColumnConversion : list dateColConversionDict) (e : exception) :
  s3_contents env = Some objs ->
  In source_filepath objs ->
  endswith source_filepath ".csv" || endswith source_filepath ".xlsx" = true ->
  (if endswith source_filepath ".csv"
   then s3_read_csv env source_filepath
   else s3_read_excel env source_filepath) = Raise e ->
  run (read_from_s3_and_write_to_oracle source_filepath staging_tablename
         stagingTableOptionalColumns dateColumnConversion) env
  = (Raise e, [EvGetObject source_filepath]).
Proof.
  intros Hobjs Hin Hext Hread.
  unfold run, read_from_s3_and_write_to_oracle.
  unfold mbind at 1, M_bind at 1, ask at 1. rewrite Hobjs.
  assert (Hbody : forall s,
            loop_body source_filepath staging_tablename stagingTableOptionalColumns
              dateColumnConversion source_filepath env s
            = (Raise e, extend s [EvGetObject source_filepath])).
  { intros s. unfold loop_body. rewrite selected_self, Hext.
    unfold read_object. run_monad.
    destruct (endswith source_filepath ".csv"); run_monad; now rewrite Hread. }
  rewrite (for_each_stops String.string_dec objs _ source_filepath env e
             [EvGetObject source_filepath] Hin); [reflexivity | | exact Hbody].
  intros y Hy. unfold loop_body. now rewrite (selected_other y source_filepath Hy).
Qed.

Lemma unreadable_object_leaves_table_alone_witness :
  run (read_from_s3_and_write_to_oracle "b.csv" "S.T" [] []) Examples.unparsable
  = (Raise TypeError, [EvGetObject "b.csv"]).
Proof.
  apply (unreadable_object_leaves_table_alone Examples.unparsable ["a.csv"; "b.csv"]);
    [reflexivity | right; now left | reflexivity | reflexivity].
Defined.

(** ** The five steps on a server that grants sessions and cursors *)

Lemma pipeline_reaches_resolution (env : Env) (s : state) (staging_tablename : string)
    (stagingTableOptionalColumns : list string)
    (dateColumnConversion : list dateColConversionDict)
    (dataDF_columns : list string) (rows : list (list pyvalue)) :
  (forall t, db_connect env t = None) ->
  (forall t, db_cursor env t = None) ->
  exists before,
    no_insert before
    /\ (exists k0 ok0,
          In (EvExecute k0 ("TRUNCATE TABLE " +:+ staging_tablename) ok0) before)
    /\ pipeline staging_tablename stagingTableOptionalColumns dateColumnConversion
                dataDF_columns rows env s
       = (cols ← retrieve_staging_table_column_names staging_tablename
                   stagingTableOptionalColumns;
          load_csv_data_into_table staging_tablename cols dataDF_columns rows
                                   dateColumnConversion;;
          validate_by_count_query staging_tablename) env (extend s before).
Proof.
  intros Hc Hk.
  destruct (delete_outcomes env s staging_tablename) as (r1 & e1 & E1 & N1 & _ & H1).
  destruct (delete_releases env s staging_tablename (Hc _) (Hk _)) as (m1 & E1' & _).
  rewrite E1 in E1'. injection E1' as -> _.
  destruct (count_outcomes env (extend s e1) staging_tablename) as (r2 & e2 & E2 & N2 & _).
  destruct (count_releases env (extend s e1) staging_tablename (Hc _) (Hk _))
    as (m2 & E2' & _).
  rewrite E2 in E2'. injection E2' as -> _.
  exists (e1 ++ e2). split; [now apply no_insert_app |]. split.
  - destruct (H1 eq_refl) as ((k0 & ok0 & Hin) & _). exists k0, ok0.
    apply in_app_iff. now left.
  - unfold pipeline.
    rewrite (bind_ok _ _ _ _ _ _ E1), (bind_ok _ _ _ _ _ _ E2).
    now rewrite extend_extend.
Qed.

Lemma retrieve_resolves (env : Env) (s : state)
    (staging_tablename owner table_name : string) (rest excluded records : list string) :
  split_dot staging_tablename = owner :: table_name :: rest ->
  db_connect env (trace s) = None ->
  db_cursor env (trace s ++ [EvConnect (Some (length (trace s)))]) = None ->
  (forall t, db_execute env t (queryToFetchTableColumnNames owner table_name) = None) ->
  (forall t, db_fetchall env t = Ok records) ->
  (forall t, db_commit env t = None) ->
  retrieve_staging_table_column_names staging_tablename excluded env s
  = (Ok (Some (resolve records excluded)),
     extend s (bracket (length (trace s)) (S (length (trace s)))
                 [EvExecute (S (length (trace s)))
                    (queryToFetchTableColumnNames owner table_name) true;
                  EvFetchall (S (length (trace s)));
                  EvCommit (length (trace s)) true])).
Proof.
  intros Hsplit Hc Hk Hq Hf Hcm.
  unfold retrieve_staging_table_column_names, call, try_finally, try_except.
  rewrite (bind_ok _ _ _ _ _ _ (acquire_ok env {| trace := trace s; locals := unbound |} Hc Hk)).
  unfold cursor_execute, cursor_fetchall, connection_commit, item, print_error. run_monad.
  rewrite Hsplit. simpl. rewrite Hq. simpl. rewrite Hf. simpl. rewrite Hcm. simpl.
  unfold extend, bracket. simpl. now rewrite <- !app_assoc.
Qed.

Lemma retrieve_unqualified (env : Env) (s : state) (staging_tablename : string)
    (excluded : list string) :
  length (split_dot staging_tablename) < 2 ->
  db_connect env (trace s) = None ->
  db_cursor env (trace s ++ [EvConnect (Some (length (trace s)))]) = None ->
  retrieve_staging_table_column_names staging_tablename excluded env s
  = (Ok None,
     extend s (bracket (length (trace s)) (S (length (trace s)))
                 [EvPrintError "Failed to retrieve the staging table fields - "
                    IndexError])).
Proof.
  intros Hlen Hc Hk.
  unfold retrieve_staging_table_column_names, call, try_finally, try_except.
  rewrite (bind_ok _ _ _ _ _ _ (acquire_ok env {| trace := trace s; locals := unbound |} Hc Hk)).
  unfold cursor_execute, cursor_fetchall, connection_commit, item, print_error. run_monad.
  destruct (split_dot staging_tablename) as [| owner [| table_name rest]] eqn:E;
    simpl in Hlen; [| | lia].
  - destruct staging_tablename as [| a t]; simpl in E; [discriminate |].
    destruct (Ascii.eqb a "."); [discriminate |].
    destruct (split_dot t); discriminate.
  - simpl. unfold extend, bracket. simpl. now rewrite <- !app_assoc.
Qed.

Lemma load_succeeds (env : Env) (s : state) (staging_tablename : string)
    (staging_table_columns : option (list string)) (dataDF_columns : list string)
    (rows : list (list pyvalue)) (dateColumnConversion : list dateColConversionDict)
    (sql : string) :
  data_insertion_query staging_tablename staging_table_columns dataDF_columns
    dateColumnConversion = Ok sql ->
  db_connect env (trace s) = None ->
  db_cursor env (trace s ++ [EvConnect (Some (length (trace s)))]) = None ->
  (forall t, db_executemany env t sql rows = None) ->
  (forall t, db_commit env t = None) ->
  load_csv_data_into_table staging_tablename staging_table_columns dataDF_columns rows
    dateColumnConversion env s
  = (Ok tt,
     extend s (bracket (length (trace s)) (S (length (trace s)))
                 [EvExecutemany (S (length (trace s))) sql rows true;
                  EvCommit (length (trace s)) true])).
Proof.
  intros Hq Hc Hk Hmany Hcm.
  unfold load_csv_data_into_table, call, try_finally.
  rewrite (bind_ok _ _ _ _ _ _ (acquire_ok env {| trace := trace s; locals := unbound |} Hc Hk)).
  rewrite Hq. unfold cursor_executemany, connection_commit. run_monad.
  rewrite Hmany. simpl. rewrite Hcm. simpl.
  unfold extend, bracket. simpl. now rewrite <- !app_assoc.
Qed.

Lemma load_rejected (env : Env) (s : state) (staging_tablename : string)
    (staging_table_columns : option (list string)) (dataDF_columns : list string)
    (rows : list (list pyvalue)) (dateColumnConversion : list dateColConversionDict)
    (sql : string) (e : exception) :
  data_insertion_query staging_tablename staging_table_columns dataDF_columns
    dateColumnConversion = Ok sql ->
  db_connect env (trace s) = None ->
  db_cursor env (trace s ++ [EvConnect (Some (length (trace s)))]) = None ->
  (forall t, db_executemany env t sql rows = Some e) ->
  load_csv_data_into_table staging_tablename staging_table_columns dataDF_columns rows
    dateColumnConversion env s
  = (Raise e,
     extend s (bracket (length (trace s)) (S (length (trace s)))
                 [EvExecutemany (S (length (trace s))) sql rows false])).
Proof.
  intros Hq Hc Hk Hmany.
  unfold load_csv_data_into_table, call, try_finally.
  rewrite (bind_ok _ _ _ _ _ _ (acquire_ok env {| trace := trace s; locals := unbound |} Hc Hk)).
  rewrite Hq. unfold cursor_executemany, connection_commit. run_monad.
  rewrite Hmany. simpl.
  unfold extend, bracket. simpl. now rewrite <- !app_assoc.
Qed.

Lemma count_returns (env : Env) (s : state) (staging_tablename : string) :
  (forall t, db_connect env t = None) ->
  (forall t, db_cursor env t = None) ->
  exists after,
    validate_by_count_query staging_tablename env s = (Ok tt, extend s after)
    /\ no_insert after.
Proof.
  intros Hc Hk.
  destruct (count_outcomes env s staging_tablename) as (r & evs & E & N & _).
  destruct (count_releases env s staging_tablename (Hc _) (Hk _)) as (m & E' & _).
  rewrite E in E'. injection E' as -> _. now exists evs.
Qed.

(** On a server that grants sessions and cursors, answers the catalog
    query and accepts the bulk insert, the five steps end normally whatever
    becomes of the TRUNCATE and of the two counts: a rejected TRUNCATE or a
    failed count is reported and the load goes on.  The statement submitted
    is the one synthesised from the list the resolver returned for the
    catalog's records; it is submitted once, with the rows given, and
    committed, in a session of its own opened after the resolver's was
    closed. *)
Theorem load_goes_through (env : Env) (s : state)
    (staging_tablename owner table_name : string) (rest records : list string)
    (stagingTableOptionalColumns : list string)
    (dateColumnConversion : list dateColConversionDict)
    (dataDF_columns : list string) (rows : list (list pyvalue)) :
  split_dot staging_tablename = owner :: table_name :: rest ->
  (forall t, db_connect env t = None) ->
  (forall t, db_cursor env t = None) ->
  (forall t, db_execute env t (queryToFetchTableColumnNames owner table_name) = None) ->
  (forall t, db_fetchall env t = Ok records) ->
  (forall t, db_commit env t = None) ->
  (forall t sql, db_executemany env t sql rows = None) ->
  exists sql before after,
    data_insertion_query staging_tablename
      (Some (resolve records stagingTableOptionalColumns)) dataDF_columns
      dateColumnConversion = Ok sql
    /\ no_insert before /\ no_insert after
    /\ let c := length (trace s ++ before) in
       pipeline staging_tablename stagingTableOptionalColumns dateColumnConversion
                dataDF_columns rows env s
       = (Ok tt,
          extend s (before
                    ++ bracket c (S c)
                         [EvExecute (S c) (queryToFetchTableColumnNames owner table_name)
                            true;
                          EvFetchall (S c); EvCommit c true]
                    ++ bracket (c + 7) (c + 8)
                         [EvExecutemany (c + 8) sql rows true; EvCommit (c + 7) true]
                    ++ after)).
Proof.
  intros Hsplit Hc Hk Hq Hf Hcm Hmany.
  destruct (pipeline_reaches_resolution env s staging_tablename stagingTableOptionalColumns
              dateColumnConversion dataDF_columns rows Hc Hk) as (before & Nb & _ & Hpipe).
  pose proof (retrieve_resolves env (extend s before) staging_tablename owner table_name rest
                stagingTableOptionalColumns records Hsplit (Hc _) (Hk _) Hq Hf Hcm) as Hret.
  match type of Hret with _ = (_, ?st) => set (s3 := st) in * end.
  assert (Hsql : exists sql,
            data_insertion_query staging_tablename
              (Some (resolve records stagingTableOptionalColumns)) dataDF_columns
              dateColumnConversion = Ok sql) by (eexists; reflexivity).
  destruct Hsql as (sql & Hsql).
  pose proof (load_succeeds env s3 staging_tablename _ dataDF_columns rows
                dateColumnConversion sql Hsql (Hc _) (Hk _) (fun t => Hmany t sql) Hcm)
    as Hload.
  assert (Hlen : length (trace s3) = length (trace s ++ before) + 7).
  { subst s3. simpl. rewrite !length_app. simpl. lia. }
  rewrite Hlen in Hload.
  replace (S (length (trace s ++ before) + 7))
    with (length (trace s ++ before) + 8) in Hload by lia.
  match type of Hload with _ = (_, ?st) => set (s4 := st) in * end.
  destruct (count_returns env s4 staging_tablename Hc Hk) as (after & Hcount & Na).
  exists sql, before, after.
  split; [exact Hsql |]. split; [exact Nb |]. split; [exact Na |].
  intros c. rewrite Hpipe.
  rewrite (bind_ok _ _ _ _ _ _ Hret), (bind_ok _ _ _ _ _ _ Hload), Hcount.
  subst s4 s3. rewrite !extend_extend. reflexivity.
Qed.

(** On such a server, when the driver rejects the bulk insert, the error
    is not caught: it ends the five steps.  Nothing is committed, the
    cursor and the session of the load are closed, and no second count is
    made; the TRUNCATE submitted before is not undone. *)
Theorem rejected_insert_ends_the_run (env : Env) (s : state)
    (staging_tablename owner table_name : string) (rest records : list string)
    (stagingTableOptionalColumns : list string)
    (dateColumnConversion : list dateColConversionDict)
    (dataDF_columns : list string) (rows : list (list pyvalue)) (e : exception) :
  split_dot staging_tablename = owner :: table_name :: rest ->
  (forall t, db_connect env t = None) ->
  (forall t, db_cursor env t = None) ->
  (forall t, db_execute env t (queryToFetchTableColumnNames owner table_name) = None) ->
  (forall t, db_fetchall env t = Ok records) ->
  (forall t, db_commit env t = None) ->
  (forall t sql, db_executemany env t sql rows = Some e) ->
  exists sql before,
    data_insertion_query staging_tablename
      (Some (resolve records stagingTableOptionalColumns)) dataDF_columns
      dateColumnConversion = Ok sql
    /\ no_insert before
    /\ (exists k0 ok0,
          In (EvExecute k0 ("TRUNCATE TABLE " +:+ staging_tablename) ok0) before)
    /\ let c := length (trace s ++ before) in
       pipeline staging_tablename stagingTableOptionalColumns dateColumnConversion
                dataDF_columns rows env s
       = (Raise e,
          extend s (before
                    ++ bracket c (S c)
                         [EvExecute (S c) (queryToFetchTableColumnNames owner table_name)
                            true;
                          EvFetchall (S c); EvCommit c true]
                    ++ bracket (c + 7) (c + 8) [EvExecutemany (c + 8) sql rows false])).
Proof.
  intros Hsplit Hc Hk Hq Hf Hcm Hmany.
  destruct (pipeline_reaches_resolution env s staging_tablename stagingTableOptionalColumns
              dateColumnConversion dataDF_columns rows Hc Hk) as (before & Nb & Htr & Hpipe).
  pose proof (retrieve_resolves env (extend s before) staging_tablename owner table_name rest
                stagingTableOptionalColumns records Hsplit (Hc _) (Hk _) Hq Hf Hcm) as Hret.
  match type of Hret with _ = (_, ?st) => set (s3 := st) in * end.
  assert (Hsql : exists sql,
            data_insertion_query staging_tablename
              (Some (resolve records stagingTableOptionalColumns)) dataDF_columns
              dateColumnConversion = Ok sql) by (eexists; reflexivity).
  destruct Hsql as (sql & Hsql).
  pose proof (load_rejected env s3 staging_tablename _ dataDF_columns rows
                dateColumnConversion sql e Hsql (Hc _) (Hk _) (fun t => Hmany t sql))
    as Hload.
  assert (Hlen : length (trace s3) = length (trace s ++ before) + 7).
  { subst s3. simpl. rewrite !length_app. simpl. lia. }
  rewrite Hlen in Hload.
  replace (S (length (trace s ++ before) + 7))
    with (length (trace s ++ before) + 8) in Hload by lia.
  exists sql, before.
  split; [exact Hsql |]. split; [exact Nb |]. split; [exact Htr |].
  intros c. rewrite Hpipe.
  rewrite (bind_ok _ _ _ _ _ _ Hret), (bind_raise _ _ _ _ _ _ Hload).
  subst s3. rewrite !extend_extend. reflexivity.
Qed.

(** A table name without a dot: on a server that grants sessions and
    cursors and runs the TRUNCATE, the table is truncated and counted, but
    the resolver stops on the missing second component of the name before
    it sends any query, reports an [IndexError] and returns [None]; the
    load step then fails with [TypeError] and nothing is inserted. *)
Theorem unqualified_name_truncates_only (env : Env) (s : state)
    (staging_tablename : string) (stagingTableOptionalColumns : list string)
    (dateColumnConversion : list dateColConversionDict)
    (dataDF_columns : list string) (rows : list (list pyvalue)) :
  length (split_dot staging_tablename) < 2 ->
  (forall t, db_connect env t = None) ->
  (forall t, db_cursor env t = None) ->
  (forall t, db_execute env t ("TRUNCATE TABLE " +:+ staging_tablename) = None) ->
  exists counted,
    no_insert counted
    /\ let c0 := length (trace s) in
       let c := length (trace s) + 5 + length counted in
       pipeline staging_tablename stagingTableOptionalColumns dateColumnConversion
                dataDF_columns rows env s
       = (Raise TypeError,
          extend s (bracket c0 (S c0)
                      [EvExecute (S c0) ("TRUNCATE TABLE " +:+ staging_tablename) true]
                    ++ counted
                    ++ bracket c (S c)
                         [EvPrintError "Failed to retrieve the staging table fields - "
                            IndexError]
                    ++ bracket (c + 5) (c + 6) [])).
Proof.
  intros Hlen Hc Hk Htr.
  assert (Hdel : delete_existing_data_before_load staging_tablename env s
                 = (Ok tt, extend s (bracket (length (trace s)) (S (length (trace s)))
                      [EvExecute (S (length (trace s)))
                         ("TRUNCATE TABLE " +:+ staging_tablename) true]))).
  { unfold delete_existing_data_before_load, call, try_finally, try_except.
    rewrite (bind_ok _ _ _ _ _ _
               (acquire_ok env {| trace := trace s; locals := unbound |} (Hc _) (Hk _))).
    unfold cursor_execute. run_monad. rewrite Htr. simpl.
    unfold extend, bracket. simpl. now rewrite <- !app_assoc. }
  match type of Hdel with _ = (_, ?st) => set (s1 := st) in * end.
  destruct (count_returns env s1 staging_tablename Hc Hk) as (counted & Hcount & Nc).
  pose proof (retrieve_unqualified env (extend s1 counted) staging_tablename
                stagingTableOptionalColumns Hlen (Hc _) (Hk _)) as Hret.
  assert (Hl2 : length (trace (extend s1 counted)) = length (trace s) + 5 + length counted).
  { subst s1. simpl. rewrite !length_app. simpl. lia. }
  rewrite Hl2 in Hret.
  match type of Hret with _ = (_, ?st) => set (s3 := st) in * end.
  pose proof (load_without_columns env s3 staging_tablename dataDF_columns rows
                dateColumnConversion (Hc _) (Hk _)) as Hload.
  assert (Hl3 : length (trace s3) = length (trace s) + 5 + length counted + 5).
  { subst s3 s1. simpl. rewrite ?length_app. simpl. rewrite ?length_app. simpl. lia. }
  rewrite Hl3 in Hload.
  replace (S (length (trace s) + 5 + length counted + 5))
    with (length (trace s) + 5 + length counted + 6) in Hload by lia.
  exists counted. split; [exact Nc |]. intros c0 c.
  unfold pipeline.
  rewrite (bind_ok _ _ _ _ _ _ Hdel), (bind_ok _ _ _ _ _ _ Hcount),
    (bind_ok _ _ _ _ _ _ Hret), (bind_raise _ _ _ _ _ _ Hload).
  subst s3 s1. rewrite !extend_extend. subst c c0. rewrite <- ?app_assoc. reflexivity.
Qed.

Lemma load_goes_through_witness :
  split_dot "S.T" = ["S"; "T"]
  /\ exists sql,
       data_insertion_query "S.T" (Some (resolve ["A"; "B"] [])) ["c1"; "c2"] [] = Ok sql
       /\ sql = "INSERT INTO S.T(A, B) VALUES(:1, :2)"
       /\ fst (pipeline "S.T" [] [] ["c1"; "c2"] [[PyInt 1; PyNone]]
                 (Examples.database ["A"; "B"] Examples.key)
                 {| trace := []; locals := unbound |}) = Ok tt.
Proof.
  split; [reflexivity |].
  destruct (load_goes_through (Examples.database ["A"; "B"] Examples.key)
              {| trace := []; locals := unbound |} "S.T" "S" "T" [] ["A"; "B"] [] []
              ["c1"; "c2"] [[PyInt 1; PyNone]] eq_refl
              (fun _ => eq_refl) (fun _ => eq_refl) (fun _ => eq_refl) (fun _ => eq_refl)
              (fun _ => eq_refl) (fun _ _ => eq_refl))
    as (sql & before & after & Hsql & _ & _ & Hp).
  exists sql. split; [exact Hsql |]. split.
  - vm_compute in Hsql. now injection Hsql as <-.
  - simpl in Hp. now rewrite Hp.
Defined.

Lemma rejected_insert_ends_the_run_witness :
  fst (pipeline "S.T" [] [] ["c1"; "c2"] [[PyInt 1; PyNone]] Examples.insert_rejected
         {| trace := []; locals := unbound |})
  = Raise (DatabaseError "ORA-12899: value too large for column").
Proof.
  destruct (rejected_insert_ends_the_run Examples.insert_rejected
              {| trace := []; locals := unbound |} "S.T" "S" "T" [] ["A"; "B"] [] []
              ["c1"; "c2"] [[PyInt 1; PyNone]]
              (DatabaseError "ORA-12899: value too large for column") eq_refl
              (fun _ => eq_refl) (fun _ => eq_refl) (fun _ => eq_refl) (fun _ => eq_refl)
              (fun _ => eq_refl) (fun _ _ => eq_refl))
    as (sql & before & _ & _ & _ & Hp).
  simpl in Hp. now rewrite Hp.
Defined.

Lemma unqualified_name_truncates_only_witness :
  length (split_dot "TBL_USR") < 2
  /\ fst (pipeline "TBL_USR" [] [] ["c1"; "c2"] [[PyInt 1; PyNone]]
            (Examples.database ["A"; "B"] Examples.key)
            {| trace := []; locals := unbound |}) = Raise TypeError.
Proof.
  assert (Hlen : length (split_dot "TBL_USR") < 2) by (vm_compute; lia).
  split; [exact Hlen |].
  destruct (unqualified_name_truncates_only (Examples.database ["A"; "B"] Examples.key)
              {| trace := []; locals := unbound |} "TBL_USR" [] []
              ["c1"; "c2"] [[PyInt 1; PyNone]] Hlen
              (fun _ => eq_refl) (fun _ => eq_refl) (fun _ => eq_refl))
    as (counted & _ & Hp).
  simpl in Hp. now rewrite Hp.
Defined.

Lemma sessions_never_overlap_witness :
  length (leaked_connections
            [EvGetObject Examples.key; EvConnect (Some 1); EvCursor 1 (Some 2)]) <= 1
  /\ leaked_connections
       [EvGetObject Examples.key; EvConnect (Some 1); EvCursor 1 (Some 2)] = [1].
Proof.
  split; [| reflexivity].
  apply (sessions_never_overlap (Examples.database ["A"; "B"] Examples.key)
           Examples.key "S.T" [] []
           [EvGetObject Examples.key; EvConnect (Some 1); EvCursor 1 (Some 2)]
           [EvExecute 2 "TRUNCATE TABLE S.T" true;
            EvCloseCursor 2; EvCloseConnection 1;
            EvConnect (Some 6); EvCursor 6 (Some 7);
            EvExecute 7 "SELECT COUNT(*) AS ct_recs FROM S.T" true; EvFetchone 7;
            EvCloseCursor 7; EvCloseConnection 6;
            EvConnect (Some 12); EvCursor 12 (Some 13);
            EvExecute 13 (queryToFetchTableColumnNames "S" "T") true;
            EvFetchall 13; EvCommit 12 true;
            EvCloseCursor 13; EvCloseConnection 12;
            EvConnect (Some 19); EvCursor 19 (Some 20);
            EvExecutemany 20 "INSERT INTO S.T(A, B) VALUES(:1, :2)"
              [[PyInt 1; PyNone]] true;
            EvCommit 19 true; EvCloseCursor 20; EvCloseConnection 19;
            EvConnect (Some 25); EvCursor 25 (Some 26);
            EvExecute 26 "SELECT COUNT(*) AS ct_recs FROM S.T" true; EvFetchone 26;
            EvCloseCursor 26; EvCloseConnection 25]).
  vm_compute. reflexivity.
Defined.

Lemma unmatched_path_is_skipped_witness :
  run (read_from_s3_and_write_to_oracle "inputstream/cdw/orders.txt" "S.T" [] [])
      (Examples.database ["A"; "B"] Examples.key) = (Ok tt, [])
  /\ run (read_from_s3_and_write_to_oracle "inputstream/cdw/other.csv" "S.T" [] [])
         (Examples.database ["A"; "B"] Examples.key) = (Ok tt, []).
Proof.
  split.
  - apply (unmatched_path_is_skipped (Examples.database ["A"; "B"] Examples.key)
             [Examples.key]); [reflexivity | left; reflexivity].
  - apply (unmatched_path_is_skipped (Examples.database ["A"; "B"] Examples.key)
             [Examples.key]); [reflexivity | right].
    intros [H | []]. discriminate H.
Defined.

(** The resolver commits after reading the catalog.  When that commit
    fails, the list it has just resolved is lost: the error is reported,
    cursor and session are closed and [None] is returned, as for a failed
    query. *)
Theorem failed_commit_loses_the_columns (env : Env) (s : state)
    (staging_tablename owner table_name : string) (rest records : list string)
    (stagingTableOptionalColumns : list string) (e : exception) :
  split_dot staging_tablename = owner :: table_name :: rest ->
  db_connect env (trace s) = None ->
  db_cursor env (trace s ++ [EvConnect (Some (length (trace s)))]) = None ->
  (forall t, db_execute env t (queryToFetchTableColumnNames owner table_name) = None) ->
  (forall t, db_fetchall env t = Ok records) ->
  (forall t, db_commit env t = Some e) ->
  retrieve_staging_table_column_names staging_tablename stagingTableOptionalColumns env s
  = (Ok None,
     extend s (bracket (length (trace s)) (S (length (trace s)))
                 [EvExecute (S (length (trace s)))
                    (queryToFetchTableColumnNames owner table_name) true;
                  EvFetchall (S (length (trace s)));
                  EvCommit (length (trace s)) false;
                  EvPrintError "Failed to retrieve the staging table fields - " e])).
Proof.
  intros Hsplit Hc Hk Hq Hf Hcm.
  unfold retrieve_staging_table_column_names, call, try_finally, try_except.
  rewrite (bind_ok _ _ _ _ _ _ (acquire_ok env {| trace := trace s; locals := unbound |} Hc Hk)).
  unfold cursor_execute, cursor_fetchall, connection_commit, item, print_error. run_monad.
  rewrite Hsplit. simpl. rewrite Hq. simpl. rewrite Hf. simpl. rewrite Hcm. simpl.
  unfold extend, bracket. simpl. now rewrite <- !app_assoc.
Qed.

Lemma failed_commit_loses_the_columns_witness :
  run (retrieve_staging_table_column_names "S.T" []) Examples.commit_refused
  = (Ok None,
     [EvConnect (Some 0); EvCursor 0 (Some 1);
      EvExecute 1 (queryToFetchTableColumnNames "S" "T") true;
      EvFetchall 1; EvCommit 0 false;
      EvPrintError "Failed to retrieve the staging table fields - "
        (DatabaseError "ORA-03114: not connected to ORACLE");
      EvCloseCursor 1; EvCloseConnection 0]).
Proof.
  unfold run.
  rewrite (failed_commit_loses_the_columns Examples.commit_refused
             {| trace := []; locals := unbound |} "S.T" "S" "T" [] ["A"; "B"] []
             (DatabaseError "ORA-03114: not connected to ORACLE") eq_refl eq_refl eq_refl
             (fun _ => eq_refl) (fun _ => eq_refl) (fun _ => eq_refl)).
  reflexivity.
Defined.
